(** * PayAid WhatsApp module: a shallow embedding of the API route handlers

    The development follows the TypeScript sources of the WhatsApp module:
    the webhook routes ([webhooks/status], [webhooks/message]), the
    tenant-facing routes (accounts, sessions, conversations, messages,
    templates, send) and the licence guard of [@payaid/auth].

    Modelling conventions.
    - A database table is the list of its rows in insertion order; Prisma's
      [findFirst]/[findUnique] return the first row that satisfies the
      [where] clause, [update] rewrites the first row with the given id.
    - A nullable column is an [option]; a stored [Date] is its time value
      in milliseconds ([Z]), a [Date] object built by a route may also be
      an Invalid Date; a JavaScript string is the [string] of its UTF-8
      bytes.
    - Every [await] of a route handler is one node of a program tree
      ([Prog]); a tree is run to completion against a [World] (sequential
      processing of a request) or stepped under a schedule (two requests
      whose awaits interleave).
    - What the sources do not contain (the JWT library, the bridge service,
      zod's URL check, the clock, the Unicode case tables, the column
      defaults of the schema, whether the datastore accepts a write) is an
      oracle of the environment [Env]. *)

From Stdlib Require Import ZArith Ascii String List Bool Lia.
From stdpp Require Import base strings list option gmap pretty.

Local Open Scope string_scope.
Local Open Scope Z_scope.

(** ** JavaScript values *)

Module Js.

(** Truthiness of a string: only the empty string is falsy. *)
Definition truthy (s : string) : bool := negb (String.eqb s "").

(** Truthiness of a possibly [undefined]/[null] string. *)
Definition truthyO (o : option string) : bool :=
  match o with Some s => truthy s | None => false end.

(** [a || b] on possibly missing strings. *)
Definition or (a b : option string) : option string :=
  if truthyO a then a else b.

(** [a || 'literal']. *)
Definition orD (a : option string) (d : string) : string :=
  match a with
  | Some s => if truthy s then s else d
  | None => d
  end.

(** [a || null] (or [a || undefined]) for a possibly missing string. *)
Definition orNullO (o : option string) : option string :=
  if truthyO o then o else None.

(** The text of [o] inside a template literal. *)
Definition show (o : option string) : string :=
  match o with Some s => s | None => "null" end.

(** [a || null] for a string that is always defined. *)
Definition orNull (s : string) : option string :=
  if truthy s then Some s else None.

(** Truthiness of a possibly missing number: [0] is falsy. *)
Definition truthyZ (o : option Z) : bool :=
  match o with Some z => negb (Z.eqb z 0) | None => false end.

Definition upper_ascii (c : ascii) : ascii :=
  let n := nat_of_ascii c in
  if (Nat.leb 97 n && Nat.leb n 122)%bool then ascii_of_nat (n - 32) else c.

(** The upper case of a string of ASCII characters: the letters a-z are
    mapped, nothing else changes. *)
Fixpoint upperAscii (s : string) : string :=
  match s with
  | EmptyString => EmptyString
  | String c r => String (upper_ascii c) (upperAscii r)
  end.

(** Every character of the string is an ASCII one (no byte above 127). *)
Fixpoint isAscii (s : string) : bool :=
  match s with
  | EmptyString => true
  | String c r => (Nat.ltb (nat_of_ascii c) 128 && isAscii r)%bool
  end.

(** [String.prototype.toUpperCase]. On ASCII text it is [upperAscii];
    for text with other characters the result is read off the Unicode
    case tables of the runtime ([unicode]), which map some of them to
    ASCII letters. *)
Definition toUpperCase (unicode : string -> string) (s : string) : string :=
  if isAscii s then upperAscii s else unicode s.

(** A number as [parseInt] returns it: [NaN], an integer or an
    infinity. *)
Inductive Num : Type :=
| NaN
| Int (z : Z)
| Infinity (negative : bool).

(** [Math.min(a, b)] for an integer [b]. *)
Definition mathMin (a : Num) (b : Z) : Num :=
  match a with
  | NaN => NaN
  | Int z => Int (Z.min z b)
  | Infinity true => Infinity true
  | Infinity false => Int b
  end.

Definition quotationMark : ascii := "034"%char.
Definition reverseSolidus : ascii := "092"%char.

Definition hexDigit (n : nat) : ascii :=
  ascii_of_nat (if Nat.ltb n 10 then 48 + n else 87 + n).

(** One character of a string inside [JSON.stringify]: the quotation
    mark, the reverse solidus and the control characters are escaped. *)
Definition jsonChar (c : ascii) : string :=
  let n := nat_of_ascii c in
  let escape (x : ascii) := String reverseSolidus (String x EmptyString) in
  if Nat.eqb n 8 then escape "b"%char
  else if Nat.eqb n 9 then escape "t"%char
  else if Nat.eqb n 10 then escape "n"%char
  else if Nat.eqb n 12 then escape "f"%char
  else if Nat.eqb n 13 then escape "r"%char
  else if Nat.eqb n 34 then escape quotationMark
  else if Nat.eqb n 92 then escape reverseSolidus
  else if Nat.ltb n 32 then
    String reverseSolidus
      (String "u" (String "0" (String "0"
         (String (hexDigit (n / 16)) (String (hexDigit (n mod 16)) EmptyString)))))
  else String c EmptyString.

Fixpoint jsonChars (s : string) : string :=
  match s with
  | EmptyString => EmptyString
  | String c r => jsonChar c +:+ jsonChars r
  end.

(** [JSON.stringify(s)] for a string [s]. *)
Definition jsonString (s : string) : string :=
  String quotationMark (jsonChars s +:+ String quotationMark EmptyString).

(** [s.startsWith(p)]. *)
Definition startsWith (p s : string) : bool := String.prefix p s.

(** [s.substring(n)]. *)
Definition substringFrom (n : nat) (s : string) : string :=
  String.substring n (String.length s - n) s.

(** [xs.join(', ')]. *)
Fixpoint join (sep : string) (xs : list string) : string :=
  match xs with
  | [] => ""
  | [x] => x
  | x :: r => x +:+ sep +:+ join sep r
  end.

(** [xs.includes(x)]. *)
Definition includes (x : string) (xs : list string) : bool :=
  existsb (String.eqb x) xs.

(** A field of a parsed JSON body as zod's [z.string()] sees it. *)
Inductive Field : Type :=
| Undefined
| Str (s : string)
| NotString.

(** Plain JavaScript objects sent as JSON: a finite map from property
    names to values. *)
#[warnings="-register-all"]
Inductive Value : Type :=
| VNull
| VBool (b : bool)
| VNum (z : Z)
| VStr (s : string)
| VObj (o : gmap string Value)
| VArr (l : list Value).

Definition vstrO (o : option string) : Value :=
  match o with Some s => VStr s | None => VNull end.

Definition vnumO (o : option Z) : Value :=
  match o with Some z => VNum z | None => VNull end.

End Js.

(** ** Data model (the Prisma rows the handlers read and write) *)

Definition Id := string.
Definition Date := Z.

(** A [Date] object: its time value, or an Invalid Date. *)
Inductive DateObject : Type :=
| ValidDate (time : Date)
| InvalidDate.

(** [new Date(ms)]: a time value more than 8.64e15 milliseconds from the
    epoch gives an Invalid Date. *)
Definition newDate (ms : Z) : DateObject :=
  if Z.abs ms <=? 8640000000000000 then ValidDate ms else InvalidDate.

Record Account : Type := mkAccount {
  acc_id : Id;
  acc_tenantId : string;
  acc_deploymentType : string;
  acc_channelType : string;
  acc_wahaBaseUrl : option string;
  acc_wahaApiKey : option string;
  acc_internalWahaUrl : option string;
  acc_internalApiKey : option string;
  acc_accessToken : option string;
  acc_metaAppSecret : option string;
  acc_paynaidInstanceId : option string;
  acc_businessName : option string;
  acc_primaryPhone : option string;
  acc_isWebConnected : bool;
  acc_status : string;
  acc_errorMessage : option string
}.

Record Session : Type := mkSession {
  ses_id : Id;
  ses_accountId : Id;
  ses_employeeId : option string;
  ses_providerSessionId : option string;
  ses_qrCodeUrl : option string;
  ses_status : string;
  ses_deviceName : option string;
  ses_phoneNumber : option string;
  ses_isActive : bool;
  ses_dailySentCount : Z;
  ses_dailyRecvCount : Z;
  ses_lastSyncAt : option Date;
  ses_lastSeenAt : option Date
}.

Record Contact : Type := mkContact {
  con_id : Id;
  con_tenantId : string;
  con_name : string;
  con_email : string;
  con_phone : string;
  con_type : string;
  con_status : string;
  con_source : string
}.

Record ContactIdentity : Type := mkIdentity {
  idt_id : Id;
  idt_contactId : Id;
  idt_whatsappNumber : string;
  idt_verified : bool;
  idt_verificationDate : option Date
}.

Record Conversation : Type := mkConversation {
  cnv_id : Id;
  cnv_accountId : Id;
  cnv_contactId : Id;
  cnv_sessionId : option Id;
  cnv_status : string;
  cnv_lastMessageAt : option Date;
  cnv_lastDirection : option string;
  cnv_unreadCount : Z;
  cnv_ticketId : option string
}.

Record Message : Type := mkMessage {
  msg_id : Id;
  msg_conversationId : Id;
  msg_sessionId : Id;
  msg_employeeId : option string;
  msg_direction : string;
  msg_messageType : string;
  msg_whatsappMessageId : string;
  msg_fromNumber : string;
  msg_toNumber : string;
  msg_text : option string;
  msg_mediaUrl : option string;
  msg_mediaMimeType : option string;
  msg_mediaCaption : option string;
  msg_templateId : option string;
  msg_status : string;
  msg_errorCode : option string;
  msg_errorMessage : option string;
  msg_sentAt : option Date;
  msg_deliveredAt : option Date;
  msg_readAt : option Date;
  msg_createdAt : Date
}.

Record Template : Type := mkTemplate {
  tpl_id : Id;
  tpl_accountId : Id;
  tpl_name : string;
  tpl_category : string;
  tpl_languageCode : string;
  tpl_bodyTemplate : string;
  tpl_headerType : option string;
  tpl_headerContent : option string;
  tpl_footerContent : option string;
  tpl_buttons : option string;
  tpl_createdById : string
}.

Record AuditLog : Type := mkAudit {
  aud_accountId : Id;
  aud_sessionId : option Id;
  aud_action : string;
  aud_status : string;
  aud_description : option string;
  aud_details : option string;
  aud_errorCode : option string;
  aud_errorMessage : option string;
  aud_userId : option string;
  aud_ipAddress : option string;
  aud_userAgent : option string
}.

Record Store : Type := mkStore {
  accounts : list Account;
  sessions : list Session;
  contacts : list Contact;
  identities : list ContactIdentity;
  conversations : list Conversation;
  messages : list Message;
  templates : list Template;
  auditLogs : list AuditLog;
  nextId : N
}.

Inductive Table : Type :=
| TAccount | TSession | TContact | TIdentity | TConversation | TMessage
| TTemplate | TAuditLog.

(** ** Environment, world and exceptions *)

(** The claims of a verified JWT ([JWTPayload] of [@payaid/auth]). *)
Record JWTPayload : Type := mkJWT {
  jwt_userId : string;
  jwt_tenantId : string;
  jwt_email : string;
  jwt_role : string;
  jwt_licensedModules : option (list string);
  jwt_subscriptionTier : option string
}.

(** One axios request to the bridge service. *)
Record HttpCall : Type := mkCall {
  hc_method : string;
  hc_url : string;
  hc_bearer : option string;
  hc_body : option (gmap string Js.Value)
}.

(** The properties of a bridge response the handlers read. *)
Record ProviderData : Type := mkData {
  pd_truthy : bool;
  pd_state : option string;
  pd_status : option string;
  pd_meUser : option string;
  pd_phoneNumber : option string;
  pd_messageId : option string;
  pd_id : option string;
  pd_qr : option string;
  pd_qrcode : option string
}.

(** An axios call resolves with the response data or rejects with an error
    that may carry the upstream response ([error.response.status],
    [error.response.data.message]) and always has a [message]. *)
Inductive HttpResult : Type :=
| HttpOk (data : ProviderData)
| HttpFail (response : option (Z * option string)) (message : string).

(** The values the schema gives to the columns of a new session row
    that a [create] does not set (the schema is not in the sources). *)
Record SessionDefaults : Type := mkSessionDefaults {
  def_phoneNumber : option string;
  def_isActive : bool;
  def_dailySentCount : Z;
  def_dailyRecvCount : Z;
  def_lastSyncAt : option Date;
  def_lastSeenAt : option Date
}.

Record Env : Type := mkEnv {
  clock : Date;
  verifyToken : string -> option JWTPayload;
  isUrl : string -> bool;
  http : HttpCall -> HttpResult;
  writeFails : Table -> bool;
  unicodeUpper : string -> string;
  sessionDefaults : SessionDefaults
}.

Record World : Type := mkWorld {
  store : Store;
  console : list string;
  calls : list HttpCall
}.

Inductive Exn : Type :=
| LicenseError (moduleId message : string)
| ZodError
| SyntaxError
| TypeError
| Error_ (message : string)
| PrismaError (code : string)
| PrismaValidationError
| ReferenceError (name : string)
| AxiosError (response : option (Z * option string)) (message : string).

Inductive Outcome (A : Type) : Type :=
| Ok (a : A)
| Fail (e : Exn).
Arguments Ok {A} a.
Arguments Fail {A} e.

(** ** Programs: one node per [await] *)

Inductive Prog (A : Type) : Type :=
| Ret (a : A)
| Throw (e : Exn)
| Await {B : Type} (act : World -> B * World) (k : B -> Prog A).
Arguments Ret {A} a.
Arguments Throw {A} e.
Arguments Await {A B} act k.

Fixpoint bind {A B} (p : Prog A) (f : A -> Prog B) : Prog B :=
  match p with
  | Ret a => f a
  | Throw e => Throw e
  | Await act k => Await act (fun b => bind (k b) f)
  end.

Notation "'let*' x ':=' p 'in' k" := (bind p (fun x => k))
  (at level 10, x pattern, p at level 100, k at level 200).

(** [try { p } catch (e) { h e }]. *)
Fixpoint try_catch {A} (p : Prog A) (h : Exn -> Prog A) : Prog A :=
  match p with
  | Ret a => Ret a
  | Throw e => h e
  | Await act k => Await act (fun b => try_catch (k b) h)
  end.

(** Sequential execution of one request. *)
Fixpoint run {A} (p : Prog A) (w : World) : Outcome A * World :=
  match p with
  | Ret a => (Ok a, w)
  | Throw e => (Fail e, w)
  | Await act k => let '(b, w') := act w in run (k b) w'
  end.

(** One scheduling step of a request in flight: the pending [await]
    completes against the current world. *)
Definition step {A} (p : Prog A) (w : World) : Prog A * World :=
  match p with
  | Await act k => let '(b, w') := act w in (k b, w')
  | _ => (p, w)
  end.

(** Two requests in flight; the schedule says whose [await] completes
    next ([true]: the first request). *)
Fixpoint interleave {A} (sched : list bool) (p q : Prog A) (w : World)
  : Prog A * Prog A * World :=
  match sched with
  | [] => (p, q, w)
  | true :: r => let '(p', w') := step p w in interleave r p' q w'
  | false :: r => let '(q', w') := step q w in interleave r p q' w'
  end.

Definition finished {A} (p : Prog A) : bool :=
  match p with Await _ _ => false | _ => true end.

Definition set_store (w : World) (s : Store) : World :=
  mkWorld s (console w) (calls w).

(** [console.warn]/[console.error]: the message is appended to the
    console; the logged error object is not rendered. *)
Definition log (m : string) : Prog unit :=
  Await (fun w => (tt, mkWorld (store w) (console w ++ [m])%list (calls w))) Ret.

Definition lift {A} (o : Outcome A) : Prog A :=
  match o with Ok a => Ret a | Fail e => Throw e end.

(** ** HTTP responses of the routes *)

Inductive Body : Type :=
| BError (error : string)
| BLicense (error moduleId : string)
| BRedirectHint (error redirectTo : string)
| BValidation
| BSuccess
| BMessage (m : Message)
| BSession (s : Session)
| BSessions (l : list Session)
| BSessionStatus (status : string) (phoneNumber : option string)
                 (lastSyncAt lastSeenAt : option Date)
| BConversation (c : Conversation)
| BMessages (l : list Message) (total : nat)
| BTemplate (t : Template)
| BTemplates (l : list Template)
| BObject (o : gmap string Js.Value)
| BAccounts (l : list (gmap string Js.Value)).

Record Response : Type := mkResponse {
  rs_status : nat;
  rs_body : Body
}.

(** [NextResponse.json(body, { status })]. *)
Definition json (status : nat) (b : Body) : Response := mkResponse status b.

(** ** The datastore (Prisma client) *)

Module Db.

Definition fresh (s : Store) : Id := "id" +:+ pretty (nextId s).

Definition set_accounts (s : Store) (l : list Account) : Store :=
  mkStore l (sessions s) (contacts s) (identities s) (conversations s)
          (messages s) (templates s) (auditLogs s) (nextId s).
Definition set_sessions (s : Store) (l : list Session) : Store :=
  mkStore (accounts s) l (contacts s) (identities s) (conversations s)
          (messages s) (templates s) (auditLogs s) (nextId s).
Definition set_contacts (s : Store) (l : list Contact) : Store :=
  mkStore (accounts s) (sessions s) l (identities s) (conversations s)
          (messages s) (templates s) (auditLogs s) (nextId s).
Definition set_identities (s : Store) (l : list ContactIdentity) : Store :=
  mkStore (accounts s) (sessions s) (contacts s) l (conversations s)
          (messages s) (templates s) (auditLogs s) (nextId s).
Definition set_conversations (s : Store) (l : list Conversation) : Store :=
  mkStore (accounts s) (sessions s) (contacts s) (identities s) l
          (messages s) (templates s) (auditLogs s) (nextId s).
Definition set_messages (s : Store) (l : list Message) : Store :=
  mkStore (accounts s) (sessions s) (contacts s) (identities s)
          (conversations s) l (templates s) (auditLogs s) (nextId s).
Definition set_templates (s : Store) (l : list Template) : Store :=
  mkStore (accounts s) (sessions s) (contacts s) (identities s)
          (conversations s) (messages s) l (auditLogs s) (nextId s).
Definition set_auditLogs (s : Store) (l : list AuditLog) : Store :=
  mkStore (accounts s) (sessions s) (contacts s) (identities s)
          (conversations s) (messages s) (templates s) l (nextId s).

Definition bump (s : Store) : Store :=
  mkStore (accounts s) (sessions s) (contacts s) (identities s)
          (conversations s) (messages s) (templates s) (auditLogs s)
          (N.succ (nextId s)).

(** [update({ where, data })] on one table: the first row that matches is
    rewritten and returned; no such row is Prisma's P2025. *)
Fixpoint update_first {R} (p : R -> bool) (f : R -> R) (l : list R)
  : option (R * list R) :=
  match l with
  | [] => None
  | x :: r =>
      if p x then Some (f x, f x :: r)
      else match update_first p f r with
           | Some (y, r') => Some (y, x :: r')
           | None => None
           end
  end.

(** A query: it reads the store and cannot change it. *)
Definition read {B} (f : Store -> B) : Prog B :=
  Await (fun w => (f (store w), w)) Ret.

(** A write to table [t]: the datastore may reject it (then nothing is
    written and the call throws), otherwise [f] is applied. *)
Definition write {B} (env : Env) (t : Table) (f : Store -> Outcome (B * Store))
  : Prog B :=
  Await (fun w =>
           if writeFails env t then (Fail (PrismaError "P1001"), w)
           else match f (store w) with
                | Ok (b, s') => (Ok b, set_store w s')
                | Fail e => (Fail e, w)
                end)
        lift.

Definition create {R B} (mk : Id -> R) (tbl : Store -> list R)
    (set : Store -> list R -> Store) (ret : R -> B) (s : Store)
  : Outcome (B * Store) :=
  let r := mk (fresh s) in Ok (ret r, bump (set s (tbl s ++ [r])%list)).

Definition update {R} (p : R -> bool) (f : R -> R) (tbl : Store -> list R)
    (set : Store -> list R -> Store) (s : Store) : Outcome (R * Store) :=
  match update_first p f (tbl s) with
  | Some (r, l) => Ok (r, set s l)
  | None => Fail (PrismaError "P2025")
  end.

(** A [Date] object in the [data] of a write: the client validates the
    arguments before it sends them and refuses an Invalid Date. *)
Definition withDate {B} (d : DateObject) (f : Date -> Store -> Outcome B)
  : Store -> Outcome B :=
  match d with
  | ValidDate t => f t
  | InvalidDate => fun _ => Fail PrismaValidationError
  end.

(** The same for a nullable column: [null] is written as it is. *)
Definition withDateO {B} (d : option DateObject)
    (f : option Date -> Store -> Outcome B) : Store -> Outcome B :=
  match d with
  | Some o => withDate o (fun t => f (Some t))
  | None => f None
  end.

(** A query that the client can refuse. *)
Definition query {B} (f : Store -> Outcome B) : Prog B :=
  bind (read f) lift.

(** [take] and [skip] of a [findMany] on the rows in the order of the
    query. Both are integer arguments: a value that is not an integer is
    refused, and so is a negative [skip]. A negative [take] counts from
    the end of the list: the rows are taken in reverse order, after the
    skipped ones, and returned in the order of the query. *)
Definition window {R} (take_ skip : Js.Num) (rows : list R) : Outcome (list R) :=
  match take_, skip with
  | Js.Int t, Js.Int k =>
      if k <? 0 then Fail PrismaValidationError
      else if 0 <=? t then Ok (take (Z.to_nat t) (drop (Z.to_nat k) rows))
      else Ok (rev (take (Z.to_nat (- t)) (drop (Z.to_nat k) (rev rows))))
  | _, _ => Fail PrismaValidationError
  end.

End Db.

(** [await request.json()]: [None] is a body that does not parse. *)
Definition requestJson {B} (body : option B) : Prog B :=
  match body with Some b => Ret b | None => Throw SyntaxError end.

(** [new Date(timestamp * 1000)] when [timestamp] is truthy, else
    [new Date()]. *)
Definition eventDate (env : Env) (timestamp : option Z) : DateObject :=
  match timestamp with
  | Some t =>
      if Js.truthyZ timestamp then newDate (t * 1000) else ValidDate (clock env)
  | None => ValidDate (clock env)
  end.

(** ** POST /api/whatsapp/webhooks/status *)

Module WebhookStatus.

Record Data : Type := mkData {
  id : option string;
  status : option string;
  timestamp : option Z
}.

Record Body : Type := mkBody {
  instance : option string;
  data : option Data
}.

Record Request : Type := mkRequest { body : option Body }.

(** Lines 41-56 of the route: the status and the two timestamps written
    back to the message. *)
Definition mapStatus (env : Env) (message : Message)
    (wahaStatus : option string) (timestamp : option Z)
  : string * option DateObject * option DateObject :=
  let newStatus := msg_status message in
  let deliveredAt := option_map ValidDate (msg_deliveredAt message) in
  let readAt := option_map ValidDate (msg_readAt message) in
  let statusUpper :=
    Js.toUpperCase (unicodeUpper env) (Js.orD wahaStatus "") in
  if (String.eqb statusUpper "DELIVERED" || String.eqb statusUpper "ACK")%bool then
    ("delivered",
     match deliveredAt with
     | None => Some (eventDate env timestamp)
     | Some _ => deliveredAt
     end,
     readAt)
  else if String.eqb statusUpper "READ" then
    ("read", deliveredAt, Some (eventDate env timestamp))
  else if (String.eqb statusUpper "FAILED" || String.eqb statusUpper "ERROR")%bool then
    ("failed", deliveredAt, readAt)
  else (newStatus, deliveredAt, readAt).

Definition setStatus (upd : string * option Date * option Date) (m : Message)
  : Message :=
  let '(newStatus, deliveredAt, readAt) := upd in
  mkMessage (msg_id m) (msg_conversationId m) (msg_sessionId m)
    (msg_employeeId m) (msg_direction m) (msg_messageType m)
    (msg_whatsappMessageId m) (msg_fromNumber m) (msg_toNumber m)
    (msg_text m) (msg_mediaUrl m) (msg_mediaMimeType m) (msg_mediaCaption m)
    (msg_templateId m) newStatus (msg_errorCode m) (msg_errorMessage m)
    (msg_sentAt m) deliveredAt readAt (msg_createdAt m).

Definition findMessage (wid : string) (s : Store) : option Message :=
  find (fun m => String.eqb (msg_whatsappMessageId m) wid) (messages s).

Definition POST (env : Env) (request : Request) : Prog Response :=
  try_catch
    (let* b := requestJson (body request) in
     match instance b, data b with
     | Some i, Some d =>
         if negb (Js.truthy i) then
           Ret (json 400 (BError "Invalid webhook payload"))
         else if negb (Js.truthyO (id d)) then
           Ret (json 400 (BError "Missing message ID"))
         else
           let wid := Js.orD (id d) "" in
           let* found := Db.read (findMessage wid) in
           match found with
           | None =>
               let* _ := log ("Message not found: " +:+ wid) in
               Ret (json 404 (BError "Message not found"))
           | Some message =>
               let '(newStatus, deliveredAt, readAt) :=
                 mapStatus env message (status d) (timestamp d) in
               let* _ := Db.write env TMessage
                 (Db.withDateO deliveredAt (fun deliveredAt =>
                  Db.withDateO readAt (fun readAt =>
                    Db.update (fun m => String.eqb (msg_id m) (msg_id message))
                              (setStatus (newStatus, deliveredAt, readAt))
                              messages Db.set_messages))) in
               Ret (json 200 BSuccess)
           end
     | _, _ => Ret (json 400 (BError "Invalid webhook payload"))
     end)
    (fun _ =>
       let* _ := log "POST /api/whatsapp/webhooks/status error:" in
       Ret (json 500 (BError "Webhook processing failed"))).

End WebhookStatus.

(** ** The licence guard ([@payaid/auth], license.ts) *)

Module Auth.

Record Headers : Type := mkHeaders {
  authorization : option string;
  xForwardedFor : option string;
  xRealIp : option string;
  userAgent : option string
}.

(** What [requireModuleAccess] resolves to. *)
Record Caller : Type := mkCaller {
  userId : string;
  tenantId : string
}.

Definition checkModuleAccess (env : Env) (h : Headers) (moduleId : string)
  : Prog Caller :=
  match authorization h with
  | None => Throw (LicenseError moduleId "No authorization token provided")
  | Some authHeader =>
      if (negb (Js.truthy authHeader)
          || negb (Js.startsWith "Bearer " authHeader))%bool then
        Throw (LicenseError moduleId "No authorization token provided")
      else
        let token := Js.substringFrom 7 authHeader in
        match verifyToken env token with
        | None => Throw (LicenseError moduleId "Invalid or expired token")
        | Some payload =>
            if negb (Js.truthy (jwt_tenantId payload)) then
              Throw (LicenseError moduleId "Invalid token: missing tenantId")
            else
              let licensedModules :=
                match jwt_licensedModules payload with
                | Some l => l
                | None => []
                end in
              let subscriptionTier :=
                Js.orD (jwt_subscriptionTier payload) "free" in
              if negb (Js.includes moduleId licensedModules) then
                Throw (LicenseError moduleId
                  ("Module '" +:+ moduleId
                   +:+ "' is not licensed. Licensed modules: "
                   +:+ Js.orD (Some (Js.join ", " licensedModules)) "none"))
              else
                let* _ :=
                  if (String.eqb subscriptionTier "free"
                      && Nat.eqb (List.length licensedModules) 0)%bool then
                    log ("Free tier user accessing module " +:+ moduleId
                         +:+ " without license")
                  else Ret tt in
                Ret (mkCaller (jwt_userId payload) (jwt_tenantId payload))
        end
  end.

Definition requireModuleAccess (env : Env) (h : Headers) (moduleId : string)
  : Prog Caller :=
  try_catch (checkModuleAccess env h moduleId)
    (fun error =>
       match error with
       | LicenseError _ _ => Throw error
       | _ => Throw (LicenseError moduleId "Failed to verify module access")
       end).

(** [hasModuleAccess]: the check that answers instead of throwing. *)
Definition hasModuleAccess (env : Env) (h : Headers) (moduleId : string)
  : Prog bool :=
  try_catch (let* _ := checkModuleAccess env h moduleId in Ret true)
            (fun _ => Ret false).

Definition handleLicenseError (error : Exn) : Response :=
  match error with
  | LicenseError moduleId message => json 403 (BLicense message moduleId)
  | _ => json 500 (BError "Internal server error")
  end.

(** The [catch] block shared by the tenant-facing routes: licence errors
    (recognised by their [moduleId] property) first, then zod's
    validation errors, then everything else. *)
Definition routeCatch (logLine failure : string) (error : Exn) : Prog Response :=
  match error with
  | LicenseError _ _ => Ret (handleLicenseError error)
  | ZodError => Ret (json 400 BValidation)
  | _ => let* _ := log logLine in Ret (json 500 (BError failure))
  end.

Definition ipAddress (h : Headers) : option string :=
  Js.orNullO (Js.or (xForwardedFor h) (xRealIp h)).

End Auth.

(** ** POST /api/whatsapp/webhooks/message *)

Module WebhookMessage.

Record Media : Type := mkMedia {
  url : option string;
  mimeType : option string;
  caption : option string
}.

Record Data : Type := mkData {
  from : option string;
  fromNumber : option string;
  body_ : option string;
  text : option string;
  type : option string;
  id : option string;
  messageId : option string;
  timestamp : option Z;
  mediaUrl : option string;
  mediaMimeType : option string;
  mediaCaption : option string;
  media : option Media
}.

Record Body : Type := mkBody {
  instance : option string;
  data : option Data
}.

Record Request : Type := mkRequest { body : option Body }.

Definition findSession (inst : string) (s : Store)
  : option (Session * option Account) :=
  match find (fun x => bool_decide (ses_providerSessionId x = Some inst))
             (sessions s) with
  | Some session =>
      Some (session,
            find (fun a => String.eqb (acc_id a) (ses_accountId session))
                 (accounts s))
  | None => None
  end.

Definition findIdentity (number : string) (s : Store) : option ContactIdentity :=
  find (fun i => String.eqb (idt_whatsappNumber i) number) (identities s).

Definition findConversation (accountId contactId : Id) (s : Store)
  : option Conversation :=
  find (fun c => (String.eqb (cnv_accountId c) accountId
                  && String.eqb (cnv_contactId c) contactId)%bool)
       (conversations s).

(** [whatsappContactIdentity.create]: [whatsappNumber] is a unique key of
    the table (it is the key of the route's [findUnique]). *)
Definition createIdentity (mk : Id -> ContactIdentity) (s : Store)
  : Outcome (ContactIdentity * Store) :=
  match findIdentity (idt_whatsappNumber (mk (Db.fresh s))) s with
  | Some _ => Fail (PrismaError "P2002")
  | None => Db.create mk identities Db.set_identities (fun r => r) s
  end.

(** [whatsappConversation.create]: [(accountId, contactId)] is the
    compound unique key [accountId_contactId] of the table. *)
Definition createConversation (mk : Id -> Conversation) (s : Store)
  : Outcome (Conversation * Store) :=
  let c := mk (Db.fresh s) in
  match findConversation (cnv_accountId c) (cnv_contactId c) s with
  | Some _ => Fail (PrismaError "P2002")
  | None => Db.create mk conversations Db.set_conversations (fun r => r) s
  end.

Definition touchConversation (at_ : Date) (c : Conversation) : Conversation :=
  mkConversation (cnv_id c) (cnv_accountId c) (cnv_contactId c)
    (cnv_sessionId c) (cnv_status c) (Some at_) (Some "in")
    (cnv_unreadCount c + 1) (cnv_ticketId c).

Definition countReceived (at_ : Date) (x : Session) : Session :=
  mkSession (ses_id x) (ses_accountId x) (ses_employeeId x)
    (ses_providerSessionId x) (ses_qrCodeUrl x) (ses_status x)
    (ses_deviceName x) (ses_phoneNumber x) (ses_isActive x)
    (ses_dailySentCount x) (ses_dailyRecvCount x + 1) (ses_lastSyncAt x)
    (Some at_).

(** [JSON.stringify({ messageType, hasMedia })]. *)
Definition details (messageType : string) (hasMedia : bool) : string :=
  "{" +:+ Js.jsonString "messageType" +:+ ":" +:+ Js.jsonString messageType
  +:+ "," +:+ Js.jsonString "hasMedia" +:+ ":"
  +:+ (if hasMedia then "true" else "false") +:+ "}".

(** Find or create the contact identity of [fromNumber] (lines 45-74). *)
Definition resolveContact (env : Env) (session : Session)
    (account : option Account) (fromNumber : string) : Prog ContactIdentity :=
  let* contactIdentity := Db.read (findIdentity fromNumber) in
  match contactIdentity with
  | Some i => Ret i
  | None =>
      let* tenant :=
        match account with
        | Some a => Ret (acc_tenantId a)
        | None => Throw TypeError
        end in
      let* contact := Db.write env TContact
        (Db.create
           (fun cid => mkContact cid tenant fromNumber "" fromNumber
                         "lead" "active" "whatsapp")
           contacts Db.set_contacts (fun r => r)) in
      Db.write env TIdentity
        (createIdentity
           (fun iid => mkIdentity iid (con_id contact) fromNumber true
                         (Some (clock env))))
  end.

(** Find or create the conversation of the pair (lines 76-95). *)
Definition resolveConversation (env : Env) (session : Session)
    (contactIdentity : ContactIdentity) : Prog Conversation :=
  let* conversation :=
    Db.read (findConversation (ses_accountId session)
                              (idt_contactId contactIdentity)) in
  match conversation with
  | Some c => Ret c
  | None =>
      Db.write env TConversation
        (createConversation
           (fun cid => mkConversation cid (ses_accountId session)
                         (idt_contactId contactIdentity)
                         (Some (ses_id session)) "open" None None 0 None))
  end.

Definition POST (env : Env) (request : Request) : Prog Response :=
  try_catch
    (let* b := requestJson (body request) in
     match instance b, data b with
     | Some inst, Some d =>
         if negb (Js.truthy inst) then
           Ret (json 400 (BError "Invalid webhook payload"))
         else
           let* found := Db.read (findSession inst) in
           match found with
           | None =>
               let* _ := log ("Session not found: " +:+ inst) in
               Ret (json 404 (BError "Session not found"))
           | Some (session, account) =>
               let fromNumber := Js.orD (Js.or (from d) (fromNumber d)) "" in
               let text := Js.orD (Js.or (body_ d) (text d)) "" in
               let messageType := Js.orD (type d) "text" in
               let whatsappMessageId := Js.orD (Js.or (id d) (messageId d)) "" in
               let timestamp := eventDate env (timestamp d) in
               if negb (Js.truthy fromNumber) then
                 Ret (json 400 (BError "Missing from number"))
               else
                 let* contactIdentity :=
                   resolveContact env session account fromNumber in
                 let* conversation :=
                   resolveConversation env session contactIdentity in
                 let* _ := Db.write env TMessage
                   (Db.withDate timestamp (fun createdAt =>
                    Db.create
                      (fun mid =>
                         mkMessage mid (cnv_id conversation) (ses_id session)
                           None "in" messageType whatsappMessageId fromNumber
                           (Js.orD (ses_phoneNumber session) "")
                           (Js.orNull text)
                           (Js.orNullO (Js.or (mediaUrl d)
                                          (mbind url (media d))))
                           (Js.orNullO (Js.or (mediaMimeType d)
                                          (mbind mimeType (media d))))
                           (Js.orNullO (Js.or (mediaCaption d)
                                          (mbind caption (media d))))
                           None "delivered" None None None None None createdAt)
                      messages Db.set_messages (fun r => r))) in
                 let* _ := Db.write env TConversation
                   (Db.withDate timestamp (fun lastMessageAt =>
                    Db.update
                      (fun c => String.eqb (cnv_id c) (cnv_id conversation))
                      (touchConversation lastMessageAt)
                      conversations Db.set_conversations)) in
                 let* _ := Db.write env TSession
                   (Db.update
                      (fun x => String.eqb (ses_id x) (ses_id session))
                      (countReceived (clock env))
                      sessions Db.set_sessions) in
                 let* _ := Db.write env TAuditLog
                   (Db.create
                      (fun _ =>
                         mkAudit (ses_accountId session) (Some (ses_id session))
                           "message_receive" "success"
                           (Some ("Received message from " +:+ fromNumber))
                           (Some (details messageType
                                    (Js.truthyO (mediaUrl d))))
                           None None None None None)
                      auditLogs Db.set_auditLogs (fun r => r)) in
                 Ret (json 200 BSuccess)
           end
     | _, _ => Ret (json 400 (BError "Invalid webhook payload"))
     end)
    (fun _ =>
       let* _ := log "POST /api/whatsapp/webhooks/message error:" in
       Ret (json 500 (BError "Webhook processing failed"))).

End WebhookMessage.

(** ** zod schemas and axios *)

Module Zod.

(** [z.string()]. *)
Definition string_ (f : Js.Field) : Outcome string :=
  match f with Js.Str s => Ok s | _ => Fail ZodError end.

(** [z.string().min(1)]. *)
Definition nonEmpty (f : Js.Field) : Outcome string :=
  match f with
  | Js.Str s => if Js.truthy s then Ok s else Fail ZodError
  | _ => Fail ZodError
  end.

(** [z.string().optional()]. *)
Definition optional (f : Js.Field) : Outcome (option string) :=
  match f with
  | Js.Undefined => Ok None
  | Js.Str s => Ok (Some s)
  | Js.NotString => Fail ZodError
  end.

(** [z.string().url().optional()]. *)
Definition optionalUrl (env : Env) (f : Js.Field) : Outcome (option string) :=
  match f with
  | Js.Undefined => Ok None
  | Js.Str s => if isUrl env s then Ok (Some s) else Fail ZodError
  | Js.NotString => Fail ZodError
  end.

(** [z.enum([...]).optional()]. *)
Definition optionalEnum (allowed : list string) (f : Js.Field)
  : Outcome (option string) :=
  match f with
  | Js.Undefined => Ok None
  | Js.Str s => if Js.includes s allowed then Ok (Some s) else Fail ZodError
  | Js.NotString => Fail ZodError
  end.

End Zod.

(** [axios.get]/[axios.post]: the call is recorded and the bridge answers. *)
Definition axios (env : Env) (call : HttpCall) : Prog ProviderData :=
  Await (fun w => (http env call,
                   mkWorld (store w) (console w) (calls w ++ [call])%list))
        (fun r =>
           match r with
           | HttpOk d => Ret d
           | HttpFail response message => Throw (AxiosError response message)
           end).

(** [error.response] and [error.message] of a caught exception. *)
Definition errorResponse (e : Exn) : option (Z * option string) :=
  match e with AxiosError r _ => r | _ => None end.

Definition errorText (e : Exn) : option string :=
  match e with
  | AxiosError _ m => Some m
  | LicenseError _ m => Some m
  | PrismaError c => Some c
  | PrismaValidationError => Some "Invalid value provided"
  | ReferenceError n => Some (n +:+ " is not defined")
  | ZodError => Some "ZodError"
  | SyntaxError => Some "Unexpected token"
  | TypeError => Some "Cannot read properties of null"
  | Error_ m => Some m
  end.

(** [error.response?.data?.message || error.message || fallback]. *)
Definition upstreamMessage (e : Exn) (fallback : string) : string :=
  Js.orD (Js.or (mbind snd (errorResponse e)) (errorText e)) fallback.

Definition findAccount (id : Id) (s : Store) : option Account :=
  find (fun a => String.eqb (acc_id a) id) (accounts s).

Definition findSessionById (id : Id) (s : Store) : option Session :=
  find (fun x => String.eqb (ses_id x) id) (sessions s).

Definition findConversationById (id : Id) (s : Store) : option Conversation :=
  find (fun c => String.eqb (cnv_id c) id) (conversations s).

(** The audit row the tenant-facing routes append. *)
Definition auditEntry (h : Auth.Headers) (accountId : Id) (sessionId : option Id)
    (action status : string) (description errorCode errorMessage : option string)
    (userId : string) : AuditLog :=
  mkAudit accountId sessionId action status description None errorCode
    errorMessage (Some userId) (Auth.ipAddress h)
    (Js.orNullO (Auth.userAgent h)).

(** ** POST /api/whatsapp/messages/send *)

Module Send.

Record Body : Type := mkBody {
  conversationId : Js.Field;
  text : Js.Field;
  mediaUrl : Js.Field;
  templateId : Js.Field
}.

Record Request : Type := mkRequest {
  headers : Auth.Headers;
  body : option Body
}.

Record Validated : Type := mkValidated {
  v_conversationId : string;
  v_text : option string;
  v_mediaUrl : option string;
  v_templateId : option string
}.

(** [sendMessageSchema.parse(body)]. *)
Definition parse (env : Env) (b : Body) : Outcome Validated :=
  match Zod.nonEmpty (conversationId b), Zod.optional (text b),
        Zod.optionalUrl env (mediaUrl b), Zod.optional (templateId b) with
  | Ok c, Ok t, Ok m, Ok tp => Ok (mkValidated c t m tp)
  | _, _, _, _ => Fail ZodError
  end.

(** The conversation with its [account] and [session] relations. *)
Definition findConversation (id : Id) (s : Store)
  : option (Conversation * option Account * option Session) :=
  match findConversationById id s with
  | Some c =>
      Some (c, findAccount (cnv_accountId c) s,
            mbind (fun sid => findSessionById sid s) (cnv_sessionId c))
  | None => None
  end.

(** The fallback of the session resolution: the first session of the
    account that is connected and active. *)
Definition findConnected (accountId : Id) (s : Store) : option Session :=
  find (fun x => (String.eqb (ses_accountId x) accountId
                  && String.eqb (ses_status x) "connected"
                  && ses_isActive x)%bool)
       (sessions s).

Definition findIdentity (contactId : Id) (s : Store) : option ContactIdentity :=
  find (fun i => String.eqb (idt_contactId i) contactId) (identities s).

Definition findTemplate (id : Id) (s : Store) : option Template :=
  find (fun t => String.eqb (tpl_id t) id) (templates s).

(** What the [try]/[catch] around the bridge call leaves in the local
    variables [whatsappMessageId], [status], [errorCode], [errorMessage]. *)
Record Sent : Type := mkSent {
  whatsappMessageId : string;
  status : string;
  errorCode : string;
  errorMessage : string
}.

Definition messageType (v : Validated) : string :=
  if Js.truthyO (v_templateId v) then "template"
  else if Js.truthyO (v_mediaUrl v) then "image"
  else "text".

Definition touchConversation (at_ : Date) (c : Conversation) : Conversation :=
  mkConversation (cnv_id c) (cnv_accountId c) (cnv_contactId c)
    (cnv_sessionId c) (cnv_status c) (Some at_) (Some "out")
    (cnv_unreadCount c) (cnv_ticketId c).

Definition countSent (at_ : Date) (x : Session) : Session :=
  mkSession (ses_id x) (ses_accountId x) (ses_employeeId x)
    (ses_providerSessionId x) (ses_qrCodeUrl x) (ses_status x)
    (ses_deviceName x) (ses_phoneNumber x) (ses_isActive x)
    (ses_dailySentCount x + 1) (ses_dailyRecvCount x) (ses_lastSyncAt x)
    (Some at_).

(** Lines 219-260: build the payload, call the bridge, catch its error.
    [inl] is the early [return] of the missing template. *)
Definition dispatch (env : Env) (v : Validated) (account : Account)
    (session : Session) (toNumber : string) : Prog (Response + Sent) :=
  try_catch
    (let to : gmap string Js.Value := {[ "to" := Js.VStr toNumber ]} in
     let* sendPayload :=
       if Js.truthyO (v_text v) then
         Ret (inr (<[ "body" := Js.vstrO (v_text v) ]> to))
       else if Js.truthyO (v_mediaUrl v) then
         let withMedia :=
           <[ "media" := Js.VObj {[ "url" := Js.vstrO (v_mediaUrl v) ]} ]> to in
         Ret (inr (if Js.truthyO (v_text v)
                   then <[ "caption" := Js.vstrO (v_text v) ]> withMedia
                   else withMedia))
       else if Js.truthyO (v_templateId v) then
         let* template :=
           Db.read (findTemplate (Js.orD (v_templateId v) "")) in
         match template with
         | None => Ret (inl (json 404 (BError "Template not found")))
         | Some t => Ret (inr (<[ "body" := Js.VStr (tpl_bodyTemplate t) ]> to))
         end
       else Ret (inr to) in
     match sendPayload with
     | inl response => Ret (inl response)
     | inr payload =>
         let* wahaResponse :=
           axios env
             (mkCall "POST"
                (Js.show (acc_wahaBaseUrl account) +:+ "/api/instances/"
                 +:+ Js.show (ses_providerSessionId session) +:+ "/messages")
                (acc_wahaApiKey account) (Some payload)) in
         Ret (inr (mkSent
                     (Js.orD (Js.or (pd_messageId wahaResponse)
                                    (pd_id wahaResponse)) "")
                     "sent" "" ""))
     end)
    (fun error =>
       let* _ := log "WAHA send error:" in
       Ret (inr (mkSent ""
                   "failed"
                   (Js.orD (option_map (fun r => pretty (fst r))
                              (errorResponse error)) "UNKNOWN")
                   (upstreamMessage error "Failed to send message")))).

Definition POST (env : Env) (request : Request) : Prog Response :=
  try_catch
    (let* caller := Auth.requireModuleAccess env (headers request) "marketing" in
     let userId := Auth.userId caller in
     let* b := requestJson (body request) in
     let* validated := lift (parse env b) in
     if (negb (Js.truthyO (v_text validated))
         && negb (Js.truthyO (v_mediaUrl validated))
         && negb (Js.truthyO (v_templateId validated)))%bool then
       Ret (json 400 (BError "text, mediaUrl, or templateId required"))
     else
       let* found := Db.read (findConversation (v_conversationId validated)) in
       match found with
       | None => Ret (json 404 (BError "Conversation not found"))
       | Some (conversation, None, _) => Throw TypeError
       | Some (conversation, Some account, bound) =>
           if negb (String.eqb (acc_tenantId account) (Auth.tenantId caller)) then
             Ret (json 403 (BError "Unauthorized"))
           else
             let* session :=
               match bound with
               | Some x => Ret (Some x)
               | None => Db.read (findConnected (cnv_accountId conversation))
               end in
             match session with
             | None => Ret (json 400 (BError "No active WhatsApp session"))
             | Some session =>
                 let* ident :=
                   Db.read (findIdentity (cnv_contactId conversation)) in
                 match ident with
                 | None => Ret (json 400 (BError "Contact has no WhatsApp number"))
                 | Some ident =>
                     let toNumber := idt_whatsappNumber ident in
                     if negb (Js.truthyO (ses_phoneNumber session)) then
                       Ret (json 400 (BError "Session phone number not available"))
                     else if (negb (Js.truthyO (acc_wahaBaseUrl account))
                              || negb (Js.truthyO (acc_wahaApiKey account)))%bool then
                       Ret (json 400 (BError "WAHA configuration incomplete"))
                     else
                       let fromNumber := Js.orD (ses_phoneNumber session) "" in
                       let* outcome :=
                         dispatch env validated account session toNumber in
                       match outcome with
                       | inl response => Ret response
                       | inr sent =>
                           let* message := Db.write env TMessage
                             (Db.create
                                (fun mid =>
                                   mkMessage mid (v_conversationId validated)
                                     (ses_id session) (Some userId) "out"
                                     (messageType validated)
                                     (whatsappMessageId sent) fromNumber toNumber
                                     (Js.orNullO (v_text validated))
                                     (Js.orNullO (v_mediaUrl validated))
                                     None None
                                     (Js.orNullO (v_templateId validated))
                                     (status sent)
                                     (Js.orNull (errorCode sent))
                                     (Js.orNull (errorMessage sent))
                                     (Some (clock env)) None None (clock env))
                                messages Db.set_messages (fun r => r)) in
                           let* _ := Db.write env TConversation
                             (Db.update
                                (fun c => String.eqb (cnv_id c)
                                            (v_conversationId validated))
                                (touchConversation (clock env))
                                conversations Db.set_conversations) in
                           let* _ := Db.write env TSession
                             (Db.update
                                (fun x => String.eqb (ses_id x) (ses_id session))
                                (countSent (clock env))
                                sessions Db.set_sessions) in
                           let* _ := Db.write env TAuditLog
                             (Db.create
                                (fun _ =>
                                   auditEntry (headers request)
                                     (cnv_accountId conversation)
                                     (Some (ses_id session)) "message_send"
                                     (if String.eqb (status sent) "failed"
                                      then "failure" else "success")
                                     None
                                     (Js.orNull (errorCode sent))
                                     (Js.orNull (errorMessage sent))
                                     userId)
                                auditLogs Db.set_auditLogs (fun r => r)) in
                           Ret (json 201 (BMessage message))
                       end
                 end
             end
       end)
    (Auth.routeCatch "POST /api/whatsapp/messages/send error:"
                     "Failed to send message").

End Send.

(** ** GET /api/whatsapp/sessions/status/[sessionId] *)

Module SessionStatus.

Record Request : Type := mkRequest {
  headers : Auth.Headers;
  sessionId : string
}.

Definition findSession (id : Id) (s : Store) : option (Session * option Account) :=
  match findSessionById id s with
  | Some x => Some (x, findAccount (ses_accountId x) s)
  | None => None
  end.

(** Line 109: the session status a bridge state stands for. *)
Definition mapState (wahaState : string) : string :=
  if (String.eqb wahaState "CONNECTED" || String.eqb wahaState "connected")%bool
  then "connected" else "pending_qr".

Definition refresh (env : Env) (newStatus : string)
    (phoneNumber : option string) (x : Session) : Session :=
  mkSession (ses_id x) (ses_accountId x) (ses_employeeId x)
    (ses_providerSessionId x) (ses_qrCodeUrl x) newStatus
    (ses_deviceName x) phoneNumber (ses_isActive x)
    (ses_dailySentCount x) (ses_dailyRecvCount x) (Some (clock env))
    (if String.eqb newStatus "connected" then Some (clock env)
     else ses_lastSeenAt x).

(** The [try] block of lines 99-127. The two local variables keep what
    was assigned to them when a later statement of the block throws, so
    the block is split at the assignment: an error of the bridge call
    leaves the cached values, an error of the update leaves the new ones. *)
Definition poll (env : Env) (session : Session) (account : Account)
  : Prog (string * option string) :=
  let* answer :=
    try_catch
      (let* d := axios env
         (mkCall "GET"
            (Js.show (acc_wahaBaseUrl account) +:+ "/api/instances/"
             +:+ Js.show (ses_providerSessionId session))
            (acc_wahaApiKey account) None) in
       Ret (Some d))
      (fun _ => let* _ := log "WAHA status check error:" in Ret None) in
  match answer with
  | None => Ret (ses_status session, ses_phoneNumber session)
  | Some d =>
      let wahaState := Js.orD (Js.or (pd_state d) (pd_status d)) "DISCONNECTED" in
      let newStatus := mapState wahaState in
      let phoneNumber :=
        Js.or (Js.or (pd_meUser d) (pd_phoneNumber d)) (ses_phoneNumber session) in
      let* _ :=
        if (negb (String.eqb newStatus (ses_status session))
            || negb (bool_decide (phoneNumber = ses_phoneNumber session)))%bool then
          try_catch
            (let* _ := Db.write env TSession
               (Db.update (fun x => String.eqb (ses_id x) (ses_id session))
                          (refresh env newStatus phoneNumber)
                          sessions Db.set_sessions) in
             Ret tt)
            (fun _ => log "WAHA status check error:")
        else Ret tt in
      Ret (newStatus, phoneNumber)
  end.

Definition GET (env : Env) (request : Request) : Prog Response :=
  try_catch
    (let* caller := Auth.requireModuleAccess env (headers request) "marketing" in
     let* found := Db.read (findSession (sessionId request)) in
     match found with
     | None => Ret (json 404 (BError "Session not found"))
     | Some (session, None) => Throw TypeError
     | Some (session, Some account) =>
         if negb (String.eqb (acc_tenantId account) (Auth.tenantId caller)) then
           Ret (json 403 (BError "Unauthorized"))
         else
           let* polled :=
             if (Js.truthyO (acc_wahaBaseUrl account)
                 && Js.truthyO (acc_wahaApiKey account)
                 && Js.truthyO (ses_providerSessionId session))%bool then
               poll env session account
             else Ret (ses_status session, ses_phoneNumber session) in
           Ret (json 200 (BSessionStatus (fst polled) (snd polled)
                            (ses_lastSyncAt session) (ses_lastSeenAt session)))
     end)
    (Auth.routeCatch "GET /api/whatsapp/sessions/status/[sessionId] error:"
                     "Failed to check status").

End SessionStatus.

(** ** GET /api/whatsapp/sessions/[accountId] *)

Module SessionList.

Record Request : Type := mkRequest {
  headers : Auth.Headers;
  accountId : string
}.

(** [findMany] ordered by [createdAt] descending: the rows of the account,
    latest insertion first. The [include]d relations are not rendered. *)
Definition findSessions (accountId : Id) (s : Store) : list Session :=
  rev (filter (fun x => ses_accountId x = accountId) (sessions s)).

Definition GET (env : Env) (request : Request) : Prog Response :=
  try_catch
    (let* caller := Auth.requireModuleAccess env (headers request) "marketing" in
     let* account := Db.read (findAccount (accountId request)) in
     match account with
     | None => Ret (json 403 (BError "Unauthorized"))
     | Some account =>
         if negb (String.eqb (acc_tenantId account) (Auth.tenantId caller)) then
           Ret (json 403 (BError "Unauthorized"))
         else
           let* rows := Db.read (findSessions (accountId request)) in
           Ret (json 200 (BSessions rows))
     end)
    (Auth.routeCatch "GET /api/whatsapp/sessions/[accountId] error:"
                     "Failed to fetch sessions").

End SessionList.

(** ** POST /api/whatsapp/sessions *)

Module SessionCreate.

Record Body : Type := mkBody {
  accountId : Js.Field;
  employeeId : Js.Field;
  deviceName : Js.Field
}.

Record Request : Type := mkRequest {
  headers : Auth.Headers;
  body : option Body
}.

Record Validated : Type := mkValidated {
  v_accountId : string;
  v_employeeId : option string;
  v_deviceName : option string
}.

(** [createSessionSchema.parse(body)]. *)
Definition parse (b : Body) : Outcome Validated :=
  match Zod.nonEmpty (accountId b), Zod.optional (employeeId b),
        Zod.optional (deviceName b) with
  | Ok a, Ok e, Ok d => Ok (mkValidated a e d)
  | _, _, _ => Fail ZodError
  end.

(** Lines 45-72: create the bridge instance and fetch its QR code; [inl]
    is the [return] of the [catch] block. *)
Definition provision (env : Env) (account : Account) (sessionName : string)
  : Prog (Response + string) :=
  try_catch
    (let* _ := axios env
       (mkCall "POST" (Js.show (acc_wahaBaseUrl account) +:+ "/api/instances")
          (acc_wahaApiKey account)
          (Some {[ "name" := Js.VStr sessionName ]})) in
     let* qrResponse := axios env
       (mkCall "GET"
          (Js.show (acc_wahaBaseUrl account) +:+ "/api/instances/"
           +:+ sessionName +:+ "/qr")
          (acc_wahaApiKey account) None) in
     Ret (inr (Js.orD (Js.or (pd_qr qrResponse) (pd_qrcode qrResponse)) "")))
    (fun error =>
       let* _ := log "WAHA session creation error:" in
       Ret (inl (json 500
                   (BError ("Failed to create WAHA session: "
                            +:+ upstreamMessage error
                                  "Failed to create WAHA session"))))).

(** The row written by line 75: the route sets [accountId],
    [employeeId], [providerSessionId], [qrCodeUrl], [status] and
    [deviceName]; the other columns take the defaults of the schema. *)
Definition newSession (env : Env) (v : Validated) (sessionName qrCodeUrl : string)
    (id : Id) : Session :=
  let defaults := sessionDefaults env in
  mkSession id (v_accountId v) (Js.orNullO (v_employeeId v))
    (Some sessionName) (Some qrCodeUrl) "pending_qr"
    (Some (Js.orD (v_deviceName v) "Device"))
    (def_phoneNumber defaults) (def_isActive defaults)
    (def_dailySentCount defaults) (def_dailyRecvCount defaults)
    (def_lastSyncAt defaults) (def_lastSeenAt defaults).

Definition POST (env : Env) (request : Request) : Prog Response :=
  try_catch
    (let* caller := Auth.requireModuleAccess env (headers request) "marketing" in
     let tenantId := Auth.tenantId caller in
     let* b := requestJson (body request) in
     let* validated := lift (parse b) in
     let* account := Db.read (findAccount (v_accountId validated)) in
     match account with
     | None => Ret (json 403 (BError "Unauthorized"))
     | Some account =>
         if negb (String.eqb (acc_tenantId account) tenantId) then
           Ret (json 403 (BError "Unauthorized"))
         else if (negb (Js.truthyO (acc_wahaBaseUrl account))
                  || negb (Js.truthyO (acc_wahaApiKey account)))%bool then
           Ret (json 400 (BError "WAHA configuration incomplete"))
         else
           let sessionName :=
             tenantId +:+ "-" +:+ Js.orD (v_employeeId validated) "shared"
             +:+ "-" +:+ pretty (clock env) in
           let* provisioned := provision env account sessionName in
           match provisioned with
           | inl response => Ret response
           | inr qrCodeUrl =>
               let* session := Db.write env TSession
                 (Db.create (newSession env validated sessionName qrCodeUrl)
                            sessions Db.set_sessions (fun r => r)) in
               let* _ := Db.write env TAuditLog
                 (Db.create
                    (fun _ =>
                       auditEntry (headers request) (v_accountId validated)
                         (Some (ses_id session)) "session_create" "success"
                         (Some ("Created session " +:+ sessionName))
                         None None (Auth.userId caller))
                    auditLogs Db.set_auditLogs (fun r => r)) in
               Ret (json 201 (BSession session))
           end
     end)
    (Auth.routeCatch "POST /api/whatsapp/sessions error:"
                     "Failed to create session").

End SessionCreate.

(** ** GET and PATCH /api/whatsapp/conversations/[conversationId] *)

Module ConversationRoute.

Record GetRequest : Type := mkGet {
  g_headers : Auth.Headers;
  g_conversationId : string
}.

(** The [account] relation as the GET route selects it: [id],
    [businessName] and [status] only. *)
Record AccountSummary : Type := mkSummary {
  sum_id : Id;
  sum_businessName : option string;
  sum_status : string
}.

Definition summary (a : Account) : AccountSummary :=
  mkSummary (acc_id a) (acc_businessName a) (acc_status a).

(** [conversation.account.tenantId] on the selected relation: the
    property was not selected, so it is [undefined]. *)
Definition summaryTenantId (a : AccountSummary) : option string := None.

Definition findWithSummary (id : Id) (s : Store)
  : option (Conversation * option AccountSummary) :=
  match findConversationById id s with
  | Some c => Some (c, option_map summary (findAccount (cnv_accountId c) s))
  | None => None
  end.

Definition GET (env : Env) (request : GetRequest) : Prog Response :=
  try_catch
    (let* caller :=
       Auth.requireModuleAccess env (g_headers request) "marketing" in
     let* found := Db.read (findWithSummary (g_conversationId request)) in
     match found with
     | None => Ret (json 404 (BError "Conversation not found"))
     | Some (conversation, None) => Throw TypeError
     | Some (conversation, Some account) =>
         if negb (bool_decide (summaryTenantId account
                               = Some (Auth.tenantId caller))) then
           Ret (json 403 (BError "Unauthorized"))
         else Ret (json 200 (BConversation conversation))
     end)
    (Auth.routeCatch "GET /api/whatsapp/conversations/[conversationId] error:"
                     "Failed to fetch conversation").

Record Body : Type := mkBody {
  sessionId : Js.Field;
  ticketId : Js.Field;
  status : Js.Field
}.

Record PatchRequest : Type := mkPatch {
  p_headers : Auth.Headers;
  p_conversationId : string;
  p_body : option Body
}.

Record Validated : Type := mkValidated {
  v_sessionId : option string;
  v_ticketId : option string;
  v_status : option string
}.

(** [updateConversationSchema.parse(body)]. *)
Definition parse (b : Body) : Outcome Validated :=
  match Zod.optional (sessionId b), Zod.optional (ticketId b),
        Zod.optionalEnum ["open"; "closed"; "archived"] (status b) with
  | Ok x, Ok t, Ok st => Ok (mkValidated x t st)
  | _, _, _ => Fail ZodError
  end.

Definition findWithAccount (id : Id) (s : Store)
  : option (Conversation * option Account) :=
  match findConversationById id s with
  | Some c => Some (c, findAccount (cnv_accountId c) s)
  | None => None
  end.

(** [updateData]: only the properties that are not [undefined]. *)
Definition applyUpdate (v : Validated) (c : Conversation) : Conversation :=
  mkConversation (cnv_id c) (cnv_accountId c) (cnv_contactId c)
    (match v_sessionId v with Some x => Some x | None => cnv_sessionId c end)
    (match v_status v with Some st => st | None => cnv_status c end)
    (cnv_lastMessageAt c) (cnv_lastDirection c) (cnv_unreadCount c)
    (match v_ticketId v with Some t => Some t | None => cnv_ticketId c end).

Definition PATCH (env : Env) (request : PatchRequest) : Prog Response :=
  try_catch
    (let* caller :=
       Auth.requireModuleAccess env (p_headers request) "marketing" in
     let* b := requestJson (p_body request) in
     let* validated := lift (parse b) in
     let* found := Db.read (findWithAccount (p_conversationId request)) in
     match found with
     | None => Ret (json 404 (BError "Conversation not found"))
     | Some (conversation, None) => Throw TypeError
     | Some (conversation, Some account) =>
         if negb (String.eqb (acc_tenantId account) (Auth.tenantId caller)) then
           Ret (json 403 (BError "Unauthorized"))
         else
           let* valid :=
             if Js.truthyO (v_sessionId validated) then
               let* session :=
                 Db.read (findSessionById (Js.orD (v_sessionId validated) "")) in
               match session with
               | None => Ret false
               | Some x =>
                   Ret (String.eqb (ses_accountId x) (cnv_accountId conversation))
               end
             else Ret true in
           if negb valid then Ret (json 400 (BError "Invalid session"))
           else
             let* updated := Db.write env TConversation
               (Db.update
                  (fun c => String.eqb (cnv_id c) (p_conversationId request))
                  (applyUpdate validated)
                  conversations Db.set_conversations) in
             Ret (json 200 (BConversation updated))
     end)
    (Auth.routeCatch "PATCH /api/whatsapp/conversations/[conversationId] error:"
                     "Failed to update conversation").

End ConversationRoute.

(** ** GET /api/whatsapp/conversations/[conversationId]/messages *)

Module MessageList.

(** [limit] and [offset] are the numbers [parseInt] returns for the
    query parameters of these names (for ['50'] and ['0'] when the
    parameter is missing or empty). *)
Record Request : Type := mkRequest {
  headers : Auth.Headers;
  conversationId : string;
  limit : Js.Num;
  offset : Js.Num
}.

Definition ofConversation (id : Id) (s : Store) : list Message :=
  filter (fun m => msg_conversationId m = id) (messages s).

(** [orderBy: { createdAt: 'desc' }]: the latest [createdAt] first; of
    two rows with the same [createdAt] the one inserted later comes
    first. *)
Fixpoint insertByCreatedAt (m : Message) (l : list Message) : list Message :=
  match l with
  | [] => [m]
  | x :: r =>
      if msg_createdAt x <? msg_createdAt m then m :: l
      else x :: insertByCreatedAt m r
  end.

Definition latestFirst (l : list Message) : list Message :=
  fold_right insertByCreatedAt [] l.

(** [findMany] with [where], [orderBy], [take: Math.min(limit, 100)] and
    [skip: offset]. *)
Definition page (id : Id) (limit offset : Js.Num) (s : Store)
  : Outcome (list Message) :=
  Db.window (Js.mathMin limit 100) offset (latestFirst (ofConversation id s)).

Definition GET (env : Env) (request : Request) : Prog Response :=
  try_catch
    (let* caller := Auth.requireModuleAccess env (headers request) "marketing" in
     let* found :=
       Db.read (ConversationRoute.findWithAccount (conversationId request)) in
     match found with
     | None => Ret (json 404 (BError "Conversation not found"))
     | Some (conversation, None) => Throw TypeError
     | Some (conversation, Some account) =>
         if negb (String.eqb (acc_tenantId account) (Auth.tenantId caller)) then
           Ret (json 403 (BError "Unauthorized"))
         else
           let* rows :=
             Db.query (page (conversationId request) (limit request)
                            (offset request)) in
           let* total :=
             Db.read (fun s =>
                        List.length (ofConversation (conversationId request) s)) in
           Ret (json 200 (BMessages (rev rows) total))
     end)
    (Auth.routeCatch
       "GET /api/whatsapp/conversations/[conversationId]/messages error:"
       "Failed to fetch messages").

End MessageList.

(** ** GET and POST /api/whatsapp/templates *)

Module TemplateRoute.

Record GetRequest : Type := mkGet {
  g_headers : Auth.Headers;
  g_accountId : option string;
  g_category : option string
}.

Definition findTemplates (accountId : Id) (category : option string) (s : Store)
  : list Template :=
  rev (filter (fun t => tpl_accountId t = accountId
                        ∧ (Js.truthyO category = true
                           → Some (tpl_category t) = category))
              (templates s)).

Definition GET (env : Env) (request : GetRequest) : Prog Response :=
  try_catch
    (let* caller :=
       Auth.requireModuleAccess env (g_headers request) "marketing" in
     if negb (Js.truthyO (g_accountId request)) then
       Ret (json 400 (BError "accountId required"))
     else
       let accountId := Js.orD (g_accountId request) "" in
       let* account := Db.read (findAccount accountId) in
       match account with
       | None => Ret (json 403 (BError "Unauthorized"))
       | Some account =>
           if negb (String.eqb (acc_tenantId account) (Auth.tenantId caller)) then
             Ret (json 403 (BError "Unauthorized"))
           else
             let* rows :=
               Db.read (findTemplates accountId (g_category request)) in
             Ret (json 200 (BTemplates rows))
       end)
    (Auth.routeCatch "GET /api/whatsapp/templates error:"
                     "Failed to fetch templates").

Record Body : Type := mkBody {
  accountId : Js.Field;
  name : Js.Field;
  category : Js.Field;
  languageCode : Js.Field;
  bodyTemplate : Js.Field;
  headerType : Js.Field;
  headerContent : Js.Field;
  footerContent : Js.Field;
  buttons : Js.Field
}.

Record PostRequest : Type := mkPost {
  p_headers : Auth.Headers;
  p_body : option Body
}.

(** [createTemplateSchema.parse(body)]; the validated body is kept as
    the row the route builds from it, for a creator and a fresh id. *)
Definition parse (b : Body) : Outcome (string -> Id -> Template) :=
  match Zod.nonEmpty (accountId b), Zod.nonEmpty (name b),
        Zod.optionalEnum ["welcome"; "order_update"; "support"; "delivery";
                          "payment"; "custom"] (category b),
        Zod.optional (languageCode b), Zod.nonEmpty (bodyTemplate b),
        Zod.optionalEnum ["text"; "image"; "video"; "document"] (headerType b),
        Zod.optional (headerContent b), Zod.optional (footerContent b),
        Zod.optional (buttons b) with
  | Ok a, Ok n, Ok c, Ok l, Ok bt, Ok ht, Ok hc, Ok fc, Ok bs =>
      Ok (fun userId id =>
            mkTemplate id a n (Js.orD c "custom") (Js.orD l "en") bt
              (Js.orNullO ht) (Js.orNullO hc) (Js.orNullO fc) (Js.orNullO bs)
              userId)
  | _, _, _, _, _, _, _, _, _ => Fail ZodError
  end.

Definition POST (env : Env) (request : PostRequest) : Prog Response :=
  try_catch
    (let* caller :=
       Auth.requireModuleAccess env (p_headers request) "marketing" in
     let* b := requestJson (p_body request) in
     let* validated := lift (parse b) in
     let row := validated (Auth.userId caller) in
     let accountId := tpl_accountId (row "") in
     let* account := Db.read (findAccount accountId) in
     match account with
     | None => Ret (json 403 (BError "Unauthorized"))
     | Some account =>
         if negb (String.eqb (acc_tenantId account) (Auth.tenantId caller)) then
           Ret (json 403 (BError "Unauthorized"))
         else
           let* template := Db.write env TTemplate
             (Db.create row templates Db.set_templates (fun r => r)) in
           let* _ := Db.write env TAuditLog
             (Db.create
                (fun _ =>
                   auditEntry (p_headers request) accountId None
                     "template_create" "success"
                     (Some ("Created template " +:+ tpl_name template))
                     None None (Auth.userId caller))
                auditLogs Db.set_auditLogs (fun r => r)) in
           Ret (json 201 (BTemplate template))
     end)
    (Auth.routeCatch "POST /api/whatsapp/templates error:"
                     "Failed to create template").

End TemplateRoute.

(** ** GET and POST /api/whatsapp/accounts *)

Module AccountRoute.

(** The JavaScript objects Prisma returns for the rows. *)
Definition sessionObject (x : Session) : gmap string Js.Value :=
  list_to_map
    [ ("id", Js.VStr (ses_id x));
      ("accountId", Js.VStr (ses_accountId x));
      ("employeeId", Js.vstrO (ses_employeeId x));
      ("providerSessionId", Js.vstrO (ses_providerSessionId x));
      ("qrCodeUrl", Js.vstrO (ses_qrCodeUrl x));
      ("status", Js.VStr (ses_status x));
      ("deviceName", Js.vstrO (ses_deviceName x));
      ("phoneNumber", Js.vstrO (ses_phoneNumber x));
      ("isActive", Js.VBool (ses_isActive x));
      ("dailySentCount", Js.VNum (ses_dailySentCount x));
      ("dailyRecvCount", Js.VNum (ses_dailyRecvCount x));
      ("lastSyncAt", Js.vnumO (ses_lastSyncAt x));
      ("lastSeenAt", Js.vnumO (ses_lastSeenAt x));
      ("employee", Js.VNull) ].

Definition templateObject (t : Template) : gmap string Js.Value :=
  list_to_map
    [ ("id", Js.VStr (tpl_id t));
      ("accountId", Js.VStr (tpl_accountId t));
      ("name", Js.VStr (tpl_name t));
      ("category", Js.VStr (tpl_category t));
      ("languageCode", Js.VStr (tpl_languageCode t));
      ("bodyTemplate", Js.VStr (tpl_bodyTemplate t));
      ("headerType", Js.vstrO (tpl_headerType t));
      ("headerContent", Js.vstrO (tpl_headerContent t));
      ("footerContent", Js.vstrO (tpl_footerContent t));
      ("buttons", Js.vstrO (tpl_buttons t));
      ("createdById", Js.VStr (tpl_createdById t)) ].

Definition accountObject (a : Account) : gmap string Js.Value :=
  list_to_map
    [ ("id", Js.VStr (acc_id a));
      ("tenantId", Js.VStr (acc_tenantId a));
      ("deploymentType", Js.VStr (acc_deploymentType a));
      ("channelType", Js.VStr (acc_channelType a));
      ("wahaBaseUrl", Js.vstrO (acc_wahaBaseUrl a));
      ("wahaApiKey", Js.vstrO (acc_wahaApiKey a));
      ("internalWahaUrl", Js.vstrO (acc_internalWahaUrl a));
      ("internalApiKey", Js.vstrO (acc_internalApiKey a));
      ("accessToken", Js.vstrO (acc_accessToken a));
      ("metaAppSecret", Js.vstrO (acc_metaAppSecret a));
      ("paynaidInstanceId", Js.vstrO (acc_paynaidInstanceId a));
      ("businessName", Js.vstrO (acc_businessName a));
      ("primaryPhone", Js.vstrO (acc_primaryPhone a));
      ("isWebConnected", Js.VBool (acc_isWebConnected a));
      ("status", Js.VStr (acc_status a));
      ("errorMessage", Js.vstrO (acc_errorMessage a)) ].

(** An account row with the relations of the GET route's [include]. *)
Definition withRelations (s : Store) (a : Account) : gmap string Js.Value :=
  <[ "_count" :=
       Js.VObj {[ "conversations" :=
                    Js.VNum (Z.of_nat (List.length
                      (filter (fun c => cnv_accountId c = acc_id a)
                              (conversations s)))) ]} ]>
  (<[ "templates" :=
        Js.VArr (map (fun t => Js.VObj (templateObject t))
                     (filter (fun t => tpl_accountId t = acc_id a)
                             (templates s))) ]>
  (<[ "sessions" :=
        Js.VArr (map (fun x => Js.VObj (sessionObject x))
                     (filter (fun x => ses_accountId x = acc_id a)
                             (sessions s))) ]>
     (accountObject a))).

(** [const { wahaApiKey, internalApiKey, accessToken, metaAppSecret,
    internalWahaUrl, ...safeAccount } = account]. *)
Definition safeAccount (account : gmap string Js.Value) : gmap string Js.Value :=
  delete "internalWahaUrl"
    (delete "metaAppSecret"
       (delete "accessToken"
          (delete "internalApiKey"
             (delete "wahaApiKey" account)))).

Definition findAccounts (tenantId : string) (s : Store)
  : list (gmap string Js.Value) :=
  map (withRelations s)
      (rev (filter (fun a => acc_tenantId a = tenantId) (accounts s))).

Record GetRequest : Type := mkGet { g_headers : Auth.Headers }.

Definition GET (env : Env) (request : GetRequest) : Prog Response :=
  try_catch
    (let* caller :=
       Auth.requireModuleAccess env (g_headers request) "marketing" in
     let* accounts := Db.read (findAccounts (Auth.tenantId caller)) in
     let safeAccounts := map safeAccount accounts in
     Ret (json 200 (BAccounts safeAccounts)))
    (Auth.routeCatch "GET /api/whatsapp/accounts error:"
                     "Failed to fetch WhatsApp accounts").

Record Body : Type := mkBody {
  deploymentType : Js.Field;
  channelType : Js.Field;
  wahaBaseUrl : Js.Field;
  wahaApiKey : Js.Field;
  businessName : Js.Field;
  primaryPhone : Js.Field
}.

Record PostRequest : Type := mkPost {
  p_headers : Auth.Headers;
  p_body : option Body
}.

Record Validated : Type := mkValidated {
  v_deploymentType : option string;
  v_channelType : string;
  v_wahaBaseUrl : option string;
  v_wahaApiKey : option string;
  v_businessName : option string;
  v_primaryPhone : option string
}.

(** [createWhatsappAccountSchema.parse(body)]; [channelType] defaults to
    ['web']. *)
Definition parse (env : Env) (b : Body) : Outcome Validated :=
  match Zod.optionalEnum ["payaid_hosted"; "self_hosted"] (deploymentType b),
        Zod.optionalEnum ["web"; "cloud"] (channelType b),
        Zod.optionalUrl env (wahaBaseUrl b), Zod.optional (wahaApiKey b),
        Zod.optional (businessName b), Zod.optional (primaryPhone b) with
  | Ok d, Ok c, Ok u, Ok k, Ok n, Ok p =>
      Ok (mkValidated d (match c with Some x => x | None => "web" end) u k n p)
  | _, _, _, _, _, _ => Fail ZodError
  end.

(** Lines 96-111: the health check of the bridge; [false] is the [return]
    of its [catch] block. *)
Definition healthCheck (env : Env) (v : Validated) : Prog bool :=
  try_catch
    (let* testResponse := axios env
       (mkCall "GET" (Js.show (v_wahaBaseUrl v) +:+ "/api/health")
          (Js.orNullO (v_wahaApiKey v)) None) in
     if negb (pd_truthy testResponse)
     then Throw (Error_ "WAHA health check failed") else Ret true)
    (fun _ => let* _ := log "WAHA connection test failed:" in Ret false).

(** Line 72 calls [requireWhatsAppAccess(request)]. The module imports
    [requireModuleAccess] and [handleLicenseError] only and declares no
    such function, so evaluating the identifier throws a ReferenceError,
    inside the [try] block of the route. *)
Definition requireWhatsAppAccess (env : Env) (h : Auth.Headers) : Prog Auth.Caller :=
  Throw (ReferenceError "requireWhatsAppAccess").

Definition newAccount (tenantId : string) (v : Validated) (id : Id) : Account :=
  mkAccount id tenantId "self_hosted" (Js.orD (Some (v_channelType v)) "web")
    (Js.orNullO (v_wahaBaseUrl v)) (Js.orNullO (v_wahaApiKey v))
    None None None None None
    (Js.orNullO (v_businessName v)) (Js.orNullO (v_primaryPhone v))
    true "active" None.

Definition POST (env : Env) (request : PostRequest) : Prog Response :=
  try_catch
    (let* caller := requireWhatsAppAccess env (p_headers request) in
     let* b := requestJson (p_body request) in
     let* validated := lift (parse env b) in
     let deploymentType := Js.orD (v_deploymentType validated) "self_hosted" in
     let* checked :=
       if String.eqb deploymentType "self_hosted" then
         if negb (String.eqb (v_channelType validated) "web") then
           Ret (Some (json 400 (BError "Only web channel supported now")))
         else if negb (Js.truthyO (v_wahaBaseUrl validated)) then
           Ret (Some (json 400
             (BError "wahaBaseUrl required for self-hosted deployment")))
         else
           let* healthy := healthCheck env validated in
           if healthy then Ret None
           else Ret (Some (json 400 (BError
             "Failed to connect to WAHA server. Please check the URL and API key.")))
       else Ret None in
     match checked with
     | Some response => Ret response
     | None =>
         if String.eqb deploymentType "payaid_hosted" then
           Ret (json 400 (BRedirectHint
             "Please use the one-click setup at /dashboard/whatsapp/setup for automatic deployment"
             "/dashboard/whatsapp/setup"))
         else
           let* account := Db.write env TAccount
             (Db.create (newAccount (Auth.tenantId caller) validated)
                        accounts Db.set_accounts (fun r => r)) in
           let* _ := Db.write env TAuditLog
             (Db.create
                (fun _ =>
                   auditEntry (p_headers request) (acc_id account) None
                     "account_create" "success"
                     (Some ("Created WAHA account at "
                            +:+ Js.orD (v_wahaBaseUrl validated) "undefined"))
                     None None (Auth.userId caller))
                auditLogs Db.set_auditLogs (fun r => r)) in
           Ret (json 201 (BObject (safeAccount (accountObject account))))
     end)
    (Auth.routeCatch "POST /api/whatsapp/accounts error:"
                     "Failed to create WhatsApp account").

End AccountRoute.

(** ** GET /api/whatsapp/onboarding/[accountId]/status *)

Module OnboardingStatus.

Record Request : Type := mkRequest {
  headers : Auth.Headers;
  accountId : string
}.

(** The object the route answers with: [{ status, phoneNumber,
    errorMessage }]. *)
Definition answer (status : string) (phoneNumber errorMessage : option string)
  : Body :=
  BObject (list_to_map [ ("status", Js.VStr status);
                         ("phoneNumber", Js.vstrO phoneNumber);
                         ("errorMessage", Js.vstrO errorMessage) ]).

(** [data: { status: 'active', errorMessage: null }]. *)
Definition activate (a : Account) : Account :=
  mkAccount (acc_id a) (acc_tenantId a) (acc_deploymentType a)
    (acc_channelType a) (acc_wahaBaseUrl a) (acc_wahaApiKey a)
    (acc_internalWahaUrl a) (acc_internalApiKey a) (acc_accessToken a)
    (acc_metaAppSecret a) (acc_paynaidInstanceId a) (acc_businessName a)
    (acc_primaryPhone a) (acc_isWebConnected a) "active" None.

Definition statusCall (account : Account) : HttpCall :=
  mkCall "GET"
    (Js.show (acc_internalWahaUrl account) +:+ "/api/instances/"
     +:+ Js.show (acc_paynaidInstanceId account))
    (acc_internalApiKey account) None.

Definition connected (state : string) : bool :=
  (String.eqb state "CONNECTED" || String.eqb state "connected")%bool.

(** Lines 46-98: the [try] block around the bridge call and its
    [catch]. *)
Definition check (env : Env) (request : Request) (caller : Auth.Caller)
    (account : Account) : Prog Response :=
  try_catch
    (let* d := axios env (statusCall account) in
     let state := Js.orD (pd_state d) "UNKNOWN" in
     let phoneNumber := Js.orNullO (pd_meUser d) in
     if connected state then
       let* _ :=
         if negb (String.eqb (acc_status account) "active") then
           let* _ := Db.write env TAccount
             (Db.update (fun a => String.eqb (acc_id a) (accountId request))
                        activate accounts Db.set_accounts) in
           let* _ := Db.write env TAuditLog
             (Db.create
                (fun _ =>
                   mkAudit (accountId request) None "account_qr_scanned"
                     "success"
                     (Some ("WhatsApp connected: " +:+ Js.show phoneNumber))
                     None None None (Some (Auth.userId caller)) None None)
                auditLogs Db.set_auditLogs (fun r => r)) in
           Ret tt
         else Ret tt in
       Ret (json 200 (answer "active" phoneNumber (acc_errorMessage account)))
     else if (String.eqb state "DISCONNECTED"
              || String.eqb state "disconnected")%bool then
       Ret (json 200 (answer "disconnected" phoneNumber
                             (acc_errorMessage account)))
     else
       Ret (json 200 (answer (acc_status account) phoneNumber
                             (acc_errorMessage account))))
    (fun error =>
       let* _ := log ("[WHATSAPP] WAHA status check failed for "
                      +:+ accountId request +:+ ":") in
       Ret (json 200 (answer (acc_status account) None
                             (Some "Connection checking...")))).

Definition GET (env : Env) (request : Request) : Prog Response :=
  try_catch
    (let* caller := Auth.requireModuleAccess env (headers request) "marketing" in
     let* account := Db.read (findAccount (accountId request)) in
     match account with
     | None => Ret (json 403 (BError "Unauthorized"))
     | Some account =>
         if negb (String.eqb (acc_tenantId account) (Auth.tenantId caller)) then
           Ret (json 403 (BError "Unauthorized"))
         else if (negb (Js.truthyO (acc_internalWahaUrl account))
                  || negb (Js.truthyO (acc_internalApiKey account))
                  || negb (Js.truthyO (acc_paynaidInstanceId account)))%bool then
           Ret (json 400 (BError "Account not properly configured"))
         else check env request caller account
     end)
    (Auth.routeCatch "GET /:accountId/status error:" "Failed to check status").

End OnboardingStatus.

(** ** POST /api/whatsapp/conversations/[conversationId]/create-ticket *)

Module CreateTicket.

Record Body : Type := mkBody {
  title : Js.Field;
  description : Js.Field;
  priority : Js.Field
}.

Record Request : Type := mkRequest {
  headers : Auth.Headers;
  conversationId : string;
  body : option Body
}.

Record Validated : Type := mkValidated {
  v_title : option string;
  v_description : option string;
  v_priority : option string
}.

(** [createTicketSchema.parse(body)]. *)
Definition parse (b : Body) : Outcome Validated :=
  match Zod.optional (title b), Zod.optional (description b),
        Zod.optionalEnum ["low"; "medium"; "high"; "urgent"] (priority b) with
  | Ok t, Ok d, Ok p => Ok (mkValidated t d p)
  | _, _, _ => Fail ZodError
  end.

(** The [data] of [ticket.create]. *)
Record TicketData : Type := mkTicket {
  tk_tenantId : string;
  tk_title : string;
  tk_description : string;
  tk_priority : string;
  tk_source : string;
  tk_sourceRefId : string;
  tk_contactId : Id;
  tk_status : string
}.

(** [(prisma as any).ticket.create]: the Ticket model is not part of the
    module; the call answers with the id of the new ticket or throws
    (also when the client has no such model). *)
Definition Tickets : Type := TicketData -> Outcome Id.

Definition createTicket (tickets : Tickets) (data : TicketData) : Prog Id :=
  Await (fun w => (tickets data, w)) lift.

(** The conversation with its [contact] and [account] relations. *)
Definition findConversation (id : Id) (s : Store)
  : option (Conversation * option Contact * option Account) :=
  match findConversationById id s with
  | Some c =>
      Some (c, find (fun x => String.eqb (con_id x) (cnv_contactId c))
                    (contacts s),
            findAccount (cnv_accountId c) s)
  | None => None
  end.

Definition link (ticketId : Id) (c : Conversation) : Conversation :=
  mkConversation (cnv_id c) (cnv_accountId c) (cnv_contactId c)
    (cnv_sessionId c) (cnv_status c) (cnv_lastMessageAt c)
    (cnv_lastDirection c) (cnv_unreadCount c) (Some ticketId).

(** Lines 60-79: the [try] block around [ticket.create]; [None] is the
    [null] that [ticketId] keeps when the block throws. *)
Definition openTicket (tickets : Tickets) (request : Request)
    (validated : Validated) (tenantId : string) (conversation : Conversation)
    (contact : option Contact) : Prog (option Id) :=
  try_catch
    (let* contact :=
       match contact with Some c => Ret c | None => Throw TypeError end in
     let data :=
       mkTicket tenantId
         (Js.orD (v_title validated)
                 ("WhatsApp support from "
                  +:+ Js.orD (Some (con_name contact)) (con_phone contact)))
         (Js.orD (v_description validated) "Created from WhatsApp conversation")
         (Js.orD (v_priority validated) "medium")
         "whatsapp" (conversationId request) (cnv_contactId conversation)
         "open" in
     let* ticketId := createTicket tickets data in
     Ret (Some ticketId))
    (fun error =>
       let* _ := log "Ticket model not found, skipping ticket creation:" in
       Ret None).

Definition answer (ticketId : option Id) :=
  BObject (list_to_map
    [ ("success", Js.VBool true);
      ("ticketId", Js.vstrO ticketId);
      ("message",
       Js.VStr (if Js.truthyO ticketId
                then "Ticket created and linked to conversation"
                else "Conversation marked for ticket creation (Ticket model not available)")) ]).

Definition POST (env : Env) (tickets : Tickets) (request : Request)
  : Prog Response :=
  try_catch
    (let* caller := Auth.requireModuleAccess env (headers request) "marketing" in
     let* b := requestJson (body request) in
     let* validated := lift (parse b) in
     let* found := Db.read (findConversation (conversationId request)) in
     match found with
     | None => Ret (json 404 (BError "Conversation not found"))
     | Some (conversation, contact, None) => Throw TypeError
     | Some (conversation, contact, Some account) =>
         if negb (String.eqb (acc_tenantId account) (Auth.tenantId caller)) then
           Ret (json 403 (BError "Unauthorized"))
         else
           let* ticketId :=
             openTicket tickets request validated (Auth.tenantId caller)
                        conversation contact in
           let* _ :=
             if Js.truthyO ticketId then
               let* _ := Db.write env TConversation
                 (Db.update
                    (fun c => String.eqb (cnv_id c) (conversationId request))
                    (link (Js.orD ticketId ""))
                    conversations Db.set_conversations) in
               Ret tt
             else Ret tt in
           let* _ := Db.write env TAuditLog
             (Db.create
                (fun _ =>
                   auditEntry (headers request) (cnv_accountId conversation)
                     None "conversation_to_ticket" "success"
                     (Some ("Conversation " +:+ conversationId request +:+ " "
                            +:+ (if Js.truthyO ticketId
                                 then "linked to ticket " +:+ Js.orD ticketId ""
                                 else "marked for ticket creation")))
                     None None (Auth.userId caller))
                auditLogs Db.set_auditLogs (fun r => r)) in
           Ret (json 201 (answer ticketId))
     end)
    (Auth.routeCatch
       "POST /api/whatsapp/conversations/[conversationId]/create-ticket error:"
       "Failed to create ticket").

End CreateTicket.

(** ** The OAuth client ([@payaid/oauth-client]) and the module's
    authentication middleware ([lib/middleware/auth.ts]) *)

Module OAuthClient.

(** [CORE_AUTH_URL] and [OAUTH_CLIENT_ID] of the process environment. *)
Record Config : Type := mkConfig {
  coreAuthUrl : string;
  clientId : string
}.

(** What the middleware reads of a request: the Authorization header,
    the value of the [payaid_token] cookie when the cookie is present,
    and the URL. *)
Record Request : Type := mkRequest {
  authorization : option string;
  tokenCookie : option string;
  url : string
}.

(** The two responses the middleware builds: a redirect to an address
    with its query parameters, and a JSON error with its status. *)
Inductive AuthResponse : Type :=
| Redirect (location : string) (searchParams : list (string * string))
| JsonError (status : nat) (error : string).

Record AuthMiddlewareResult : Type := mkResult {
  authenticated : bool;
  payload : option JWTPayload;
  response : option AuthResponse
}.

Definition redirectToAuth (cfg : Config) (returnUrl : string) : AuthResponse :=
  Redirect (coreAuthUrl cfg +:+ "/api/oauth/authorize")
    [ ("client_id", clientId cfg); ("redirect_uri", returnUrl);
      ("response_type", "code"); ("scope", "openid profile email") ].

Definition getTokenFromRequest (request : Request) : option string :=
  match authorization request with
  | Some authHeader =>
      if Js.startsWith "Bearer " authHeader
      then Some (Js.substringFrom 7 authHeader)
      else tokenCookie request
  | None => tokenCookie request
  end.

Definition verifyRequestToken (env : Env) (request : Request)
  : option JWTPayload :=
  match getTokenFromRequest request with
  | Some token => if Js.truthy token then verifyToken env token else None
  | None => None
  end.

(** [checkAuthentication(request, { redirectToLogin, returnUrl })]. *)
Definition checkAuthentication (cfg : Config) (env : Env) (request : Request)
    (redirectToLogin : bool) (returnUrl : option string)
  : AuthMiddlewareResult :=
  match verifyRequestToken env request with
  | None =>
      if redirectToLogin then
        mkResult false None
          (Some (redirectToAuth cfg (Js.orD returnUrl (url request))))
      else mkResult false None None
  | Some p => mkResult true (Some p) None
  end.

Definition requireAuth (cfg : Config) (env : Env) (request : Request)
    (returnUrl : option string) : AuthMiddlewareResult :=
  checkAuthentication cfg env request true
    (Some (Js.orD returnUrl (url request))).

Definition optionalAuth (cfg : Config) (env : Env) (request : Request)
  : AuthMiddlewareResult :=
  checkAuthentication cfg env request false None.

End OAuthClient.

Module Middleware.

Import OAuthClient.

Definition requireWhatsAppAuth (cfg : Config) (env : Env) (request : Request)
    (returnUrl : option string) : AuthMiddlewareResult :=
  requireAuth cfg env request returnUrl.

Definition optionalWhatsAppAuth (cfg : Config) (env : Env) (request : Request)
  : AuthMiddlewareResult :=
  optionalAuth cfg env request.

Definition requireWhatsAppAccess (cfg : Config) (env : Env) (request : Request)
  : AuthMiddlewareResult :=
  let auth := requireWhatsAppAuth cfg env request None in
  if negb (authenticated auth) then auth
  else
    let licensedModules :=
      match mbind jwt_licensedModules (payload auth) with
      | Some l => l
      | None => []
      end in
    if (negb (Js.includes "whatsapp" licensedModules)
        && negb (Js.includes "marketing" licensedModules))%bool then
      mkResult false None
        (Some (JsonError 403 "WhatsApp module not licensed for this tenant"))
    else auth.

End Middleware.

(** ** Encryption of API keys at rest (AES-256-CBC) *)

Module Encryption.

(** One hexadecimal digit of [Buffer.toString('hex')] (lower case). *)
Definition hexDigit (n : N) : ascii :=
  ascii_of_N (if (n <? 10)%N then 48 + n else 87 + n).

(** The value of a hexadecimal digit, either case, as
    [Buffer.from(s, 'hex')] and [/[0-9a-fA-F]/] read it. *)
Definition hexValue (c : ascii) : option N :=
  let n := N_of_ascii c in
  if ((48 <=? n) && (n <=? 57))%N then Some (n - 48)%N
  else if ((97 <=? n) && (n <=? 102))%N then Some (n - 87)%N
  else if ((65 <=? n) && (n <=? 70))%N then Some (n - 55)%N
  else None.

(** [buffer.toString('hex')]. *)
Fixpoint toHex (bytes : list Byte.byte) : string :=
  match bytes with
  | [] => ""
  | b :: r =>
      String (hexDigit (Byte.to_N b / 16))
        (String (hexDigit (Byte.to_N b mod 16)) (toHex r))
  end.

(** [Buffer.from(s, 'hex')]: pairs of digits are decoded until the first
    pair that is not hexadecimal; a trailing single digit is dropped. *)
Fixpoint fromHex (s : string) : list Byte.byte :=
  match s with
  | String a (String b r) =>
      match hexValue a, hexValue b with
      | Some x, Some y =>
          match Byte.of_N (16 * x + y) with
          | Some v => v :: fromHex r
          | None => []
          end
      | _, _ => []
      end
  | _ => []
  end.

(** [s.split(sep)] for a one-character separator. *)
Fixpoint split (sep : ascii) (s : string) : list string :=
  match s with
  | EmptyString => [""]
  | String c r =>
      if Ascii.eqb c sep then "" :: split sep r
      else match split sep r with
           | h :: t => String c h :: t
           | [] => [String c ""]
           end
  end.

(** [/^[0-9a-fA-F]+$/.test(s)]. *)
Fixpoint allHex (s : string) : bool :=
  match s with
  | EmptyString => true
  | String c r => (bool_decide (is_Some (hexValue c)) && allHex r)%bool
  end.

Definition isHexString (s : string) : bool := (Js.truthy s && allHex s)%bool.

(** [getEncryptionKey()]: [key] is [process.env.ENCRYPTION_KEY],
    [random] the 32 bytes of [crypto.randomBytes(32)]. *)
Definition getEncryptionKey (key : option string) (production : bool)
    (random : list Byte.byte) : Prog string :=
  match key with
  | Some k =>
      if Js.truthy k then
        if (negb (Nat.eqb (String.length k) 64) || negb (isHexString k))%bool
        then Throw (Error_ "ENCRYPTION_KEY must be a 64-character hexadecimal string")
        else Ret k
      else if production then
        Throw (Error_ "ENCRYPTION_KEY must be set in production environment")
      else
        let* _ := log "⚠️ ENCRYPTION_KEY not set. Using temporary key (not secure for production!)" in
        Ret (toHex random)
  | None =>
      if production then
        Throw (Error_ "ENCRYPTION_KEY must be set in production environment")
      else
        let* _ := log "⚠️ ENCRYPTION_KEY not set. Using temporary key (not secure for production!)" in
        Ret (toHex random)
  end.

(** [Buffer.from(ENCRYPTION_KEY.slice(0, 64), 'hex')]. *)
Definition keyBytes (secret : string) : list Byte.byte :=
  fromHex (String.substring 0 64 secret).

(** The block cipher of Node's [crypto] module: [createCipheriv] and
    [createDecipheriv] for ['aes-256-cbc'] with their [update]/[final],
    from key, initialisation vector and input; both can throw. *)
Record Cipher : Type := mkCipher {
  cipher : list Byte.byte -> list Byte.byte -> string -> Outcome (list Byte.byte);
  decipher : list Byte.byte -> list Byte.byte -> list Byte.byte -> Outcome string
}.

(** [encrypt(text)]; [iv] is the result of [crypto.randomBytes(16)]. *)
Definition encrypt (aes : Cipher) (secret : string) (iv : list Byte.byte)
    (text : string) : Outcome string :=
  if negb (Js.truthy text) then Ok ""
  else
    match cipher aes (keyBytes secret) iv text with
    | Ok encrypted => Ok (toHex iv +:+ ":" +:+ toHex encrypted)
    | Fail e => Fail e
    end.

(** [decrypt(encrypted)]. *)
Definition decrypt (aes : Cipher) (secret : string) (encrypted : string)
  : Outcome string :=
  if negb (Js.truthy encrypted) then Ok ""
  else
    match split ":" encrypted with
    | ivHex :: encryptedData :: _ =>
        if (negb (Js.truthy ivHex) || negb (Js.truthy encryptedData))%bool
        then Fail (Error_ "Invalid encrypted data format")
        else decipher aes (keyBytes secret) (fromHex ivHex)
                      (fromHex encryptedData)
    | _ => Fail (Error_ "Invalid encrypted data format")
    end.

End Encryption.

(** ** The operations of the module *)

Inductive Op : Type :=
| OpWebhookStatus (r : WebhookStatus.Request)
| OpWebhookMessage (r : WebhookMessage.Request)
| OpSend (r : Send.Request)
| OpSessionStatus (r : SessionStatus.Request)
| OpSessionList (r : SessionList.Request)
| OpSessionCreate (r : SessionCreate.Request)
| OpConversationGet (r : ConversationRoute.GetRequest)
| OpConversationPatch (r : ConversationRoute.PatchRequest)
| OpMessageList (r : MessageList.Request)
| OpTemplateList (r : TemplateRoute.GetRequest)
| OpTemplateCreate (r : TemplateRoute.PostRequest)
| OpAccountList (r : AccountRoute.GetRequest)
| OpAccountCreate (r : AccountRoute.PostRequest).

Definition handler (env : Env) (op : Op) : Prog Response :=
  match op with
  | OpWebhookStatus r => WebhookStatus.POST env r
  | OpWebhookMessage r => WebhookMessage.POST env r
  | OpSend r => Send.POST env r
  | OpSessionStatus r => SessionStatus.GET env r
  | OpSessionList r => SessionList.GET env r
  | OpSessionCreate r => SessionCreate.POST env r
  | OpConversationGet r => ConversationRoute.GET env r
  | OpConversationPatch r => ConversationRoute.PATCH env r
  | OpMessageList r => MessageList.GET env r
  | OpTemplateList r => TemplateRoute.GET env r
  | OpTemplateCreate r => TemplateRoute.POST env r
  | OpAccountList r => AccountRoute.GET env r
  | OpAccountCreate r => AccountRoute.POST env r
  end.

(** A request processed from start to end. *)
Definition serve (env : Env) (op : Op) (w : World) : Outcome Response * World :=
  run (handler env op) w.

(** ** Vocabulary of the properties *)

Definition emptyStore : Store := mkStore [] [] [] [] [] [] [] [] 0.

(** The verdict of the licence guard on the headers of a request: the
    guard reads the headers and the token oracle only. *)
Definition guard (env : Env) (h : Auth.Headers) (moduleId : string)
  : Outcome Auth.Caller :=
  fst (run (Auth.requireModuleAccess env h moduleId) (mkWorld emptyStore [] [])).

(** The account a conversation belongs to. *)
Definition conversationAccount (id : Id) (s : Store) : option Account :=
  match findConversationById id s with
  | Some c => findAccount (cnv_accountId c) s
  | None => None
  end.

(** The account an account-scoped operation is directed at: the account
    named by the request, or the one owning the session or conversation
    named by the request. *)
Definition targetAccount (s : Store) (op : Op) : option Account :=
  match op with
  | OpSessionCreate r =>
      match SessionCreate.body r with
      | Some b =>
          match SessionCreate.accountId b with
          | Js.Str a => findAccount a s
          | _ => None
          end
      | None => None
      end
  | OpSessionList r => findAccount (SessionList.accountId r) s
  | OpSessionStatus r =>
      match findSessionById (SessionStatus.sessionId r) s with
      | Some x => findAccount (ses_accountId x) s
      | None => None
      end
  | OpConversationGet r =>
      conversationAccount (ConversationRoute.g_conversationId r) s
  | OpConversationPatch r =>
      conversationAccount (ConversationRoute.p_conversationId r) s
  | OpMessageList r => conversationAccount (MessageList.conversationId r) s
  | OpSend r =>
      match Send.body r with
      | Some b =>
          match Send.conversationId b with
          | Js.Str c => conversationAccount c s
          | _ => None
          end
      | None => None
      end
  | OpTemplateList r =>
      match TemplateRoute.g_accountId r with
      | Some a => findAccount a s
      | None => None
      end
  | OpTemplateCreate r =>
      match TemplateRoute.p_body r with
      | Some b =>
          match TemplateRoute.accountId b with
          | Js.Str a => findAccount a s
          | _ => None
          end
      | None => None
      end
  | _ => None
  end.

(** The caller of a tenant-facing operation, as the licence guard
    resolves it from the headers of the request (for account create,
    whose route fails before any guard is consulted, with the module
    [whatsapp] of its comment). *)
Definition callerOf (env : Env) (op : Op) : option Auth.Caller :=
  let resolve h m :=
    match guard env h m with Ok c => Some c | Fail _ => None end in
  match op with
  | OpWebhookStatus _ | OpWebhookMessage _ => None
  | OpSend r => resolve (Send.headers r) "marketing"
  | OpSessionStatus r => resolve (SessionStatus.headers r) "marketing"
  | OpSessionList r => resolve (SessionList.headers r) "marketing"
  | OpSessionCreate r => resolve (SessionCreate.headers r) "marketing"
  | OpConversationGet r => resolve (ConversationRoute.g_headers r) "marketing"
  | OpConversationPatch r => resolve (ConversationRoute.p_headers r) "marketing"
  | OpMessageList r => resolve (MessageList.headers r) "marketing"
  | OpTemplateList r => resolve (TemplateRoute.g_headers r) "marketing"
  | OpTemplateCreate r => resolve (TemplateRoute.p_headers r) "marketing"
  | OpAccountList r => resolve (AccountRoute.g_headers r) "marketing"
  | OpAccountCreate r => resolve (AccountRoute.p_headers r) "whatsapp"
  end.

(** None of [text], [mediaUrl], [templateId] is populated. *)
Definition nonePopulated (v : Send.Validated) : bool :=
  (negb (Js.truthyO (Send.v_text v)) && negb (Js.truthyO (Send.v_mediaUrl v))
   && negb (Js.truthyO (Send.v_templateId v)))%bool.

(** How many of [text], [mediaUrl], [templateId] are populated. *)
Definition populated (v : Send.Validated) : nat :=
  (Nat.b2n (Js.truthyO (Send.v_text v)) + Nat.b2n (Js.truthyO (Send.v_mediaUrl v))
   + Nat.b2n (Js.truthyO (Send.v_templateId v)))%nat.

(** The request passes the input validation its route runs before the
    ownership check. *)
Definition wellFormed (env : Env) (op : Op) : bool :=
  match op with
  | OpSend r =>
      match Send.body r with
      | Some b =>
          match Send.parse env b with
          | Ok v => negb (nonePopulated v)
          | Fail _ => false
          end
      | None => false
      end
  | OpSessionCreate r =>
      match SessionCreate.body r with
      | Some b => match SessionCreate.parse b with Ok _ => true | Fail _ => false end
      | None => false
      end
  | OpConversationPatch r =>
      match ConversationRoute.p_body r with
      | Some b =>
          match ConversationRoute.parse b with Ok _ => true | Fail _ => false end
      | None => false
      end
  | OpTemplateList r => Js.truthyO (TemplateRoute.g_accountId r)
  | OpTemplateCreate r =>
      match TemplateRoute.p_body r with
      | Some b =>
          match TemplateRoute.parse b with Ok _ => true | Fail _ => false end
      | None => false
      end
  | _ => true
  end.

(** At most one conversation per (accountId, contactId). *)
Definition conversationKey (c : Conversation) : Id * Id :=
  (cnv_accountId c, cnv_contactId c).

Definition uniqueConversations (s : Store) : Prop :=
  NoDup (map conversationKey (conversations s)).

(** The contacts and contact identities of a phone number. *)
Definition contactsOf (number : string) (s : Store) : list Contact :=
  filter (fun c => con_phone c = number) (contacts s).

Definition identitiesOf (number : string) (s : Store) : list ContactIdentity :=
  filter (fun i => idt_whatsappNumber i = number) (identities s).

(** The sender number the inbound route extracts from an event. *)
Definition senderOf (r : WebhookMessage.Request) : option string :=
  match WebhookMessage.body r with
  | Some b =>
      match WebhookMessage.data b with
      | Some d =>
          Some (Js.orD (Js.or (WebhookMessage.from d) (WebhookMessage.fromNumber d)) "")
      | None => None
      end
  | None => None
  end.

(** The environment [env] with an audit table that rejects every write. *)
Definition auditOff (env : Env) : Env :=
  mkEnv (clock env) (verifyToken env) (isUrl env) (http env)
        (fun t => match t with TAuditLog => true | _ => writeFails env t end)
        (unicodeUpper env) (sessionDefaults env).

(** The operations that append an audit row. *)
Definition audited (op : Op) : bool :=
  match op with
  | OpWebhookMessage _ | OpSend _ | OpSessionCreate _ | OpAccountCreate _ => true
  | _ => false
  end.

(** The message of the 500 response of a route's catch-all. *)
Definition failureOf (op : Op) : string :=
  match op with
  | OpWebhookStatus _ | OpWebhookMessage _ => "Webhook processing failed"
  | OpSend _ => "Failed to send message"
  | OpSessionStatus _ => "Failed to check status"
  | OpSessionList _ => "Failed to fetch sessions"
  | OpSessionCreate _ => "Failed to create session"
  | OpConversationGet _ => "Failed to fetch conversation"
  | OpConversationPatch _ => "Failed to update conversation"
  | OpMessageList _ => "Failed to fetch messages"
  | OpTemplateList _ => "Failed to fetch templates"
  | OpTemplateCreate _ => "Failed to create template"
  | OpAccountList _ => "Failed to fetch WhatsApp accounts"
  | OpAccountCreate _ => "Failed to create WhatsApp account"
  end.

(** The five credential properties of an account object. *)
Definition secretKeys : list string :=
  ["wahaApiKey"; "internalApiKey"; "accessToken"; "metaAppSecret";
   "internalWahaUrl"].

(** The account objects a response carries. *)
Definition accountObjects (r : Response) : list (gmap string Js.Value) :=
  match rs_body r with
  | BAccounts l => l
  | BObject o => [o]
  | _ => []
  end.

(** The two routes that answer with account objects. *)
Definition answersAccounts (op : Op) : bool :=
  match op with
  | OpAccountList _ | OpAccountCreate _ => true
  | _ => false
  end.

(** A sequence of requests processed one after the other. *)
Fixpoint serveAll (env : Env) (ops : list Op) (w : World) : World :=
  match ops with
  | [] => w
  | op :: rest => serveAll env rest (snd (serve env op w))
  end.

(** The session a send uses: the session bound to the conversation when
    there is one, otherwise the first session of the account that is
    connected and active. *)
Definition resolvedSession (bound : option Session) (accountId : Id) (s : Store)
  : option Session :=
  match bound with
  | Some x => Some x
  | None => Send.findConnected accountId s
  end.

(** The checks a send makes between the session resolution and the call
    to the bridge all pass: the contact has a WhatsApp identity, the
    session has a phone number, the account has its bridge address and
    key, and a payload with neither text nor media names a template
    that exists. *)
Definition dispatchable (v : Send.Validated) (c : Conversation)
    (account : Account) (x : Session) (s : Store) : bool :=
  (bool_decide (is_Some (Send.findIdentity (cnv_contactId c) s))
   && Js.truthyO (ses_phoneNumber x)
   && Js.truthyO (acc_wahaBaseUrl account)
   && Js.truthyO (acc_wahaApiKey account)
   && (Js.truthyO (Send.v_text v) || Js.truthyO (Send.v_mediaUrl v)
       || bool_decide (is_Some (Send.findTemplate
                                  (Js.orD (Send.v_templateId v) "") s))))%bool.

(** The address of the bridge's send endpoint for a session. *)
Definition sendUrl (account : Account) (x : Session) : string :=
  Js.show (acc_wahaBaseUrl account) +:+ "/api/instances/"
  +:+ Js.show (ses_providerSessionId x) +:+ "/messages".

(** Two stores hold the same rows in every table but the audit log. *)
Definition sameRows (s1 s2 : Store) : Prop :=
  accounts s2 = accounts s1 /\ sessions s2 = sessions s1
  /\ contacts s2 = contacts s1 /\ identities s2 = identities s1
  /\ conversations s2 = conversations s1 /\ messages s2 = messages s1
  /\ templates s2 = templates s1.

(** The headers and the module id a route hands to
    [requireModuleAccess]. The two webhooks are public, and account
    create names a guard that does not exist. *)
Definition guardOf (op : Op) : option (Auth.Headers * string) :=
  match op with
  | OpWebhookStatus _ | OpWebhookMessage _ | OpAccountCreate _ => None
  | OpSend r => Some (Send.headers r, "marketing")
  | OpSessionStatus r => Some (SessionStatus.headers r, "marketing")
  | OpSessionList r => Some (SessionList.headers r, "marketing")
  | OpSessionCreate r => Some (SessionCreate.headers r, "marketing")
  | OpConversationGet r => Some (ConversationRoute.g_headers r, "marketing")
  | OpConversationPatch r => Some (ConversationRoute.p_headers r, "marketing")
  | OpMessageList r => Some (MessageList.headers r, "marketing")
  | OpTemplateList r => Some (TemplateRoute.g_headers r, "marketing")
  | OpTemplateCreate r => Some (TemplateRoute.p_headers r, "marketing")
  | OpAccountList r => Some (AccountRoute.g_headers r, "marketing")
  end.

(** The tables an operation has a write statement for. *)
Definition writes (op : Op) (t : Table) : bool :=
  match op, t with
  | OpWebhookStatus _, TMessage => true
  | OpWebhookMessage _, (TContact | TIdentity | TConversation | TMessage
                         | TSession | TAuditLog) => true
  | OpSend _, (TMessage | TConversation | TSession | TAuditLog) => true
  | OpSessionStatus _, TSession => true
  | OpSessionCreate _, (TSession | TAuditLog) => true
  | OpConversationPatch _, TConversation => true
  | OpTemplateCreate _, (TTemplate | TAuditLog) => true
  | OpAccountCreate _, (TAccount | TAuditLog) => true
  | _, _ => false
  end.

(** Table [t] holds the same rows in [s] and [s']. *)
Definition sameTable (t : Table) (s s' : Store) : Prop :=
  match t with
  | TAccount => accounts s' = accounts s
  | TSession => sessions s' = sessions s
  | TContact => contacts s' = contacts s
  | TIdentity => identities s' = identities s
  | TConversation => conversations s' = conversations s
  | TMessage => messages s' = messages s
  | TTemplate => templates s' = templates s
  | TAuditLog => auditLogs s' = auditLogs s
  end.

(** The number of [axios] calls in the text of an operation's route. *)
Definition bridgeCalls (op : Op) : nat :=
  match op with
  | OpSessionCreate _ => 2
  | OpSend _ | OpSessionStatus _ | OpAccountCreate _ => 1
  | _ => 0
  end.




(** A message row with its three status columns blanked. *)
Definition content (m : Message) : Message :=
  WebhookStatus.setStatus ("", None, None) m.

Definition sumZ (l : list Z) : Z := fold_right Z.add 0 l.

(** The unread messages of all conversations and the daily counters of
    all sessions. *)
Definition totalUnread (s : Store) : Z :=
  sumZ (map cnv_unreadCount (conversations s)).

Definition totalReceived (s : Store) : Z :=
  sumZ (map ses_dailyRecvCount (sessions s)).

Definition totalSent (s : Store) : Z :=
  sumZ (map ses_dailySentCount (sessions s)).

(** The messages are in the order that [R] gives their [createdAt]
    times: each one stands in [R] to every later one. *)
Fixpoint ordered (R : Z -> Z -> Prop) (l : list Message) : Prop :=
  match l with
  | [] => True
  | x :: r =>
      (forall y, y ∈ r -> R (msg_createdAt x) (msg_createdAt y)) /\ ordered R r
  end.

(** Earliest first. *)
Definition chronological (l : list Message) : Prop := ordered Z.le l.

(** An account row is as it was or has been activated. *)
Definition activated (a a' : Account) : Prop :=
  a' = a \/ a' = OnboardingStatus.activate a.

(** What is assumed of AES-256-CBC: with a 32-byte key and a 16-byte
    vector, encryption yields at least one block and decryption with the
    same key and vector gives the text back. *)
Definition soundCipher (aes : Encryption.Cipher) : Prop :=
  forall key iv text,
    List.length key = 32%nat -> List.length iv = 16%nat ->
    exists c, Encryption.cipher aes key iv text = Ok c /\ c <> []
              /\ Encryption.decipher aes key iv c = Ok text.

(** ** Sample data used by the examples *)

Module Sample.

Definition tenantA : JWTPayload :=
  mkJWT "user-a" "tenant-a" "a@example.com" "admin" (Some ["marketing"; "whatsapp"]) None.

Definition tenantB : JWTPayload :=
  mkJWT "user-b" "tenant-b" "b@example.com" "admin" (Some ["marketing"; "whatsapp"]) None.

Definition tokens (token : string) : option JWTPayload :=
  if String.eqb token "token-a" then Some tenantA
  else if String.eqb token "token-b" then Some tenantB
  else None.

Definition answer : ProviderData :=
  mkData true (Some "CONNECTED") None (Some "911234500000") None
         (Some "wamid-out-1") None (Some "qr-data") None.

(** A schema under which a new session has no phone number and no
    dates, is active and has counted nothing. *)
Definition defaults : SessionDefaults :=
  mkSessionDefaults None true 0 0 None None.

(** A bridge that answers every call, a datastore that accepts every
    write; only ASCII text occurs in the examples, so the case table is
    never consulted. *)
Definition env : Env :=
  mkEnv 1700000000000 tokens (fun _ => true) (fun _ => HttpOk answer)
        (fun _ => false) Js.upperAscii defaults.

(** The same with a bridge that is down. *)
Definition envDown : Env :=
  mkEnv 1700000000000 tokens (fun _ => true)
        (fun _ => HttpFail (Some (503, Some "bridge unavailable")) "Request failed")
        (fun _ => false) Js.upperAscii defaults.

(** The same with a bridge that reports the given state and phone
    number of an instance. *)
Definition envState (state : string) (phone : option string) : Env :=
  mkEnv 1700000000000 tokens (fun _ => true)
        (fun _ => HttpOk (mkData true (Some state) None phone None None None
                                 None None))
        (fun _ => false) Js.upperAscii defaults.

(** The same with an audit table that rejects writes. *)
Definition envNoAudit : Env :=
  mkEnv 1700000000000 tokens (fun _ => true) (fun _ => HttpOk answer)
        (fun t => match t with TAuditLog => true | _ => false end)
        Js.upperAscii defaults.

Definition headersA : Auth.Headers :=
  Auth.mkHeaders (Some "Bearer token-a") None None (Some "curl").

Definition headersB : Auth.Headers :=
  Auth.mkHeaders (Some "Bearer token-b") None None (Some "curl").

Definition account1 : Account :=
  mkAccount "acc-1" "tenant-a" "self_hosted" "web"
    (Some "http://waha.local") (Some "waha-key") (Some "http://internal")
    (Some "internal-key") (Some "access-token") (Some "app-secret") None
    (Some "Shop") (Some "911234500000") true "active" None.

Definition session1 : Session :=
  mkSession "ses-1" "acc-1" None (Some "waha-1") None "connected"
    (Some "Device") (Some "911234500000") true 0 0 None None.


Definition contact1 : Contact :=
  mkContact "con-1" "tenant-a" "Asha" "" "+911111111111" "lead" "active" "whatsapp".

Definition identity1 : ContactIdentity :=
  mkIdentity "idt-1" "con-1" "+911111111111" true None.

(** A conversation with no bound session and one bound to the
    disconnected session. *)
Definition conversation1 : Conversation :=
  mkConversation "cnv-1" "acc-1" "con-1" None "open" None None 0 None.


Definition message1 : Message :=
  mkMessage "msg-1" "cnv-1" "ses-1" None "out" "text" "wamid-1"
    "911234500000" "+911111111111" (Some "Hello") None None None None
    "sent" None None (Some 1699999990000) None None 1699999990000.

Definition store0 : Store :=
  mkStore [account1] [session1] [contact1] [identity1] [conversation1]
          [message1] [] [] 0.



Definition world (s : Store) : World := mkWorld s [] [].

Definition world0 : World := world store0.

Definition statusEvent (status : string) (timestamp : Z) : WebhookStatus.Request :=
  WebhookStatus.mkRequest
    (Some (WebhookStatus.mkBody (Some "waha-1")
             (Some (WebhookStatus.mkData (Some "wamid-1") (Some status)
                      (Some timestamp))))).

Definition inbound (number text : string) : WebhookMessage.Request :=
  WebhookMessage.mkRequest
    (Some (WebhookMessage.mkBody (Some "waha-1")
             (Some (WebhookMessage.mkData (Some number) None (Some text) None
                      None (Some "wamid-in-1") None (Some 1700000000) None
                      None None None)))).

Definition sendText (h : Auth.Headers) (conversationId text : string)
  : Send.Request :=
  Send.mkRequest h
    (Some (Send.mkBody (Js.Str conversationId) (Js.Str text) Js.Undefined
                       Js.Undefined)).

End Sample.

(** ** Further sample data *)

Module Fixture.

Definition noHeaders : Auth.Headers := Auth.mkHeaders None None None None.

(** A hosted account whose QR code has not been scanned yet. *)
Definition accountHosted : Account :=
  mkAccount "acc-2" "tenant-a" "payaid_hosted" "web" None None
    (Some "http://127.0.0.1:3001") (Some "internal-key") None None
    (Some "waha-tenant-a-1") (Some "Shop") (Some "+911234500000") true
    "waiting_qr" None.

Definition storeHosted : Store :=
  mkStore [Sample.account1; accountHosted] [Sample.session1] [Sample.contact1]
          [Sample.identity1] [Sample.conversation1] [Sample.message1] [] [] 0.

(** Three messages of one conversation, inserted in another order than
    the order of their times. *)
Definition messageAt (id : Id) (time : Date) : Message :=
  mkMessage id "cnv-1" "ses-1" None "in" "text" id "+911111111111"
    "911234500000" (Some id) None None None None "delivered" None None None
    None None time.

Definition storeThree : Store :=
  mkStore [Sample.account1] [Sample.session1] [Sample.contact1]
          [Sample.identity1] [Sample.conversation1]
          [messageAt "m-20" 20; messageAt "m-10" 10; messageAt "m-30" 30]
          [] [] 0.

(** The contact is known but has no conversation yet. *)
Definition storeKnown : Store :=
  mkStore [Sample.account1] [Sample.session1] [Sample.contact1]
          [Sample.identity1] [] [] [] [] 0.

(** The environment of the examples with a message table that rejects
    every write. *)
Definition envNoMessages : Env :=
  mkEnv 1700000000000 Sample.tokens (fun _ => true)
        (fun _ => HttpOk Sample.answer)
        (fun t => match t with TMessage => true | _ => false end)
        Js.upperAscii Sample.defaults.

(** A ticket store that files every ticket under the same id. *)
Definition tickets : CreateTicket.Tickets := fun _ => Ok "tkt-1".

(** A stand-in for the block cipher: one marker byte, then the text. *)
Definition toy : Encryption.Cipher :=
  Encryption.mkCipher
    (fun _ _ text => Ok (Byte.x00 :: list_byte_of_string text))
    (fun _ _ bytes =>
       match bytes with
       | _ :: r => Ok (string_of_list_byte r)
       | [] => Fail (Error_ "bad decrypt")
       end).

Definition secret : string :=
  "000102030405060708090a0b0c0d0e0f101112131415161718191A1B1C1D1E1F".

Definition iv : list Byte.byte := repeat Byte.x2a 16.

End Fixture.

(** * Properties *)

(** ** Running programs *)

Lemma run_bind {A B} (p : Prog A) (f : A -> Prog B) (w : World) :
  run (bind p f) w =
  match run p w with
  | (Ok a, w') => run (f a) w'
  | (Fail e, w') => (Fail e, w')
  end.
Proof.
  revert w. induction p as [a | e | C act k IH]; intros w; simpl.
  - reflexivity.
  - reflexivity.
  - destruct (act w) as [b w']. apply IH.
Qed.

Lemma run_try_catch {A} (p : Prog A) (h : Exn -> Prog A) (w : World) :
  run (try_catch p h) w =
  match run p w with
  | (Ok a, w') => (Ok a, w')
  | (Fail e, w') => run (h e) w'
  end.
Proof.
  revert w. induction p as [a | e | C act k IH]; intros w; simpl.
  - reflexivity.
  - reflexivity.
  - destruct (act w) as [b w']. apply IH.
Qed.

Lemma run_read {B} (f : Store -> B) (w : World) :
  run (Db.read f) w = (Ok (f (store w)), w).
Proof. reflexivity. Qed.

Lemma run_write {B} env t (f : Store -> Outcome (B * Store)) (w : World) :
  run (Db.write env t f) w =
  if writeFails env t then (Fail (PrismaError "P1001"), w)
  else match f (store w) with
       | Ok (b, s') => (Ok b, set_store w s')
       | Fail e => (Fail e, w)
       end.
Proof.
  unfold Db.write. simpl. destruct (writeFails env t); [reflexivity |].
  destruct (f (store w)) as [[b s'] | e]; reflexivity.
Qed.

Lemma run_log (m : string) (w : World) :
  run (log m) w = (Ok tt, mkWorld (store w) (console w ++ [m])%list (calls w)).
Proof. reflexivity. Qed.

Lemma run_checkModuleAccess env h mid :
  exists o, forall w, run (Auth.checkModuleAccess env h mid) w = (o, w).
Proof.
  unfold Auth.checkModuleAccess.
  destruct (Auth.authorization h) as [a |]; [| eexists; reflexivity].
  destruct (negb (Js.truthy a) || negb (Js.startsWith "Bearer " a))%bool;
    [eexists; reflexivity |].
  destruct (verifyToken env _) as [p |]; [| eexists; reflexivity].
  destruct (negb (Js.truthy (jwt_tenantId p))); [eexists; reflexivity |].
  destruct (jwt_licensedModules p) as [[| x l] |]; cbn [Js.includes existsb negb];
    try (eexists; reflexivity).
  destruct (String.eqb mid x || existsb (String.eqb mid) l)%bool; cbn [negb];
    [| eexists; reflexivity].
  cbn [List.length Nat.eqb]. rewrite andb_false_r. eexists; reflexivity.
Qed.

Lemma run_guard env h mid w :
  run (Auth.requireModuleAccess env h mid) w = (guard env h mid, w).
Proof.
  unfold guard, Auth.requireModuleAccess. rewrite !run_try_catch.
  destruct (run_checkModuleAccess env h mid) as [o Ho]. rewrite !Ho.
  destruct o as [c | e]; [reflexivity |]. destruct e; reflexivity.
Qed.

(** The guard lets a caller through only with a tenant. *)
Lemma guard_tenant env h mid c :
  guard env h mid = Ok c -> Js.truthy (Auth.tenantId c) = true.
Proof.
  unfold guard, Auth.requireModuleAccess. rewrite run_try_catch.
  unfold Auth.checkModuleAccess.
  destruct (Auth.authorization h) as [a |]; [| discriminate].
  destruct (negb (Js.truthy a) || negb (Js.startsWith "Bearer " a))%bool;
    [discriminate |].
  destruct (verifyToken env _) as [p |]; [| discriminate].
  destruct (negb (Js.truthy (jwt_tenantId p))) eqn:E; [discriminate |].
  destruct (negb (Js.includes mid _)); [discriminate |].
  rewrite run_bind.
  destruct (String.eqb _ "free" && _)%bool; cbn; intros [= <-]; cbn;
    now apply negb_false_iff in E.
Qed.

Lemma run_axios env call w :
  run (axios env call) w =
  match http env call with
  | HttpOk d => (Ok d, mkWorld (store w) (console w) (calls w ++ [call])%list)
  | HttpFail r m =>
      (Fail (AxiosError r m), mkWorld (store w) (console w) (calls w ++ [call])%list)
  end.
Proof. unfold axios. cbn [run]. destruct (http env call); reflexivity. Qed.

(** Symbolic execution of a handler: [exec] pushes [run] through the
    program, [case_run] splits on what the run is stuck on. *)
Ltac exec :=
  repeat first
    [ rewrite run_try_catch
    | rewrite run_bind
    | rewrite run_guard
    | rewrite run_read
    | rewrite run_write
    | rewrite run_log
    | rewrite run_axios
    | progress cbn [run requestJson lift Auth.routeCatch Auth.handleLicenseError
                    fst snd Db.create Db.update store console calls set_store] ].

Ltac use_hyps :=
  repeat match goal with
         | H : ?l = _ |- context [?l] => rewrite H
         end.

Ltac case_run :=
  match goal with
  | |- context [run (match ?x with _ => _ end) _] => destruct x eqn:?
  | |- context [run (lift ?x) _] => destruct x eqn:?
  | |- context [run (requestJson ?x) _] => destruct x eqn:?
  | |- context [match guard ?e ?h ?m with _ => _ end] =>
      destruct (guard e h m) eqn:?
  | |- context [if writeFails ?e ?t then _ else _] =>
      destruct (writeFails e t) eqn:?
  | |- context [match Db.update_first ?p ?f ?l with _ => _ end] =>
      destruct (Db.update_first p f l) as [[? ?] |] eqn:?
  | |- context [match http ?e ?c with _ => _ end] => destruct (http e c) eqn:?
  | |- context [run (Auth.routeCatch _ _ ?e) _] => destruct e
  end.

Ltac exec_all := repeat (exec; use_hyps; try case_run).

(** ** Tables *)

Lemma find_first_row {R} (p : R -> bool) (l : list R) (x : R) :
  In x l -> p x = true -> exists y, find p l = Some y.
Proof.
  intros Hin Hp. destruct (find p l) as [y |] eqn:E; [eauto |].
  exfalso. pose proof (find_none p l E x Hin) as H. congruence.
Qed.

Lemma update_first_found {R} (p : R -> bool) (f : R -> R) (l : list R) (x : R) :
  find p l = Some x ->
  (forall y, p (f y) = p y) ->
  exists l', Db.update_first p f l = Some (f x, l')
             /\ find p l' = Some (f x)
             /\ List.length l' = List.length l.
Proof.
  intros Hfind Hkeep. induction l as [| y r IH]; simpl in *; [discriminate |].
  destruct (p y) eqn:Hy.
  - injection Hfind as ->. exists (f x :: r). simpl.
    rewrite Hkeep, Hy. auto.
  - destruct (IH Hfind) as (l' & -> & Hf & Hlen).
    exists (y :: l'). simpl. rewrite Hy, Hf, Hlen. auto.
Qed.

(** ** Status webhook *)

Section StatusWebhook.

Import WebhookStatus.

(** C1, as stated, fails on Scenario D: after a READ webhook made the
    message [read], a later DELIVERED webhook for the same message
    changes its status to [delivered]. *)
Lemma read_then_delivered_is_not_kept :
  let w1 := snd (run (POST Sample.env (Sample.statusEvent "READ" 1700000100))
                     Sample.world0) in
  let w2 := snd (run (POST Sample.env (Sample.statusEvent "DELIVERED" 1700000200))
                     w1) in
  (option_map msg_status (findMessage "wamid-1" (store w1)) = Some "read"
   /\ option_map msg_readAt (findMessage "wamid-1" (store w1))
      = Some (Some 1700000100000))
  /\ option_map msg_status (findMessage "wamid-1" (store w2)) = Some "delivered".
Proof. vm_compute. auto. Qed.

(** What [mapStatus] hands to the update, by the upper-cased status of
    the event. *)
Lemma mapStatus_cases env m st ts :
  let u := Js.toUpperCase (unicodeUpper env) (Js.orD st "") in
  let delivered := (String.eqb u "DELIVERED" || String.eqb u "ACK")%bool in
  mapStatus env m st ts
  = (if delivered then "delivered"
     else if String.eqb u "READ" then "read"
     else if (String.eqb u "FAILED" || String.eqb u "ERROR")%bool then "failed"
     else msg_status m,
     if delivered
     then match msg_deliveredAt m with
          | None => Some (eventDate env ts)
          | Some t => Some (ValidDate t)
          end
     else option_map ValidDate (msg_deliveredAt m),
     if delivered then option_map ValidDate (msg_readAt m)
     else if String.eqb u "READ" then Some (eventDate env ts)
     else option_map ValidDate (msg_readAt m)).
Proof.
  cbv zeta. unfold mapStatus.
  set (u := Js.toUpperCase (unicodeUpper env) (Js.orD st "")). clearbody u.
  destruct (String.eqb u "DELIVERED" || String.eqb u "ACK")%bool;
    [destruct (msg_deliveredAt m); reflexivity |].
  destruct (String.eqb u "READ"); [reflexivity |].
  destruct (String.eqb u "FAILED" || String.eqb u "ERROR")%bool; reflexivity.
Qed.

Lemma withDateO_valid {B} (o : option Date) (f : option Date -> Store -> Outcome B) :
  Db.withDateO (option_map ValidDate o) f = f o.
Proof. destruct o; reflexivity. Qed.

(** C1, amended: a status webhook for an existing message rewrites the
    status from the event alone, whatever the current status: DELIVERED
    and ACK give [delivered], READ gives [read], FAILED and ERROR give
    [failed] (in any letter case, by [toUpperCase]), and only an
    unrecognised status leaves it as it was. [deliveredAt] is written
    only when it was empty, and each READ event writes its own time to
    [readAt]. The time of the event is [timestamp] in seconds; when it
    is to be written and is no valid Date, the update is refused: the
    webhook is answered 500 and the message stays as it was. *)
Theorem status_webhook_rewrites_status env w request b inst d wid m :
  body request = Some b -> instance b = Some inst -> Js.truthy inst = true ->
  data b = Some d -> id d = Some wid -> Js.truthy wid = true ->
  findMessage wid (store w) = Some m ->
  writeFails env TMessage = false ->
  let u := Js.toUpperCase (unicodeUpper env) (Js.orD (status d) "") in
  let delivered := (String.eqb u "DELIVERED" || String.eqb u "ACK")%bool in
  let stamped :=
    ((delivered && match msg_deliveredAt m with None => true | Some _ => false end)
     || String.eqb u "READ")%bool in
  (stamped = true -> eventDate env (timestamp d) = InvalidDate ->
   exists w',
     run (POST env request) w
     = (Ok (json 500 (BError "Webhook processing failed")), w')
     /\ store w' = store w)
  /\ (forall at_,
        stamped = false \/ eventDate env (timestamp d) = ValidDate at_ ->
        exists w' m',
          run (POST env request) w = (Ok (json 200 BSuccess), w')
          /\ find (fun x => String.eqb (msg_id x) (msg_id m)) (messages (store w'))
             = Some m'
          /\ msg_status m' =
               (if delivered then "delivered"
                else if String.eqb u "READ" then "read"
                else if (String.eqb u "FAILED" || String.eqb u "ERROR")%bool
                     then "failed"
                else msg_status m)
          /\ msg_deliveredAt m' =
               (if delivered
                then match msg_deliveredAt m with
                     | None => Some at_
                     | Some t => Some t
                     end
                else msg_deliveredAt m)
          /\ msg_readAt m' =
               (if String.eqb u "READ" then Some at_ else msg_readAt m)).
Proof.
  intros Hbody Hinst Hti Hdata Hid Htw Hfind Hw u delivered stamped.
  destruct (find_first_row (fun x => String.eqb (msg_id x) (msg_id m))
              (messages (store w)) m) as [m0 Hm0].
  { unfold findMessage in Hfind. apply find_some in Hfind. tauto. }
  { apply String.eqb_refl. }
  assert (Hrun : forall upd,
             exists l',
               Db.update (fun x => String.eqb (msg_id x) (msg_id m))
                         (setStatus upd) messages Db.set_messages (store w)
               = Ok (setStatus upd m0, Db.set_messages (store w) l')
               /\ find (fun x => String.eqb (msg_id x) (msg_id m)) l'
                  = Some (setStatus upd m0)).
  { intros upd.
    destruct (update_first_found _ (setStatus upd) _ _ Hm0)
      as (l' & Hupd & Hfound & _).
    { intros y. unfold setStatus. destruct upd as [[? ?] ?]. reflexivity. }
    exists l'. unfold Db.update. rewrite Hupd. split; [reflexivity | exact Hfound]. }
  assert (Hpost : run (POST env request) w
                  = run (try_catch
                           (let '(newStatus, deliveredAt, readAt) :=
                              mapStatus env m (status d) (timestamp d) in
                            let* _ := Db.write env TMessage
                              (Db.withDateO deliveredAt (fun deliveredAt =>
                               Db.withDateO readAt (fun readAt =>
                                 Db.update
                                   (fun x => String.eqb (msg_id x) (msg_id m))
                                   (setStatus (newStatus, deliveredAt, readAt))
                                   messages Db.set_messages))) in
                            Ret (json 200 BSuccess))
                           (fun _ =>
                              let* _ :=
                                log "POST /api/whatsapp/webhooks/status error:" in
                              Ret (json 500 (BError "Webhook processing failed"))))
                        w).
  { unfold POST. rewrite !run_try_catch, run_bind, Hbody. cbn [requestJson run].
    rewrite Hinst, Hdata, Hti. cbn [negb]. rewrite Hid. cbn [Js.truthyO Js.orD].
    rewrite Htw. cbn [negb]. rewrite run_bind, run_read, Hfind. reflexivity. }
  rewrite Hpost. clear Hpost.
  rewrite (mapStatus_cases env m (status d) (timestamp d)).
  fold u. fold delivered. cbv zeta.
  rewrite run_try_catch, run_bind, run_write, Hw.
  assert (Hread : delivered = true -> String.eqb u "READ" = false).
  { subst delivered. clearbody u. intros H. apply orb_prop in H.
    destruct H as [H | H]; apply String.eqb_eq in H; subst u; reflexivity. }
  split.
  - intros Hst Hinv. rewrite Hinv. subst stamped.
    destruct delivered; cbn [andb orb] in Hst.
    + destruct (msg_deliveredAt m);
        [rewrite Hread in Hst by reflexivity; discriminate Hst |].
      cbn [Db.withDateO Db.withDate run]. rewrite run_bind, run_log.
      cbn [run]. eexists. split; reflexivity.
    + rewrite Hst, withDateO_valid.
      cbn [Db.withDateO Db.withDate run]. rewrite run_bind, run_log.
      cbn [run]. eexists. split; reflexivity.
  - intros at_ Hat. subst stamped.
    destruct delivered; cbn [andb orb] in Hat.
    + rewrite Hread in * by reflexivity.
      destruct (msg_deliveredAt m) as [t |].
      * cbn [Db.withDateO Db.withDate option_map]. rewrite withDateO_valid.
        destruct (Hrun ("delivered", Some t, msg_readAt m)) as (l' & -> & Hl').
        cbn [run set_store store Db.set_messages messages].
        eexists _, _. split; [reflexivity |]. split; [exact Hl' |].
        cbn. auto.
      * destruct Hat as [Hat | Hat]; [discriminate Hat |]. rewrite Hat.
        cbn [Db.withDateO Db.withDate option_map]. rewrite withDateO_valid.
        destruct (Hrun ("delivered", Some at_, msg_readAt m)) as (l' & -> & Hl').
        cbn [run set_store store Db.set_messages messages].
        eexists _, _. split; [reflexivity |]. split; [exact Hl' |].
        cbn. auto.
    + rewrite withDateO_valid.
      destruct (String.eqb u "READ") eqn:Hr.
      * destruct Hat as [Hat | Hat]; [discriminate Hat |]. rewrite Hat.
        cbn [Db.withDateO Db.withDate].
        destruct (Hrun ("read", msg_deliveredAt m, Some at_)) as (l' & -> & Hl').
        cbn [run set_store store Db.set_messages messages].
        eexists _, _. split; [reflexivity |]. split; [exact Hl' |].
        cbn. auto.
      * rewrite withDateO_valid.
        match goal with
        | |- context [setStatus ?upd] =>
            destruct (Hrun upd) as (l' & -> & Hl')
        end.
        cbn [run set_store store Db.set_messages messages].
        eexists _, _. split; [reflexivity |]. split; [exact Hl' |].
        cbn. auto.
Qed.

Lemma status_webhook_rewrites_status_witness :
  (exists w' m',
      run (POST Sample.env (Sample.statusEvent "delivered" 1700000200))
          Sample.world0
      = (Ok (json 200 BSuccess), w')
      /\ find (fun x => String.eqb (msg_id x) "msg-1") (messages (store w'))
         = Some m'
      /\ msg_status m' = "delivered"
      /\ msg_deliveredAt m' = Some 1700000200000
      /\ msg_readAt m' = None)
  /\ (exists w',
         run (POST Sample.env (Sample.statusEvent "READ" 9000000000000))
             Sample.world0
         = (Ok (json 500 (BError "Webhook processing failed")), w')
         /\ store w' = store Sample.world0).
Proof.
  split.
  - apply (proj2 (status_webhook_rewrites_status Sample.env Sample.world0
                    (Sample.statusEvent "delivered" 1700000200) _ "waha-1" _
                    "wamid-1" Sample.message1 eq_refl eq_refl eq_refl eq_refl
                    eq_refl eq_refl eq_refl eq_refl) 1700000200000).
    right. reflexivity.
  - apply (proj1 (status_webhook_rewrites_status Sample.env Sample.world0
                    (Sample.statusEvent "READ" 9000000000000) _ "waha-1" _
                    "wamid-1" Sample.message1 eq_refl eq_refl eq_refl eq_refl
                    eq_refl eq_refl eq_refl eq_refl)); reflexivity.
Defined.

End StatusWebhook.
(** ** Account objects *)

Section AccountObjects.

Lemma safeAccount_hides (o : gmap string Js.Value) (k : string) :
  k ∈ secretKeys -> AccountRoute.safeAccount o !! k = None.
Proof.
  unfold secretKeys, AccountRoute.safeAccount. intros Hk.
  repeat (apply elem_of_cons in Hk as [-> | Hk]; [by simplify_map_eq |]).
  by apply elem_of_nil in Hk.
Qed.

Lemma account_list_hides env w r resp o k :
  fst (run (AccountRoute.GET env r) w) = Ok resp ->
  o ∈ accountObjects resp -> k ∈ secretKeys -> o !! k = None.
Proof.
  unfold AccountRoute.GET. exec_all; intros [= <-];
    cbn [accountObjects rs_body json]; intros Ho Hk;
    try (by apply elem_of_nil in Ho).
  apply list_elem_of_fmap in Ho as (o' & -> & _). by apply safeAccount_hides.
Qed.

Lemma account_create_hides env w r resp o k :
  fst (run (AccountRoute.POST env r) w) = Ok resp ->
  o ∈ accountObjects resp -> k ∈ secretKeys -> o !! k = None.
Proof.
  unfold AccountRoute.POST, AccountRoute.requireWhatsAppAccess,
    AccountRoute.healthCheck.
  exec_all.
  all: intros [= <-]; cbn [accountObjects rs_body json];
    intros Ho Hk; try (by apply elem_of_nil in Ho).
  all: apply list_elem_of_singleton in Ho as ->; by apply safeAccount_hides.
Qed.

(** C10: whatever the store holds, no account object in a response of
    the account list (GET) or account create (POST) route has one of the
    properties wahaApiKey, internalApiKey, accessToken, metaAppSecret,
    internalWahaUrl. *)
Theorem account_responses_omit_secrets env w op resp o k :
  answersAccounts op = true ->
  fst (serve env op w) = Ok resp ->
  o ∈ accountObjects resp -> k ∈ secretKeys -> o !! k = None.
Proof.
  destruct op; try discriminate; intros _; unfold serve, handler.
  - apply account_list_hides.
  - apply account_create_hides.
Qed.

Lemma account_responses_omit_secrets_witness :
  exists resp o,
    fst (serve Sample.env (OpAccountList (AccountRoute.mkGet Sample.headersA))
               Sample.world0) = Ok resp
    /\ accountObjects resp = [o]
    /\ o !! "wahaBaseUrl" = Some (Js.VStr "http://waha.local")
    /\ o !! "wahaApiKey" = None.
Proof.
  eexists _, _. split; [reflexivity |]. split; [reflexivity |].
  split; [reflexivity |].
  apply (account_responses_omit_secrets Sample.env Sample.world0
           (OpAccountList (AccountRoute.mkGet Sample.headersA)) _ _
           "wahaApiKey" eq_refl eq_refl).
  - apply list_elem_of_singleton. reflexivity.
  - unfold secretKeys. apply elem_of_cons. left. reflexivity.
Defined.

End AccountObjects.
(** ** Store invariants *)

Section Preservation.

Context {I : Store -> Prop}.

Definition preserves {A} (p : Prog A) : Prop :=
  forall w, I (store w) -> I (store (snd (run p w))).

Lemma preserves_ret {A} (a : A) : preserves (Ret a).
Proof. intros w H. exact H. Qed.

Lemma preserves_throw {A} (e : Exn) : preserves (@Throw A e).
Proof. intros w H. exact H. Qed.

Lemma preserves_bind {A B} (p : Prog A) (f : A -> Prog B) :
  preserves p -> (forall a, preserves (f a)) -> preserves (bind p f).
Proof.
  intros Hp Hf w H. rewrite run_bind. specialize (Hp w H).
  destruct (run p w) as [[a | e] w']; cbn in *; [apply Hf |]; exact Hp.
Qed.

Lemma preserves_try {A} (p : Prog A) (h : Exn -> Prog A) :
  preserves p -> (forall e, preserves (h e)) -> preserves (try_catch p h).
Proof.
  intros Hp Hh w H. rewrite run_try_catch. specialize (Hp w H).
  destruct (run p w) as [[a | e] w']; cbn in *; [| apply Hh]; exact Hp.
Qed.

Lemma preserves_read {B} (f : Store -> B) : preserves (Db.read f).
Proof. intros w H. exact H. Qed.

Lemma preserves_log (m : string) : preserves (log m).
Proof. intros w H. exact H. Qed.

Lemma preserves_axios env call : preserves (axios env call).
Proof. intros w H. rewrite run_axios. destruct (http env call); exact H. Qed.

Lemma preserves_lift {A} (o : Outcome A) : preserves (lift o).
Proof. destruct o; intros w H; exact H. Qed.

Lemma preserves_requestJson {A} (o : option A) : preserves (requestJson o).
Proof. destruct o; intros w H; exact H. Qed.

Lemma preserves_guard env h m : preserves (Auth.requireModuleAccess env h m).
Proof. intros w H. rewrite run_guard. exact H. Qed.

Lemma preserves_write {B} env t (f : Store -> Outcome (B * Store)) :
  (forall s b s', I s -> f s = Ok (b, s') -> I s') ->
  preserves (Db.write env t f).
Proof.
  intros Hf w H. rewrite run_write. destruct (writeFails env t); [exact H |].
  destruct (f (store w)) as [[b s'] | e] eqn:E; [| exact H].
  exact (Hf _ _ _ H E).
Qed.

End Preservation.
Arguments preserves I {A} p.

Ltac pres :=
  repeat first
    [ apply preserves_ret | apply preserves_throw | apply preserves_read
    | apply preserves_log | apply preserves_axios | apply preserves_lift
    | apply preserves_requestJson | apply preserves_guard
    | apply preserves_bind; [| intros ?]
    | apply preserves_try; [| intros ?]
    | match goal with
      | |- preserves _ (match ?x with _ => _ end) => destruct x
      | |- preserves _ (Auth.routeCatch _ _ ?e) => destruct e; cbn [Auth.routeCatch]
      end
    | apply preserves_write ].

Lemma update_first_keys {R K} (key : R -> K) (p : R -> bool) (f : R -> R)
    (l l' : list R) (y : R) :
  (forall x, key (f x) = key x) ->
  Db.update_first p f l = Some (y, l') -> map key l' = map key l.
Proof.
  intros Hkey. revert l' y. induction l as [| x r IH]; intros l' y; simpl.
  - discriminate.
  - destruct (p x).
    + intros [= <- <-]. simpl. now rewrite Hkey.
    + destruct (Db.update_first p f r) as [[z r'] |]; [| discriminate].
      intros [= <- <-]. simpl. f_equal. eapply IH. reflexivity.
Qed.


Lemma find_none_key (accountId contactId : Id) (s : Store) :
  WebhookMessage.findConversation accountId contactId s = None ->
  (accountId, contactId) ∉ map conversationKey (conversations s).
Proof.
  unfold WebhookMessage.findConversation. intros Hnone Hin.
  apply list_elem_of_fmap in Hin as (c & Hkey & Hc).
  apply list_elem_of_In in Hc. pose proof (find_none _ _ Hnone c Hc) as Hf.
  cbn in Hf. injection Hkey as -> ->. now rewrite !String.eqb_refl in Hf.
Qed.

Lemma createConversation_unique mk s c s' :
  uniqueConversations s ->
  WebhookMessage.createConversation mk s = Ok (c, s') -> uniqueConversations s'.
Proof.
  unfold WebhookMessage.createConversation, uniqueConversations. intros Hu.
  destruct (WebhookMessage.findConversation _ _ s) eqn:E; [discriminate |].
  cbn [Db.create]. intros [= <- <-]. cbn [conversations Db.bump Db.set_conversations].
  rewrite map_app. apply NoDup_app. split; [exact Hu |]. split.
  - intros k Hk Hin. cbn in Hin. apply list_elem_of_singleton in Hin as ->.
    exact (find_none_key _ _ _ E Hk).
  - cbn. apply NoDup_singleton.
Qed.

Lemma update_conversation_unique p f s c s' :
  (forall x, conversationKey (f x) = conversationKey x) ->
  uniqueConversations s ->
  Db.update p f conversations Db.set_conversations s = Ok (c, s') ->
  uniqueConversations s'.
Proof.
  unfold Db.update, uniqueConversations. intros Hkey Hu.
  destruct (Db.update_first p f (conversations s)) as [[y l] |] eqn:E;
    [| discriminate].
  intros [= <- <-]. cbn [conversations Db.set_conversations].
  now rewrite (update_first_keys _ _ _ _ _ _ Hkey E).
Qed.

Ltac other_table :=
  let H := fresh in
  intros ? ? ? H;
  unfold Db.update, Db.create, WebhookMessage.createIdentity, Db.window,
    Db.withDateO, Db.withDate;
  repeat match goal with
         | |- context [match ?x with _ => _ end] => destruct x
         end;
  cbv beta;
  intros [= <- <-] || discriminate; exact H.

Ltac conversation_table :=
  first
    [ intros ? ? ?; apply createConversation_unique
    | intros ? ? ?; apply update_conversation_unique; intros []; reflexivity
    | match goal with
      | |- context [Db.withDate ?d] =>
          destruct d; cbn [Db.withDate];
          [ intros ? ? ?; apply update_conversation_unique; intros []; reflexivity
          | discriminate ]
      end ].

Lemma handler_preserves_unique env op : preserves uniqueConversations (handler env op).
Proof.
  destruct op; cbn [handler];
    unfold WebhookStatus.POST, WebhookMessage.POST, WebhookMessage.resolveContact,
      WebhookMessage.resolveConversation, Send.POST, Send.dispatch,
      SessionStatus.GET, SessionStatus.poll, SessionList.GET, SessionCreate.POST,
      SessionCreate.provision, ConversationRoute.GET, ConversationRoute.PATCH,
      MessageList.GET, Db.query, TemplateRoute.GET, TemplateRoute.POST,
      AccountRoute.GET, AccountRoute.POST, AccountRoute.requireWhatsAppAccess,
      AccountRoute.healthCheck;
    pres; try conversation_table; try other_table.
Qed.

(** C6: for every pair (accountId, contactId) at most one Conversation row
    exists, and every operation of the module (the inbound webhook's
    find-or-create, send, the conversation update and all the others)
    keeps it so, over any sequence of requests. *)
Theorem conversations_stay_unique env ops w :
  uniqueConversations (store w) ->
  uniqueConversations (store (serveAll env ops w)).
Proof.
  revert w. induction ops as [| op rest IH]; intros w H; cbn [serveAll].
  - exact H.
  - apply IH. apply handler_preserves_unique. exact H.
Qed.

Lemma conversations_stay_unique_witness :
  uniqueConversations
    (store (serveAll Sample.env
              [OpWebhookMessage (Sample.inbound "+912222222222" "Hi");
               OpWebhookMessage (Sample.inbound "+912222222222" "Hi again");
               OpSend (Sample.sendText Sample.headersA "cnv-1" "Hello")]
              Sample.world0))
  /\ List.length
       (conversations
          (store (serveAll Sample.env
                    [OpWebhookMessage (Sample.inbound "+912222222222" "Hi");
                     OpWebhookMessage (Sample.inbound "+912222222222" "Hi again");
                     OpSend (Sample.sendText Sample.headersA "cnv-1" "Hello")]
                    Sample.world0))) = 2%nat.
Proof.
  split.
  - apply conversations_stay_unique. apply NoDup_singleton.
  - reflexivity.
Defined.

(** ** Tenant ownership *)

Section AccessGuard.

Lemma send_parse_conversationId env b v c :
  Send.parse env b = Ok v -> Send.conversationId b = Js.Str c ->
  Send.v_conversationId v = c.
Proof.
  unfold Send.parse. intros H Hc. rewrite Hc in H. cbn in H.
  destruct (Js.truthy c); [| discriminate].
  destruct (Zod.optional _); [| discriminate].
  destruct (Zod.optionalUrl _ _); [| discriminate].
  destruct (Zod.optional _); [| discriminate].
  now injection H as <-.
Qed.

Lemma session_parse_accountId b v a :
  SessionCreate.parse b = Ok v -> SessionCreate.accountId b = Js.Str a ->
  SessionCreate.v_accountId v = a.
Proof.
  unfold SessionCreate.parse. intros H Hc. rewrite Hc in H. cbn in H.
  destruct (Js.truthy a); [| discriminate].
  do 2 (destruct (Zod.optional _); [| discriminate]).
  now injection H as <-.
Qed.

Lemma template_parse_accountId b row u a :
  TemplateRoute.parse b = Ok row -> TemplateRoute.accountId b = Js.Str a ->
  tpl_accountId (row u "") = a.
Proof.
  unfold TemplateRoute.parse. intros H Hc. rewrite Hc in H. cbn in H.
  destruct (Js.truthy a); [| discriminate].
  repeat match type of H with
         | match ?x with _ => _ end = _ => destruct x; try discriminate H
         end.
  now injection H as <-.
Qed.

Ltac split_target :=
  repeat match goal with
         | H : match ?x with _ => _ end = Some _ |- _ =>
             destruct x eqn:?; try discriminate H
         | H : Some _ = Some _ |- _ => injection H as H
         end.

Ltac parsed_ids :=
  repeat match goal with
         | Hp : Send.parse _ ?b = Ok ?v, Hc : Send.conversationId ?b = Js.Str _
           |- context [Send.v_conversationId ?v] =>
             rewrite (send_parse_conversationId _ _ _ _ Hp Hc)
         | Hp : SessionCreate.parse ?b = Ok ?v,
           Hc : SessionCreate.accountId ?b = Js.Str _
           |- context [SessionCreate.v_accountId ?v] =>
             rewrite (session_parse_accountId _ _ _ Hp Hc)
         | Hp : TemplateRoute.parse ?b = Ok ?v,
           Hc : TemplateRoute.accountId ?b = Js.Str _
           |- context [tpl_accountId (?v ?u "")] =>
             rewrite (template_parse_accountId _ _ u _ Hp Hc)
         end.

Ltac leaf :=
  cbn [fst snd store calls];
  repeat split; try reflexivity; try discriminate; try congruence;
  try (let Hwf := fresh in
       intros Hwf; rewrite ?Hwf in *; cbn in *; congruence).

(** C8, as stated, fails for a request that does not pass the route's
    input validation: a caller of another tenant who posts a send with
    no content to a conversation of tenant-a is answered with the 400
    validation error, which the route raises before the ownership check. *)
Lemma foreign_send_without_content_is_a_validation_error :
  let op :=
    OpSend (Send.mkRequest Sample.headersB
              (Some (Send.mkBody (Js.Str "cnv-1") Js.Undefined Js.Undefined
                                 Js.Undefined))) in
  option_map Auth.tenantId (callerOf Sample.env op) = Some "tenant-b"
  /\ option_map acc_tenantId (targetAccount (store Sample.world0) op)
     = Some "tenant-a"
  /\ serve Sample.env op Sample.world0
     = (Ok (json 400 (BError "text, mediaUrl, or templateId required")),
        Sample.world0).
Proof. vm_compute. auto. Qed.

(** C8, amended: when a caller whose tenant differs from the tenant of
    the target account invokes an account-scoped operation (session
    create, list and status, conversation read and update, message list,
    send, template list and create), the store is left unchanged and no
    call is made to the bridge; when the request passes the route's input
    validation the answer is 403 Unauthorized. *)
Theorem foreign_tenant_is_rejected env w op caller acct :
  callerOf env op = Some caller ->
  targetAccount (store w) op = Some acct ->
  acc_tenantId acct <> Auth.tenantId caller ->
  store (snd (serve env op w)) = store w
  /\ calls (snd (serve env op w)) = calls w
  /\ (wellFormed env op = true ->
      serve env op w = (Ok (json 403 (BError "Unauthorized")), w)).
Proof.
  intros Hc Ht Hne. apply String.eqb_neq in Hne.
  destruct op; try discriminate Ht;
    unfold callerOf, targetAccount, conversationAccount in *; split_target; simplify_eq;
    unfold serve, handler, wellFormed, nonePopulated,
      Send.POST, SessionStatus.GET, SessionList.GET, SessionCreate.POST,
      ConversationRoute.GET, ConversationRoute.PATCH,
      MessageList.GET, TemplateRoute.GET, TemplateRoute.POST,
      Send.findConversation, SessionStatus.findSession,
      ConversationRoute.findWithSummary, ConversationRoute.findWithAccount;
    try match goal with
        | H : TemplateRoute.g_accountId _ = Some ?s |- _ =>
            destruct (Js.truthy s) eqn:?
        end;
    repeat (exec; parsed_ids; use_hyps; cbn [Js.orD Js.truthyO option_map negb];
            try case_run).
  all: try leaf.
  all: intros _;
    match goal with
    | H : Js.truthy ?s = true, H' : negb (Js.truthy ?s) = true |- _ =>
        rewrite H in H'; discriminate H'
    end.
Qed.

Lemma foreign_tenant_is_rejected_witness :
  serve Sample.env (OpSend (Sample.sendText Sample.headersB "cnv-1" "Hello"))
        Sample.world0
  = (Ok (json 403 (BError "Unauthorized")), Sample.world0).
Proof.
  refine (proj2 (proj2 (foreign_tenant_is_rejected Sample.env Sample.world0
            (OpSend (Sample.sendText Sample.headersB "cnv-1" "Hello"))
            (Auth.mkCaller "user-b" "tenant-b") Sample.account1
            eq_refl eq_refl _)) eq_refl).
  discriminate.
Defined.
End AccessGuard.

(** ** Weakest preconditions *)

Section WeakestPrecondition.

Definition wp {A} (p : Prog A) (w : World) (Q : Outcome A -> World -> Prop)
  : Prop :=
  Q (fst (run p w)) (snd (run p w)).

Lemma wp_run {A} (p : Prog A) (w : World) (P : Outcome A * World -> Prop) :
  wp p w (fun o w' => P (o, w')) -> P (run p w).
Proof. unfold wp. destruct (run p w); exact (fun H => H). Qed.

Lemma wp_ret {A} (a : A) w Q : Q (Ok a) w -> wp (Ret a) w Q.
Proof. exact (fun H => H). Qed.

Lemma wp_throw {A} (e : Exn) w (Q : Outcome A -> World -> Prop) :
  Q (Fail e) w -> wp (Throw e) w Q.
Proof. exact (fun H => H). Qed.

Lemma wp_bind {A B} (p : Prog A) (f : A -> Prog B) w Q :
  wp p w (fun o w' =>
            match o with
            | Ok a => wp (f a) w' Q
            | Fail e => Q (Fail e) w'
            end) ->
  wp (bind p f) w Q.
Proof.
  unfold wp. rewrite run_bind. destruct (run p w) as [[a | e] w'];
    exact (fun H => H).
Qed.

Lemma wp_try {A} (p : Prog A) (h : Exn -> Prog A) w Q :
  wp p w (fun o w' =>
            match o with
            | Ok a => Q (Ok a) w'
            | Fail e => wp (h e) w' Q
            end) ->
  wp (try_catch p h) w Q.
Proof.
  unfold wp. rewrite run_try_catch. destruct (run p w) as [[a | e] w'];
    exact (fun H => H).
Qed.

(** The rules below are stated for a world given by its three
    components, so that running a program never leaves projections of
    worlds behind. *)
Lemma wp_read {B} (f : Store -> B) s c k Q :
  Q (Ok (f s)) (mkWorld s c k) -> wp (Db.read f) (mkWorld s c k) Q.
Proof. exact (fun H => H). Qed.

Lemma wp_log (m : string) s c k Q :
  Q (Ok tt) (mkWorld s (c ++ [m])%list k) -> wp (log m) (mkWorld s c k) Q.
Proof. exact (fun H => H). Qed.

Lemma wp_lift {A} (o : Outcome A) w Q : Q o w -> wp (lift o) w Q.
Proof. destruct o; exact (fun H => H). Qed.

Lemma wp_requestJson {A} (o : option A) w Q :
  Q (match o with Some b => Ok b | None => Fail SyntaxError end) w ->
  wp (requestJson o) w Q.
Proof. destruct o; exact (fun H => H). Qed.

Lemma wp_guard env h m w Q :
  Q (guard env h m) w -> wp (Auth.requireModuleAccess env h m) w Q.
Proof. unfold wp. rewrite run_guard. exact (fun H => H). Qed.

Lemma wp_axios env call s c k Q :
  (forall d, http env call = HttpOk d ->
             Q (Ok d) (mkWorld s c (k ++ [call])%list)) ->
  (forall r m, http env call = HttpFail r m ->
               Q (Fail (AxiosError r m)) (mkWorld s c (k ++ [call])%list)) ->
  wp (axios env call) (mkWorld s c k) Q.
Proof.
  unfold wp. rewrite run_axios. intros Hok Hfail.
  destruct (http env call); [apply Hok | apply Hfail]; reflexivity.
Qed.

Lemma wp_write {B} env t (f : Store -> Outcome (B * Store)) s c k Q :
  (writeFails env t = true -> Q (Fail (PrismaError "P1001")) (mkWorld s c k)) ->
  (forall b s', writeFails env t = false -> f s = Ok (b, s') ->
                Q (Ok b) (mkWorld s' c k)) ->
  (forall e, writeFails env t = false -> f s = Fail e ->
             Q (Fail e) (mkWorld s c k)) ->
  wp (Db.write env t f) (mkWorld s c k) Q.
Proof.
  unfold wp. rewrite run_write. cbn [store]. intros H1 H2 H3.
  destruct (writeFails env t); [now apply H1 |].
  destruct (f s) as [[b s'] | e] eqn:E; [now apply H2 | now apply H3].
Qed.

Lemma wp_create {R B} env t (mk : Id -> R) tbl set (ret : R -> B) s c k Q :
  (writeFails env t = true -> Q (Fail (PrismaError "P1001")) (mkWorld s c k)) ->
  (writeFails env t = false ->
   Q (Ok (ret (mk (Db.fresh s))))
     (mkWorld (Db.bump (set s (tbl s ++ [mk (Db.fresh s)])%list)) c k)) ->
  wp (Db.write env t (Db.create mk tbl set ret)) (mkWorld s c k) Q.
Proof.
  intros H1 H2. apply wp_write; [exact H1 | |]; unfold Db.create.
  - intros b s' Hw [= <- <-]. now apply H2.
  - discriminate.
Qed.

Lemma wp_update {R} env t (p : R -> bool) (f : R -> R) tbl set s c k Q :
  (writeFails env t = true -> Q (Fail (PrismaError "P1001")) (mkWorld s c k)) ->
  (forall r l, writeFails env t = false ->
               Db.update_first p f (tbl s) = Some (r, l) ->
               Q (Ok r) (mkWorld (set s l) c k)) ->
  (writeFails env t = false -> Db.update_first p f (tbl s) = None ->
   Q (Fail (PrismaError "P2025")) (mkWorld s c k)) ->
  wp (Db.write env t (Db.update p f tbl set)) (mkWorld s c k) Q.
Proof.
  intros H1 H2 H3. apply wp_write; [exact H1 | |]; unfold Db.update;
    destruct (Db.update_first p f (tbl s)) as [[r l] |] eqn:E.
  - intros b s' Hw [= <- <-]. now apply H2.
  - discriminate.
  - discriminate.
  - intros e Hw [= <-]. now apply H3.
Qed.

Lemma wp_createIdentity env mk s c k Q :
  (writeFails env TIdentity = true ->
   Q (Fail (PrismaError "P1001")) (mkWorld s c k)) ->
  (writeFails env TIdentity = false ->
   WebhookMessage.findIdentity (idt_whatsappNumber (mk (Db.fresh s))) s = None ->
   Q (Ok (mk (Db.fresh s)))
     (mkWorld (Db.bump (Db.set_identities s
                          (identities s ++ [mk (Db.fresh s)])%list)) c k)) ->
  (forall i, writeFails env TIdentity = false ->
             WebhookMessage.findIdentity
               (idt_whatsappNumber (mk (Db.fresh s))) s = Some i ->
             Q (Fail (PrismaError "P2002")) (mkWorld s c k)) ->
  wp (Db.write env TIdentity (WebhookMessage.createIdentity mk)) (mkWorld s c k) Q.
Proof.
  intros H1 H2 H3. apply wp_write; [exact H1 | |];
    unfold WebhookMessage.createIdentity, Db.create;
    destruct (WebhookMessage.findIdentity _ s) eqn:E.
  - discriminate.
  - intros b s' Hw [= <- <-]. now apply H2.
  - intros e Hw [= <-]. now apply (H3 _ Hw eq_refl).
  - discriminate.
Qed.

Lemma wp_createConversation env mk s c k Q :
  (writeFails env TConversation = true ->
   Q (Fail (PrismaError "P1001")) (mkWorld s c k)) ->
  (writeFails env TConversation = false ->
   WebhookMessage.findConversation (cnv_accountId (mk (Db.fresh s)))
                                   (cnv_contactId (mk (Db.fresh s))) s = None ->
   Q (Ok (mk (Db.fresh s)))
     (mkWorld (Db.bump (Db.set_conversations s
                          (conversations s ++ [mk (Db.fresh s)])%list)) c k)) ->
  (forall x, writeFails env TConversation = false ->
             WebhookMessage.findConversation
               (cnv_accountId (mk (Db.fresh s)))
               (cnv_contactId (mk (Db.fresh s))) s = Some x ->
             Q (Fail (PrismaError "P2002")) (mkWorld s c k)) ->
  wp (Db.write env TConversation (WebhookMessage.createConversation mk))
     (mkWorld s c k) Q.
Proof.
  intros H1 H2 H3. apply wp_write; [exact H1 | |];
    unfold WebhookMessage.createConversation, Db.create;
    destruct (WebhookMessage.findConversation _ _ s) eqn:E.
  - discriminate.
  - intros b s' Hw [= <- <-]. now apply H2.
  - intros e Hw [= <-]. now apply (H3 _ Hw eq_refl).
  - discriminate.
Qed.

(** A write whose arguments the client refuses. *)
Lemma wp_refused {B} env t (e : Exn) s c k (Q : Outcome B -> World -> Prop) :
  (writeFails env t = true -> Q (Fail (PrismaError "P1001")) (mkWorld s c k)) ->
  (writeFails env t = false -> Q (Fail e) (mkWorld s c k)) ->
  wp (Db.write env t (fun _ => Fail e)) (mkWorld s c k) Q.
Proof.
  unfold wp. rewrite run_write. cbn [store].
  destruct (writeFails env t); intros H1 H2; [now apply H1 | now apply H2].
Qed.

End WeakestPrecondition.

(** One step of symbolic execution on a [wp] goal: apply the rule of the
    program's head; when the run is stuck on a value, use what is known
    about it or split on it. *)
Ltac wp_case x :=
  lazymatch x with
  | match ?y with _ => _ end => wp_case y
  | _ => first
           [ match goal with H : x = _ |- _ => rewrite H end
           | lazymatch x with negb ?y => wp_case y; cbn [negb] end
           | destruct x eqn:? ]
  end.

Ltac wp_step :=
  lazymatch goal with
  | |- wp (bind _ _) _ _ => apply wp_bind
  | |- wp (try_catch _ _) _ _ => apply wp_try
  | |- wp (Ret _) _ _ => apply wp_ret
  | |- wp (Throw _) _ _ => apply wp_throw
  | |- wp (Db.read _) _ _ => apply wp_read
  | |- wp (log _) _ _ => apply wp_log
  | |- wp (lift _) _ _ => apply wp_lift
  | |- wp (requestJson _) _ _ => apply wp_requestJson
  | |- wp (Auth.requireModuleAccess _ _ _) _ _ => apply wp_guard
  | |- wp (axios _ _) _ _ => apply wp_axios; [intros ? ? | intros ? ? ?]
  | |- wp (Db.write _ _ (Db.create _ _ _ _)) _ _ =>
      apply wp_create; intros ?
  | |- wp (Db.write _ _ (Db.update _ _ _ _)) _ _ =>
      apply wp_update; [intros ? | intros ? ? ? ? | intros ? ?]
  | |- wp (Db.write _ _ (WebhookMessage.createIdentity _)) _ _ =>
      apply wp_createIdentity; [intros ? | intros ? ? | intros ? ? ?]
  | |- wp (Db.write _ _ (WebhookMessage.createConversation _)) _ _ =>
      apply wp_createConversation; [intros ? | intros ? ? | intros ? ? ?]
  | |- wp (Db.write _ _ (Db.withDate ?d _)) _ _ =>
      first [ progress cbn [Db.withDate Db.withDateO]
            | wp_case d; cbn [Db.withDate Db.withDateO] ]
  | |- wp (Db.write _ _ (Db.withDateO ?d _)) _ _ =>
      first [ progress cbn [Db.withDate Db.withDateO]
            | wp_case d; cbn [Db.withDate Db.withDateO] ]
  | |- wp (Db.write _ _ (fun _ => Fail _)) _ _ =>
      apply wp_refused; intros ?
  | |- wp (Db.query _) _ _ => unfold Db.query
  | |- wp (Db.write _ _ _) _ _ =>
      apply wp_write; [intros ? | intros ? ? ? ? | intros ? ? ?]
  | |- wp (Auth.routeCatch _ _ ?e) _ _ =>
      first
        [ progress cbn [Auth.routeCatch Auth.handleLicenseError]
        | destruct e; cbn [Auth.routeCatch Auth.handleLicenseError] ]
  | |- wp (match ?x with _ => _ end) _ _ => wp_case x
  | |- match ?x with _ => _ end => wp_case x
  end; cbv beta iota.

Ltac wp_auto := repeat wp_step.

(** ** Send: what a send that passes its checks does *)

Lemma update_first_none {R} (p : R -> bool) (f : R -> R) (l : list R) :
  Db.update_first p f l = None -> find p l = None.
Proof.
  induction l as [| x r IH]; simpl; [reflexivity |].
  destruct (p x); [discriminate |].
  destruct (Db.update_first p f r) as [[? ?] |]; [discriminate | exact IH].
Qed.

Lemma update_found_by_id {R} (ident : R -> string) (q : R -> bool)
    (f : R -> R) (l : list R) (x : R) :
  find q l = Some x ->
  Db.update_first (fun y => String.eqb (ident y) (ident x)) f l <> None.
Proof.
  intros Hfind Hnone. apply update_first_none in Hnone.
  apply find_some in Hfind as [Hin _].
  pose proof (find_none _ _ Hnone x Hin) as Hx. cbn in Hx.
  now rewrite String.eqb_refl in Hx.
Qed.

Lemma orNull_orD (a : option string) (d : string) :
  Js.truthy d = true -> Js.orNull (Js.orD a d) = Some (Js.orD a d).
Proof.
  intros Hd. unfold Js.orNull, Js.orD. destruct a as [x |]; [| now rewrite Hd].
  destruct (Js.truthy x) eqn:E; [now rewrite E | now rewrite Hd].
Qed.

Lemma findConversation_row cid s c a b :
  Send.findConversation cid s = Some (c, a, b) ->
  find (fun y => String.eqb (cnv_id y) cid) (conversations s) = Some c.
Proof.
  unfold Send.findConversation, findConversationById.
  destruct (find _ (conversations s)); [| discriminate]. now intros [= -> _ _].
Qed.

Lemma findConversation_session cid s c a x :
  Send.findConversation cid s = Some (c, a, Some x) ->
  exists q, find q (sessions s) = Some x.
Proof.
  unfold Send.findConversation, findConversationById.
  destruct (find _ (conversations s)) as [y |]; [| discriminate].
  intros [= _ _ H]. destruct (cnv_sessionId y) as [sid |]; [| discriminate].
  cbn in H. unfold findSessionById in H. eauto.
Qed.

Ltac conversation_updated Hn :=
  match goal with
  | Hc : Send.findConversation _ _ = Some _ |- _ =>
      apply update_first_none in Hn; apply findConversation_row in Hc;
      rewrite Hn in Hc; discriminate Hc
  end.

Ltac session_updated Hn :=
  first
    [ match goal with
      | Hx : Send.findConnected _ _ = Some _ |- _ =>
          exact (update_found_by_id ses_id _ _ _ _ Hx Hn)
      end
    | match goal with
      | Hc : Send.findConversation _ _ = Some _ |- _ =>
          let q := fresh in
          let Hq := fresh in
          destruct (findConversation_session _ _ _ _ _ Hc) as [q Hq];
          exact (update_found_by_id ses_id _ _ _ _ Hq Hn)
      end ].

Ltac all_written :=
  let Hall := fresh in
  intros Hall;
  first
    [ reflexivity
    | match goal with
      | Hf : writeFails _ _ = true |- _ => rewrite Hall in Hf; discriminate Hf
      end
    | exfalso;
      match goal with
      | Hn : Db.update_first _ _ (conversations _) = None |- _ =>
          cbn [conversations Db.bump Db.set_messages] in Hn;
          conversation_updated Hn
      | Hn : Db.update_first _ _ (sessions _) = None |- _ =>
          cbn [sessions Db.bump Db.set_messages Db.set_conversations] in Hn;
          session_updated Hn
      end ].

Lemma send_dispatches env w r caller b v c account bound x :
  guard env (Send.headers r) "marketing" = Ok caller ->
  Send.body r = Some b ->
  Send.parse env b = Ok v ->
  nonePopulated v = false ->
  Send.findConversation (Send.v_conversationId v) (store w)
  = Some (c, Some account, bound) ->
  acc_tenantId account = Auth.tenantId caller ->
  resolvedSession bound (cnv_accountId c) (store w) = Some x ->
  dispatchable v c account x (store w) = true ->
  let o := fst (run (Send.POST env r) w) in
  let w' := snd (run (Send.POST env r) w) in
  exists call,
    calls w' = (calls w ++ [call])%list
    /\ hc_url call = sendUrl account x
    /\ if writeFails env TMessage
       then messages (store w') = messages (store w)
       else exists m,
           messages (store w') = (messages (store w) ++ [m])%list
           /\ msg_sessionId m = ses_id x
           /\ ((forall t, writeFails env t = false) ->
               o = Ok (json 201 (BMessage m))).
Proof.
  intros Hg Hb Hp Hn Hc Ht Hx Hd. destruct w as [s c0 k]. cbn [store] in *.
  cbv zeta. unfold nonePopulated in Hn. unfold dispatchable in Hd.
  repeat (apply andb_prop in Hd as [Hd ?]).
  apply bool_decide_eq_true in Hd as [ident Hi].
  apply String.eqb_eq in Ht.
  assert (Hcfg : (negb (Js.truthyO (acc_wahaBaseUrl account))
                  || negb (Js.truthyO (acc_wahaApiKey account)))%bool = false)
    by (repeat match goal with H : _ = true |- _ => rewrite H end; reflexivity).
  pattern (run (Send.POST env r) (mkWorld s c0 k)). apply wp_run.
  unfold Send.POST, Send.dispatch.
  destruct bound as [x0 |]; cbn [resolvedSession] in Hx;
    [injection Hx as -> |].
  all: wp_auto.
  all: cbn [fst snd store calls messages Db.bump Db.set_messages
              Db.set_conversations Db.set_sessions Db.set_auditLogs].
  all: try (exfalso;
            match goal with
            | H : (_ || _ || bool_decide _)%bool = true |- _ =>
                vm_compute in H; discriminate H
            end).
  all: try (exfalso;
            match goal with
            | Hn : (negb _ && negb _ && negb _)%bool = false |- _ =>
                discriminate Hn
            end).
  all: eexists; split; [reflexivity |]; split; [reflexivity |].
  all: match goal with
       | Hw : writeFails _ TMessage = _ |- _ => rewrite Hw
       end.
  all: try reflexivity.
  all: eexists; split; [reflexivity |]; split; [reflexivity |]; all_written.
Qed.
(** ** Send: payload validation *)

Section SendValidation.

Lemma populated_zero v : populated v = 0%nat <-> nonePopulated v = true.
Proof.
  unfold populated, nonePopulated.
  destruct (Js.truthyO (Send.v_text v)), (Js.truthyO (Send.v_mediaUrl v)),
    (Js.truthyO (Send.v_templateId v)); cbn; split; intros; try lia; congruence.
Qed.

(** C4, as stated, fails for a payload with more than one field
    populated: a send with both [text] and [templateId] is not rejected;
    the text is sent and the message is recorded (as a template
    message). *)
Lemma text_with_template_is_accepted :
  let b := Send.mkBody (Js.Str "cnv-1") (Js.Str "Hello") Js.Undefined
                       (Js.Str "tpl-1") in
  let r := Send.mkRequest Sample.headersA (Some b) in
  option_map populated
    (match Send.parse Sample.env b with Ok v => Some v | Fail _ => None end)
  = Some 2%nat
  /\ option_map rs_status
       (match fst (run (Send.POST Sample.env r) Sample.world0) with
        | Ok resp => Some resp
        | Fail _ => None
        end) = Some 201%nat
  /\ map (fun m => (msg_text m, msg_templateId m, msg_status m))
         (messages (store (snd (run (Send.POST Sample.env r) Sample.world0))))
     = [(Some "Hello", None, "sent"); (Some "Hello", Some "tpl-1", "sent")].
Proof. vm_compute. auto. Qed.

(** C4, amended: after the schema has parsed the body (conversationId a
    non-empty string; text, mediaUrl and templateId optional strings,
    mediaUrl a URL), the send is rejected with the validation error
    `text, mediaUrl, or templateId required' exactly when none of the
    three fields is populated. A payload with one, two or all three of
    them populated is accepted alike: when the conversation is the
    caller's, a session is resolved, the remaining checks of the route
    pass and the datastore accepts the writes, the request is answered
    201 with the recorded message. *)
Theorem send_rejects_only_empty_payload env w r caller b v :
  guard env (Send.headers r) "marketing" = Ok caller ->
  Send.body r = Some b ->
  Send.parse env b = Ok v ->
  (populated v = 0%nat
   <-> run (Send.POST env r) w
       = (Ok (json 400 (BError "text, mediaUrl, or templateId required")), w))
  /\ (populated v <> 0%nat ->
      forall c account bound x,
        Send.findConversation (Send.v_conversationId v) (store w)
        = Some (c, Some account, bound) ->
        acc_tenantId account = Auth.tenantId caller ->
        resolvedSession bound (cnv_accountId c) (store w) = Some x ->
        dispatchable v c account x (store w) = true ->
        (forall t, writeFails env t = false) ->
        exists m, fst (run (Send.POST env r) w) = Ok (json 201 (BMessage m))).
Proof.
  intros Hg Hb Hp. split.
  - rewrite populated_zero. unfold nonePopulated.
    destruct w as [s c k].
    pattern (run (Send.POST env r) (mkWorld s c k)). apply wp_run.
    unfold Send.POST, Send.dispatch.
    destruct (_ && _)%bool eqn:E.
    + wp_auto. split; reflexivity.
    + wp_auto.
      all: split; [discriminate | intros [= ]].
  - intros Hn c account bound x Hc Ht Hx Hd Hall.
    assert (Hnone : nonePopulated v = false).
    { destruct (nonePopulated v) eqn:E; [| reflexivity].
      apply populated_zero in E. contradiction. }
    destruct (send_dispatches env w r caller b v c account bound x
                Hg Hb Hp Hnone Hc Ht Hx Hd) as (call & _ & _ & Hrow).
    rewrite (Hall TMessage) in Hrow. destruct Hrow as (m & _ & _ & Hok).
    exists m. exact (Hok Hall).
Qed.

Lemma send_rejects_only_empty_payload_witness :
  run (Send.POST Sample.env
         (Send.mkRequest Sample.headersA
            (Some (Send.mkBody (Js.Str "cnv-1") (Js.Str "") Js.Undefined
                               Js.Undefined))))
      Sample.world0
  = (Ok (json 400 (BError "text, mediaUrl, or templateId required")),
     Sample.world0)
  /\ exists m,
      fst (run (Send.POST Sample.env
                  (Send.mkRequest Sample.headersA
                     (Some (Send.mkBody (Js.Str "cnv-1") (Js.Str "Hello")
                                        (Js.Str "http://cdn.local/a.png")
                                        (Js.Str "tpl-1")))))
               Sample.world0)
      = Ok (json 201 (BMessage m)).
Proof.
  split.
  - apply (proj1 (proj1 (send_rejects_only_empty_payload Sample.env
             Sample.world0
             (Send.mkRequest Sample.headersA
                (Some (Send.mkBody (Js.Str "cnv-1") (Js.Str "") Js.Undefined
                                   Js.Undefined)))
             (Auth.mkCaller "user-a" "tenant-a") _
             (Send.mkValidated "cnv-1" (Some "") None None)
             eq_refl eq_refl eq_refl))).
    reflexivity.
  - apply (proj2 (send_rejects_only_empty_payload Sample.env Sample.world0
             (Send.mkRequest Sample.headersA
                (Some (Send.mkBody (Js.Str "cnv-1") (Js.Str "Hello")
                                   (Js.Str "http://cdn.local/a.png")
                                   (Js.Str "tpl-1"))))
             (Auth.mkCaller "user-a" "tenant-a") _
             (Send.mkValidated "cnv-1" (Some "Hello")
                (Some "http://cdn.local/a.png") (Some "tpl-1"))
             eq_refl eq_refl eq_refl)
           ltac:(discriminate)
           Sample.conversation1 Sample.account1 None Sample.session1).
    + reflexivity.
    + reflexivity.
    + reflexivity.
    + reflexivity.
    + intros t. reflexivity.
Defined.

End SendValidation.

(** ** Send: session resolution *)

Section SendSession.




End SendSession.

(** ** Send: the outcome is always recorded *)

Section SendRecord.

(** C3, as stated, fails when the datastore rejects a write of the
    route, which it makes after the call to the bridge with no handler
    of its own: with a message table that rejects the write, a send that
    the bridge accepted leaves no Message row and is answered 500; with
    an audit table that rejects the write the row is created but the
    request is still answered 500. *)
Lemma accepted_send_is_lost_when_a_write_fails :
  let r := Sample.sendText Sample.headersA "cnv-1" "Hello" in
  let sent (env : Env) :=
    let res := run (Send.POST env r) Sample.world0 in
    (map (fun call => (hc_url call, http env call)) (calls (snd res)),
     List.length (messages (store (snd res))),
     fst res) in
  List.length (messages (store Sample.world0)) = 1%nat
  /\ sent Fixture.envNoMessages
     = ([("http://waha.local/api/instances/waha-1/messages",
          HttpOk Sample.answer)],
        1%nat,
        Ok (json 500 (BError "Failed to send message")))
  /\ sent Sample.envNoAudit
     = ([("http://waha.local/api/instances/waha-1/messages",
          HttpOk Sample.answer)],
        2%nat,
        Ok (json 500 (BError "Failed to send message"))).
Proof. vm_compute. auto. Qed.

(** C3, amended: a send that reaches the call to the bridge makes that
    one call, and whether the call succeeds or fails does not decide
    the outcome of the request. When the datastore accepts the Message
    write, exactly one row is created: after a failed call it has status
    [failed] and carries the upstream status code and message; the
    request is then answered 201 with the row when the three writes that
    follow (conversation, session counter, audit row) are accepted as
    well, and 500 when one of them is rejected. When the Message write
    is rejected no row is created and the request is answered 500. *)
Theorem send_records_every_dispatch env w r :
  let o := fst (run (Send.POST env r) w) in
  let w' := snd (run (Send.POST env r) w) in
  calls w' <> calls w ->
  exists call,
    calls w' = (calls w ++ [call])%list
    /\ if writeFails env TMessage
       then messages (store w') = messages (store w)
            /\ o = Ok (json 500 (BError "Failed to send message"))
       else exists m,
           messages (store w') = (messages (store w) ++ [m])%list
           /\ msg_direction m = "out"
           /\ match http env call with
              | HttpOk _ => msg_status m = "sent" /\ msg_errorCode m = None
              | HttpFail response message =>
                  msg_status m = "failed"
                  /\ msg_errorCode m
                     = Some (Js.orD (option_map (fun x => pretty (fst x)) response)
                                    "UNKNOWN")
                  /\ msg_errorMessage m
                     = Some (Js.orD (Js.or (mbind snd response) (Some message))
                                    "Failed to send message")
              end
           /\ o = if (writeFails env TConversation || writeFails env TSession
                      || writeFails env TAuditLog)%bool
                  then Ok (json 500 (BError "Failed to send message"))
                  else Ok (json 201 (BMessage m)).
Proof.
  destruct w as [s c k]. cbv zeta.
  pattern (run (Send.POST env r) (mkWorld s c k)). apply wp_run.
  unfold Send.POST, Send.dispatch. wp_auto.
  all: cbn [fst snd store calls]; intros Hcalls;
    try (exfalso; apply Hcalls; reflexivity).
  all: eexists; split; [reflexivity |].
  all: cbn [messages Db.bump Db.set_messages Db.set_conversations
              Db.set_sessions Db.set_auditLogs].
  all: repeat match goal with
              | H : writeFails _ _ = _ |- _ => rewrite H; clear H
              end; cbn [orb].
  all: try (split; reflexivity).
  all: eexists; split; [reflexivity |]; split; [reflexivity |].
  all: match goal with H : http _ _ = _ |- _ => rewrite H end.
  all: unfold upstreamMessage;
    cbn [msg_status msg_errorCode msg_errorMessage Send.status
           Send.errorCode Send.errorMessage errorResponse errorText].
  all: rewrite ?orNull_orD by reflexivity.
  all: split; [repeat split; reflexivity |].
  all: first
         [ reflexivity
         | exfalso;
           match goal with
           | Hn : Db.update_first _ _ (conversations _) = None |- _ =>
               cbn [conversations Db.bump Db.set_messages] in Hn;
               conversation_updated Hn
           | Hn : Db.update_first _ _ (sessions _) = None |- _ =>
               cbn [sessions Db.bump Db.set_messages Db.set_conversations] in Hn;
               session_updated Hn
           end ].
Qed.

Lemma send_records_every_dispatch_witness :
  let r := Sample.sendText Sample.headersA "cnv-1" "Hello" in
  let o := fst (run (Send.POST Sample.envDown r) Sample.world0) in
  let w' := snd (run (Send.POST Sample.envDown r) Sample.world0) in
  exists call,
    calls w' = (calls Sample.world0 ++ [call])%list
    /\ exists m,
        messages (store w') = (messages (store Sample.world0) ++ [m])%list
        /\ msg_direction m = "out"
        /\ match http Sample.envDown call with
           | HttpOk _ => msg_status m = "sent" /\ msg_errorCode m = None
           | HttpFail response message =>
               msg_status m = "failed"
               /\ msg_errorCode m
                  = Some (Js.orD (option_map (fun x => pretty (fst x)) response)
                                 "UNKNOWN")
               /\ msg_errorMessage m
                  = Some (Js.orD (Js.or (mbind snd response) (Some message))
                                 "Failed to send message")
           end
        /\ o = Ok (json 201 (BMessage m)).
Proof.
  apply (send_records_every_dispatch Sample.envDown Sample.world0
           (Sample.sendText Sample.headersA "cnv-1" "Hello")).
  vm_compute. discriminate.
Defined.

End SendRecord.
(** ** Session status polling *)

Section SessionPoll.

Import SessionStatus.

Lemma find_ext_eq {R} (p q : R -> bool) (l : list R) :
  (forall x, p x = q x) -> find p l = find q l.
Proof.
  intros H. induction l as [| x r IH]; simpl; [reflexivity |].
  now rewrite H, IH.
Qed.

(** C5, as stated, fails: a DISCONNECTED state is mapped to [pending_qr],
    not [disconnected]; the match is on the two spellings CONNECTED and
    connected only, so Connected is [pending_qr] too; and a connected
    answer with the known status and phone number writes nothing
    ([lastSyncAt] stays empty). *)
Lemma disconnected_state_becomes_pending_qr :
  let r := mkRequest Sample.headersA "ses-1" in
  let poll state phone :=
    let res := run (GET (Sample.envState state phone) r) Sample.world0 in
    (match fst res with Ok resp => Some (rs_body resp) | Fail _ => None end,
     option_map (fun x => (ses_status x, ses_lastSyncAt x))
                (findSessionById "ses-1" (store (snd res)))) in
  poll "DISCONNECTED" None
  = (Some (BSessionStatus "pending_qr" (Some "911234500000") None None),
     Some ("pending_qr", Some 1700000000000))
  /\ poll "Connected" None
     = (Some (BSessionStatus "pending_qr" (Some "911234500000") None None),
        Some ("pending_qr", Some 1700000000000))
  /\ poll "CONNECTED" (Some "911234500000")
     = (Some (BSessionStatus "connected" (Some "911234500000") None None),
        Some ("connected", None)).
Proof. vm_compute. auto. Qed.

(** C5, amended: when the bridge answers a status poll, its state
    ([state], else [status], else DISCONNECTED) is mapped by exact
    match: CONNECTED and connected give [connected], every other value
    gives [pending_qr]. The session row is written only when the mapped
    status or the phone number differs from the stored one; then status,
    phoneNumber and lastSyncAt are written, and lastSeenAt when the
    mapped status is [connected]. *)
Theorem poll_maps_exact_state env w r caller session account d :
  guard env (headers r) "marketing" = Ok caller ->
  findSession (sessionId r) (store w) = Some (session, Some account) ->
  acc_tenantId account = Auth.tenantId caller ->
  Js.truthyO (acc_wahaBaseUrl account) = true ->
  Js.truthyO (acc_wahaApiKey account) = true ->
  Js.truthyO (ses_providerSessionId session) = true ->
  http env (mkCall "GET"
              (Js.show (acc_wahaBaseUrl account) +:+ "/api/instances/"
               +:+ Js.show (ses_providerSessionId session))
              (acc_wahaApiKey account) None) = HttpOk d ->
  writeFails env TSession = false ->
  let state := Js.orD (Js.or (pd_state d) (pd_status d)) "DISCONNECTED" in
  let newStatus :=
    if (String.eqb state "CONNECTED" || String.eqb state "connected")%bool
    then "connected" else "pending_qr" in
  let phone :=
    Js.or (Js.or (pd_meUser d) (pd_phoneNumber d)) (ses_phoneNumber session) in
  exists w',
    run (GET env r) w
    = (Ok (json 200 (BSessionStatus newStatus phone (ses_lastSyncAt session)
                                    (ses_lastSeenAt session))), w')
    /\ if (String.eqb newStatus (ses_status session)
           && bool_decide (phone = ses_phoneNumber session))%bool
       then store w' = store w
       else exists x,
           findSessionById (ses_id session) (store w') = Some x
           /\ ses_status x = newStatus
           /\ ses_phoneNumber x = phone
           /\ ses_lastSyncAt x = Some (clock env)
           /\ ses_lastSeenAt x
              = (if String.eqb newStatus "connected" then Some (clock env)
                 else ses_lastSeenAt session).
Proof.
  intros Hg Hf Ht Hu Hk Hp Hh Hw state newStatus phone.
  apply String.eqb_eq in Ht. destruct w as [s c k]. cbn [store] in *.
  assert (Hrow : find (fun x => String.eqb (ses_id x) (ses_id session))
                      (sessions s) = Some session).
  { unfold findSession, findSessionById in Hf.
    destruct (find _ (sessions s)) as [x |] eqn:E; [| discriminate].
    injection Hf as -> _. pose proof (find_some _ _ E) as [_ Hid].
    apply String.eqb_eq in Hid. rewrite <- E. apply find_ext_eq.
    intros y. now rewrite Hid. }
  destruct (update_first_found _ (refresh env newStatus phone) _ _ Hrow)
    as (l' & Hupd & Hfound & _); [intros []; reflexivity |].
  pattern (run (GET env r) (mkWorld s c k)). apply wp_run.
  assert (Hcfg : (Js.truthyO (acc_wahaBaseUrl account)
                  && Js.truthyO (acc_wahaApiKey account)
                  && Js.truthyO (ses_providerSessionId session))%bool = true)
    by now rewrite Hu, Hk, Hp.
  unfold GET, poll. wp_auto.
  all: try congruence.
  all: match goal with
       | H : http _ _ = HttpOk ?d0 |- _ =>
           assert (d0 = d) by congruence; subst d0
       end.
  all: subst state newStatus phone; unfold mapState in *; cbn [fst snd].
  all: try congruence.
  all: eexists; split; [reflexivity |]; cbn [store].
  - match goal with
    | H : Db.update_first _ _ _ = Some _ |- _ =>
        rewrite Hupd in H; injection H as <- <-
    end.
    match goal with
    | H : (negb _ || negb _)%bool = true |- _ =>
        rewrite <- negb_andb in H; apply negb_true_iff in H; rewrite H
    end.
    eexists. split; [exact Hfound |].
    cbn [refresh ses_status ses_phoneNumber ses_lastSyncAt ses_lastSeenAt].
    repeat split; reflexivity.
  - match goal with
    | H : (negb _ || negb _)%bool = false |- _ =>
        rewrite <- negb_andb in H; apply negb_false_iff in H; rewrite H
    end.
    reflexivity.
Qed.

Lemma poll_maps_exact_state_witness :
  exists w',
    run (GET (Sample.envState "DISCONNECTED" None)
             (mkRequest Sample.headersA "ses-1")) Sample.world0
    = (Ok (json 200 (BSessionStatus "pending_qr" (Some "911234500000")
                                    None None)), w')
    /\ exists x,
        findSessionById "ses-1" (store w') = Some x
        /\ ses_status x = "pending_qr"
        /\ ses_phoneNumber x = Some "911234500000"
        /\ ses_lastSyncAt x = Some 1700000000000
        /\ ses_lastSeenAt x = None.
Proof.
  exact (poll_maps_exact_state (Sample.envState "DISCONNECTED" None)
           Sample.world0 (mkRequest Sample.headersA "ses-1")
           (Auth.mkCaller "user-a" "tenant-a") Sample.session1
           Sample.account1 _ eq_refl eq_refl eq_refl eq_refl eq_refl eq_refl
           eq_refl eq_refl).
Defined.

End SessionPoll.

(** ** First contact *)

Section FirstContact.

Import WebhookMessage.

(** C7, as stated, fails: the route resolves the contact by an
    application-level find-then-create, so two deliveries for the same
    unknown number whose awaits interleave both miss the identity and
    both create a Contact. The second identity insert then violates the
    unique key and that request ends in the catch-all, leaving two
    Contact rows for one identity. *)
Lemma concurrent_first_contacts_create_two_contacts :
  let r := Sample.inbound "+912222222222" "Hi" in
  let schedule :=
    [true; true; false; false; true; false; true; false;
     true; true; true; true; true; true; false] in
  let '(p, q, w) :=
    interleave schedule (POST Sample.env r) (POST Sample.env r) Sample.world0 in
  contactsOf "+912222222222" (store Sample.world0) = []
  /\ identitiesOf "+912222222222" (store Sample.world0) = []
  /\ match p, q with
     | Ret a, Ret b => (rs_status a, rs_status b) = (200%nat, 500%nat)
     | _, _ => False
     end
  /\ List.length (contactsOf "+912222222222" (store w)) = 2%nat
  /\ List.length (identitiesOf "+912222222222" (store w)) = 1%nat.
Proof. vm_compute. auto. Qed.

Lemma identitiesOf_find number s :
  identitiesOf number s = [] -> findIdentity number s = None.
Proof.
  unfold identitiesOf, findIdentity. intros H.
  destruct (find _ (identities s)) as [i |] eqn:E; [| reflexivity].
  apply find_some in E as [Hin Hi]. apply String.eqb_eq in Hi.
  assert (i ∈ filter (fun i => idt_whatsappNumber i = number) (identities s))
    as Hmem by (apply list_elem_of_filter; split; [exact Hi | now apply list_elem_of_In]).
  rewrite H in Hmem. now apply elem_of_nil in Hmem.
Qed.

Lemma find_identitiesOf number s :
  identitiesOf number s <> [] -> exists i, findIdentity number s = Some i.
Proof.
  unfold identitiesOf, findIdentity. intros H.
  destruct (filter _ (identities s)) as [| i l] eqn:E; [congruence |].
  assert (i ∈ filter (fun i => idt_whatsappNumber i = number) (identities s))
    as Hmem by (rewrite E; left).
  apply list_elem_of_filter in Hmem as [Hi Hin]. apply list_elem_of_In in Hin.
  apply (find_first_row _ _ i Hin). now apply String.eqb_eq.
Qed.

Lemma first_contact_creates_one env w r b inst d session account :
  body r = Some b -> instance b = Some inst -> Js.truthy inst = true ->
  data b = Some d ->
  let number := Js.orD (Js.or (from d) (fromNumber d)) "" in
  Js.truthy number = true ->
  findSession inst (store w) = Some (session, Some account) ->
  contactsOf number (store w) = [] ->
  identitiesOf number (store w) = [] ->
  writeFails env TContact = false ->
  writeFails env TIdentity = false ->
  let w' := snd (run (POST env r) w) in
  List.length (contactsOf number (store w')) = 1%nat
  /\ List.length (identitiesOf number (store w')) = 1%nat.
Proof.
  intros Hb Hi Hti Hd number Hn Hs Hc Hid Hwc Hwi.
  apply identitiesOf_find in Hid as Hfind.
  destruct w as [s c k]. cbn [store] in *. cbv zeta.
  pattern (run (POST env r) (mkWorld s c k)). apply wp_run.
  unfold POST, resolveContact, resolveConversation. subst number.
  wp_auto.
  all: try congruence.
  all: try (unfold findIdentity in *;
            cbn [idt_whatsappNumber identities Db.bump Db.set_contacts] in *;
            congruence).
  all: unfold contactsOf, identitiesOf in *.
  all: cbn [snd store contacts identities Db.bump Db.set_contacts
              Db.set_identities Db.set_conversations Db.set_messages
              Db.set_sessions Db.set_auditLogs].
  all: rewrite !filter_app, Hc, Hid.
  all: rewrite !filter_cons_True by reflexivity.
  all: split; reflexivity.
Qed.

Lemma known_contact_is_reused env w r number :
  senderOf r = Some number ->
  identitiesOf number (store w) <> [] ->
  let w' := snd (run (POST env r) w) in
  contacts (store w') = contacts (store w)
  /\ identities (store w') = identities (store w).
Proof.
  unfold senderOf. intros Hsender Hknown.
  destruct (body r) as [b |] eqn:Hb; [| discriminate].
  destruct (data b) as [d |] eqn:Hd; [| discriminate].
  injection Hsender as <-.
  destruct (find_identitiesOf _ _ Hknown) as [i Hfind].
  destruct w as [s c k]. cbn [store] in *. cbv zeta.
  pattern (run (POST env r) (mkWorld s c k)). apply wp_run.
  unfold POST, resolveContact, resolveConversation.
  wp_auto.
  all: cbn [snd store contacts identities Db.bump Db.set_contacts
              Db.set_identities Db.set_conversations Db.set_messages
              Db.set_sessions Db.set_auditLogs].
  all: split; reflexivity.
Qed.

(** C7, amended: when two first-contact inbound webhooks carrying the
    same previously-unknown phone number are processed one after the
    other, exactly one Contact row and one ContactIdentity result: the
    first delivery creates both, the second finds the identity. (The
    resolution is a find followed by a create in the application; only
    the identity's number is a unique key of the store.) *)
Theorem sequential_first_contacts_share_one_contact
    env w r1 r2 b inst d session account :
  body r1 = Some b -> instance b = Some inst -> Js.truthy inst = true ->
  data b = Some d ->
  let number := Js.orD (Js.or (from d) (fromNumber d)) "" in
  Js.truthy number = true ->
  findSession inst (store w) = Some (session, Some account) ->
  contactsOf number (store w) = [] ->
  identitiesOf number (store w) = [] ->
  writeFails env TContact = false ->
  writeFails env TIdentity = false ->
  senderOf r2 = Some number ->
  let w1 := snd (run (POST env r1) w) in
  let w2 := snd (run (POST env r2) w1) in
  List.length (contactsOf number (store w2)) = 1%nat
  /\ List.length (identitiesOf number (store w2)) = 1%nat.
Proof.
  intros Hb Hi Hti Hd number Hn Hs Hc Hid Hwc Hwi Hr2 w1 w2.
  destruct (first_contact_creates_one env w r1 b inst d session account
              Hb Hi Hti Hd Hn Hs Hc Hid Hwc Hwi) as [H1 H2].
  fold number in H1, H2. fold w1 in H1, H2.
  destruct (known_contact_is_reused env w1 r2 number Hr2) as [Hcs His].
  { intros Hnil. rewrite Hnil in H2. discriminate H2. }
  fold w2 in Hcs, His. unfold contactsOf, identitiesOf in *.
  now rewrite Hcs, His.
Qed.

Lemma sequential_first_contacts_share_one_contact_witness :
  let r := Sample.inbound "+912222222222" "Hi" in
  let w1 := snd (run (POST Sample.env r) Sample.world0) in
  let w2 := snd (run (POST Sample.env r) w1) in
  List.length (contactsOf "+912222222222" (store w2)) = 1%nat
  /\ List.length (identitiesOf "+912222222222" (store w2)) = 1%nat.
Proof.
  exact (sequential_first_contacts_share_one_contact Sample.env Sample.world0
           (Sample.inbound "+912222222222" "Hi")
           (Sample.inbound "+912222222222" "Hi") _ "waha-1" _
           Sample.session1 Sample.account1
           eq_refl eq_refl eq_refl eq_refl eq_refl eq_refl eq_refl eq_refl
           eq_refl eq_refl eq_refl).
Defined.

End FirstContact.

(** ** Audit trail *)

Section AuditTrail.

(** C9, as stated, fails: the audit row is written inside the route's
    [try] block with no handler of its own, so when the audit table
    rejects the write the inbound webhook, which would have answered
    200, is answered 500 by the catch-all (the message row stays
    written). *)
Lemma audit_failure_fails_the_inbound_webhook :
  let r := Sample.inbound "+912222222222" "Hi" in
  let good := run (WebhookMessage.POST Sample.env r) Sample.world0 in
  let bad := run (WebhookMessage.POST Sample.envNoAudit r) Sample.world0 in
  fst good = Ok (json 200 BSuccess)
  /\ fst bad = Ok (json 500 (BError "Webhook processing failed"))
  /\ console (snd bad) = ["POST /api/whatsapp/webhooks/message error:"]
  /\ messages (store (snd bad)) = messages (store (snd good))
  /\ List.length (messages (store (snd bad))) = 2%nat.
Proof. vm_compute. auto. Qed.

(** A second run of a request replays the first: what the first run
    found is known, and a result met again is the same result. *)
Ltac same_results :=
  repeat match goal with
         | H : writeFails (auditOff _) TAuditLog = false |- _ =>
             discriminate H
         | H : ?x = _, H' : ?x = _ |- _ =>
             rewrite H in H'; first [discriminate H' | simplify_eq]
         | H : Js.truthyO ?x = _, H' : context [Js.truthyO ?x] |- _ =>
             rewrite H in H'; cbn [negb andb orb] in H';
             try discriminate H'
         end.

Ltac replay := repeat (wp_step; same_results).

Ltac not_a_success :=
  let Hs := fresh in
  intros ? ? [= <- <-] [Hs | Hs]; discriminate Hs.

Ltac same_env env :=
  change (Auth.requireModuleAccess (auditOff env))
    with (Auth.requireModuleAccess env);
  change (Send.parse (auditOff env)) with (Send.parse env);
  change (AccountRoute.parse (auditOff env)) with (AccountRoute.parse env);
  change (axios (auditOff env)) with (axios env);
  change (eventDate (auditOff env)) with (eventDate env);
  change (clock (auditOff env)) with (clock env);
  change (@Db.write ?B (auditOff env) TAccount) with (@Db.write B env TAccount);
  change (@Db.write ?B (auditOff env) TSession) with (@Db.write B env TSession);
  change (@Db.write ?B (auditOff env) TContact) with (@Db.write B env TContact);
  change (@Db.write ?B (auditOff env) TIdentity) with (@Db.write B env TIdentity);
  change (@Db.write ?B (auditOff env) TConversation) with (@Db.write B env TConversation);
  change (@Db.write ?B (auditOff env) TMessage) with (@Db.write B env TMessage).

Ltac rows_kept :=
  eexists _, _; split; [reflexivity |]; unfold sameRows;
  cbn [store console calls accounts sessions contacts identities
         conversations messages templates auditLogs Db.bump
         Db.set_accounts Db.set_sessions Db.set_contacts Db.set_identities
         Db.set_conversations Db.set_messages Db.set_templates
         Db.set_auditLogs];
  repeat split; reflexivity.

Lemma audit_failure_inbound env w r resp w1 :
  run (WebhookMessage.POST env r) w = (Ok resp, w1) ->
  rs_status resp = 200%nat \/ rs_status resp = 201%nat ->
  exists w2 line,
    run (WebhookMessage.POST (auditOff env) r) w
    = (Ok (json 500 (BError "Webhook processing failed")), w2)
    /\ console w2 = (console w1 ++ [line])%list
    /\ calls w2 = calls w1
    /\ sameRows (store w1) (store w2)
    /\ auditLogs (store w2) = auditLogs (store w).
Proof.
  destruct w as [s c k]. revert resp w1.
  remember (run (WebhookMessage.POST (auditOff env) r) (mkWorld s c k))
    as bad eqn:Hbad.
  pattern (run (WebhookMessage.POST env r) (mkWorld s c k)). apply wp_run.
  unfold WebhookMessage.POST, WebhookMessage.resolveContact,
    WebhookMessage.resolveConversation.
  wp_auto; try not_a_success.
  all: intros resp w1 [= <- <-] _; subst bad.
  all: pattern (run (WebhookMessage.POST (auditOff env) r) (mkWorld s c k));
    apply wp_run;
    unfold WebhookMessage.POST, WebhookMessage.resolveContact,
      WebhookMessage.resolveConversation; same_env env.
  all: replay.
  all: rows_kept.
Qed.

Lemma audit_failure_send env w r resp w1 :
  run (Send.POST env r) w = (Ok resp, w1) ->
  rs_status resp = 200%nat \/ rs_status resp = 201%nat ->
  exists w2 line,
    run (Send.POST (auditOff env) r) w
    = (Ok (json 500 (BError "Failed to send message")), w2)
    /\ console w2 = (console w1 ++ [line])%list
    /\ calls w2 = calls w1
    /\ sameRows (store w1) (store w2)
    /\ auditLogs (store w2) = auditLogs (store w).
Proof.
  destruct w as [s c k]. revert resp w1.
  remember (run (Send.POST (auditOff env) r) (mkWorld s c k)) as bad eqn:Hbad.
  pattern (run (Send.POST env r) (mkWorld s c k)). apply wp_run.
  unfold Send.POST, Send.dispatch.
  wp_auto; try not_a_success.
  all: try (exfalso;
            match goal with
            | H : (negb _ && negb _ && negb _)%bool = false |- _ =>
                cbn [negb andb] in H; discriminate H
            end).
  all: intros resp w1 [= <- <-] _; subst bad.
  all: pattern (run (Send.POST (auditOff env) r) (mkWorld s c k));
    apply wp_run; unfold Send.POST, Send.dispatch; same_env env.
  all: replay.
  all: rows_kept.
Qed.

Lemma audit_failure_session_create env w r resp w1 :
  run (SessionCreate.POST env r) w = (Ok resp, w1) ->
  rs_status resp = 200%nat \/ rs_status resp = 201%nat ->
  exists w2 line,
    run (SessionCreate.POST (auditOff env) r) w
    = (Ok (json 500 (BError "Failed to create session")), w2)
    /\ console w2 = (console w1 ++ [line])%list
    /\ calls w2 = calls w1
    /\ sameRows (store w1) (store w2)
    /\ auditLogs (store w2) = auditLogs (store w).
Proof.
  destruct w as [s c k]. revert resp w1.
  remember (run (SessionCreate.POST (auditOff env) r) (mkWorld s c k))
    as bad eqn:Hbad.
  pattern (run (SessionCreate.POST env r) (mkWorld s c k)). apply wp_run.
  unfold SessionCreate.POST, SessionCreate.provision.
  wp_auto; try not_a_success.
  all: intros resp w1 [= <- <-] _; subst bad.
  all: pattern (run (SessionCreate.POST (auditOff env) r) (mkWorld s c k));
    apply wp_run; unfold SessionCreate.POST, SessionCreate.provision;
    same_env env.
  all: replay.
  all: rows_kept.
Qed.

Lemma audit_failure_account_create env w r resp w1 :
  run (AccountRoute.POST env r) w = (Ok resp, w1) ->
  rs_status resp = 200%nat \/ rs_status resp = 201%nat ->
  exists w2 line,
    run (AccountRoute.POST (auditOff env) r) w
    = (Ok (json 500 (BError "Failed to create WhatsApp account")), w2)
    /\ console w2 = (console w1 ++ [line])%list
    /\ calls w2 = calls w1
    /\ sameRows (store w1) (store w2)
    /\ auditLogs (store w2) = auditLogs (store w).
Proof.
  destruct w as [s c k]. revert resp w1.
  remember (run (AccountRoute.POST (auditOff env) r) (mkWorld s c k))
    as bad eqn:Hbad.
  pattern (run (AccountRoute.POST env r) (mkWorld s c k)). apply wp_run.
  unfold AccountRoute.POST, AccountRoute.requireWhatsAppAccess,
    AccountRoute.healthCheck.
  wp_auto; try not_a_success.
  all: intros resp w1 [= <- <-] _; subst bad.
  all: pattern (run (AccountRoute.POST (auditOff env) r) (mkWorld s c k));
    apply wp_run;
    unfold AccountRoute.POST, AccountRoute.requireWhatsAppAccess,
      AccountRoute.healthCheck; same_env env.
  all: replay.
  all: rows_kept.
Qed.

(** C9, amended: for every operation that appends an audit row (inbound
    webhook processing, send, session create, account create), a failure
    of the audit-log write is logged by the route's catch-all and fails
    the triggering request: a request that is answered with success when
    the audit table accepts the row is answered 500 when it rejects it.
    The rows the operation wrote before the audit row stay written, and
    the same calls were made to the bridge. *)
Theorem audit_failure_fails_the_request env op w resp w1 :
  audited op = true ->
  serve env op w = (Ok resp, w1) ->
  rs_status resp = 200%nat \/ rs_status resp = 201%nat ->
  exists w2 line,
    serve (auditOff env) op w = (Ok (json 500 (BError (failureOf op))), w2)
    /\ console w2 = (console w1 ++ [line])%list
    /\ calls w2 = calls w1
    /\ sameRows (store w1) (store w2)
    /\ auditLogs (store w2) = auditLogs (store w).
Proof.
  destruct op; try discriminate; intros _; unfold serve, handler, failureOf.
  - apply audit_failure_inbound.
  - apply audit_failure_send.
  - apply audit_failure_session_create.
  - apply audit_failure_account_create.
Qed.


Lemma audit_failure_fails_the_request_witness :
  let op := OpWebhookMessage (Sample.inbound "+912222222222" "Hi") in
  let w1 := snd (serve Sample.env op Sample.world0) in
  exists w2 line,
    serve (auditOff Sample.env) op Sample.world0
    = (Ok (json 500 (BError "Webhook processing failed")), w2)
    /\ console w2 = (console w1 ++ [line])%list
    /\ calls w2 = calls w1
    /\ sameRows (store w1) (store w2)
    /\ auditLogs (store w2) = auditLogs (store Sample.world0).
Proof.
  cbv zeta.
  apply (audit_failure_fails_the_request Sample.env
           (OpWebhookMessage (Sample.inbound "+912222222222" "Hi"))
           Sample.world0 (json 200 BSuccess)).
  - reflexivity.
  - vm_compute. reflexivity.
  - left. reflexivity.
Defined.

End AuditTrail.

(** ** Licence guard: who is let through *)

Section LicenceGuard.

Lemma substring_whole (s : string) :
  String.substring 0 (String.length s) s = s.
Proof. induction s as [| c s IH]; cbn; [reflexivity | now rewrite IH]. Qed.

Lemma prefix_split (p s : string) :
  String.prefix p s = true ->
  s = p +:+ Js.substringFrom (String.length p) s.
Proof.
  unfold Js.substringFrom. revert s.
  induction p as [| a p IH]; intros s; cbn.
  - intros _. rewrite Nat.sub_0_r. symmetry. apply substring_whole.
  - destruct s as [| b s]; cbn; [discriminate |].
    destruct (ascii_dec a b) as [-> |]; [| discriminate].
    intros H.
    change (String b s
            = String b (p +:+ substring (String.length p)
                                (String.length s - String.length p) s)).
    f_equal. apply IH, H.
Qed.

Lemma prefix_app (p t : string) : String.prefix p (p +:+ t) = true.
Proof.
  induction p as [| a p IH]; [destruct t; reflexivity |].
  change (String.prefix (String a p) (String a p +:+ t))
    with (if ascii_dec a a then String.prefix p (p +:+ t) else false).
  destruct (ascii_dec a a); [exact IH | congruence].
Qed.

Lemma substringFrom_app (p t : string) :
  Js.substringFrom (String.length p) (p +:+ t) = t.
Proof.
  unfold Js.substringFrom. induction p as [| a p IH].
  - change (String.length "") with 0%nat. rewrite Nat.sub_0_r.
    apply substring_whole.
  - exact IH.
Qed.

Lemma includes_In (x : string) (l : list string) :
  Js.includes x l = true <-> In x l.
Proof.
  unfold Js.includes. rewrite existsb_exists. split.
  - intros (y & Hy & He). apply String.eqb_eq in He. now subst.
  - intros H. exists x. split; [exact H | apply String.eqb_refl].
Qed.

Lemma truthy_ne (s : string) : Js.truthy s = true <-> s <> "".
Proof.
  unfold Js.truthy. rewrite negb_true_iff. apply String.eqb_neq.
Qed.

(** X1: the licence guard lets a request through exactly when its
    Authorization header is [Bearer <token>], the token verifies, its
    payload has a tenant id and lists the requested module among the
    licensed modules; the caller it resolves to is the user and tenant
    of the payload. *)
Theorem guard_grants_exactly env h m c :
  guard env h m = Ok c <->
  exists token payload,
    Auth.authorization h = Some ("Bearer " +:+ token)
    /\ verifyToken env token = Some payload
    /\ jwt_tenantId payload <> ""
    /\ In m (default [] (jwt_licensedModules payload))
    /\ c = Auth.mkCaller (jwt_userId payload) (jwt_tenantId payload).
Proof.
  unfold guard, Auth.requireModuleAccess. rewrite run_try_catch.
  unfold Auth.checkModuleAccess. split.
  - destruct (Auth.authorization h) as [a |]; [| discriminate].
    destruct (Js.truthy a); cbn [negb orb]; [| discriminate].
    destruct (Js.startsWith "Bearer " a) eqn:Hp; cbn [negb]; [| discriminate].
    apply prefix_split in Hp. cbn [String.length] in Hp.
    destruct (verifyToken env _) as [p |] eqn:Hv; [| discriminate].
    destruct (Js.truthy (jwt_tenantId p)) eqn:Ht; cbn [negb]; [| discriminate].
    destruct (Js.includes m _) eqn:Hi; cbn [negb]; [| discriminate].
    rewrite run_bind. intros Hc. exists (Js.substringFrom 7 a), p.
    split; [congruence |]. split; [exact Hv |].
    split; [now apply truthy_ne |]. split.
    + apply includes_In. destruct (jwt_licensedModules p); exact Hi.
    + destruct (String.eqb _ "free" && _)%bool; cbn in Hc; congruence.
  - intros (token & p & Ha & Hv & Ht & Hi & ->). rewrite Ha.
    change (Js.truthy ("Bearer " +:+ token)) with true. cbn [negb orb].
    unfold Js.startsWith. rewrite prefix_app. cbn [negb].
    pose proof (substringFrom_app "Bearer " token) as Hs.
    change (String.length "Bearer ") with 7%nat in Hs. rewrite Hs, Hv.
    apply truthy_ne in Ht. rewrite Ht. cbn [negb].
    apply includes_In in Hi.
    replace (match jwt_licensedModules p with Some l => l | None => [] end)
      with (default [] (jwt_licensedModules p))
      by (destruct (jwt_licensedModules p); reflexivity).
    rewrite Hi. cbn [negb]. rewrite run_bind.
    destruct (String.eqb _ "free" && _)%bool; reflexivity.
Qed.

Lemma guard_failure env h m e :
  guard env h m = Fail e -> exists message, e = LicenseError m message.
Proof.
  unfold guard, Auth.requireModuleAccess. rewrite run_try_catch.
  destruct (run_checkModuleAccess env h m) as [o Ho]. rewrite Ho.
  destruct o as [c | x]; [discriminate |].
  assert (Hx : exists message, x = LicenseError m message).
  { specialize (Ho (mkWorld emptyStore [] [])).
    unfold Auth.checkModuleAccess in Ho.
    destruct (Auth.authorization h) as [a |]; [| injection Ho as <-; eauto].
    destruct (negb (Js.truthy a) || negb (Js.startsWith "Bearer " a))%bool;
      [injection Ho as <-; eauto |].
    destruct (verifyToken env _) as [p |]; [| injection Ho as <-; eauto].
    destruct (negb (Js.truthy (jwt_tenantId p))); [injection Ho as <-; eauto |].
    destruct (negb (Js.includes m _)); [injection Ho as <-; eauto |].
    rewrite run_bind in Ho.
    destruct (String.eqb _ "free" && _)%bool; cbn in Ho; discriminate Ho. }
  destruct Hx as [message ->]. cbn. intros [= <-]. eauto.
Qed.

End LicenceGuard.

Ltac unfold_handlers :=
  unfold WebhookStatus.POST, WebhookMessage.POST, WebhookMessage.resolveContact,
    WebhookMessage.resolveConversation, Send.POST, Send.dispatch,
    SessionStatus.GET, SessionStatus.poll, SessionList.GET, SessionCreate.POST,
    SessionCreate.provision, ConversationRoute.GET, ConversationRoute.PATCH,
    MessageList.GET, Db.query, TemplateRoute.GET, TemplateRoute.POST,
    AccountRoute.GET, AccountRoute.POST, AccountRoute.requireWhatsAppAccess,
    AccountRoute.healthCheck.

Section LicenceRefusal.

(** X2: when the licence guard refuses the headers of a request to a
    route that consults it (every route but the two webhooks and account
    create), the request is answered 403 with the message of the guard's
    error and the module id the route asked for; nothing is read,
    written, logged or sent to the bridge. *)
Theorem unlicensed_request_is_refused env op w h m e :
  guardOf op = Some (h, m) ->
  guard env h m = Fail e ->
  exists message,
    e = LicenseError m message
    /\ serve env op w = (Ok (json 403 (BLicense message m)), w).
Proof.
  intros Hop Hg. destruct (guard_failure _ _ _ _ Hg) as [message ->].
  exists message. split; [reflexivity |].
  destruct w as [s c k]. unfold serve.
  pattern (run (handler env op) (mkWorld s c k)). apply wp_run.
  destruct op; try discriminate Hop; cbn [handler guardOf] in *;
    injection Hop as <- <-; unfold_handlers; wp_auto; reflexivity.
Qed.

Lemma unlicensed_request_is_refused_witness :
  exists message,
    LicenseError "marketing" "No authorization token provided"
    = LicenseError "marketing" message
    /\ serve Sample.env
             (OpSessionList (SessionList.mkRequest Fixture.noHeaders "acc-1"))
             Sample.world0
       = (Ok (json 403 (BLicense message "marketing")), Sample.world0).
Proof.
  apply (unlicensed_request_is_refused Sample.env
           (OpSessionList (SessionList.mkRequest Fixture.noHeaders "acc-1"))
           Sample.world0 Fixture.noHeaders "marketing"); reflexivity.
Defined.

(** X3: [hasModuleAccess] never throws; it answers [true] exactly when
    [requireModuleAccess] lets the same request through, and it neither
    writes to the store nor calls the bridge. *)
Theorem hasModuleAccess_agrees_with_guard env h m w :
  exists w',
    run (Auth.hasModuleAccess env h m) w
    = (Ok (match guard env h m with Ok _ => true | Fail _ => false end), w')
    /\ store w' = store w /\ calls w' = calls w.
Proof.
  unfold Auth.hasModuleAccess, guard, Auth.requireModuleAccess.
  rewrite !run_try_catch, run_bind.
  destruct (run_checkModuleAccess env h m) as [o Ho]. rewrite !Ho.
  destruct o as [x | e]; cbn; [eauto |]. destruct e; cbn; eauto.
Qed.

End LicenceRefusal.

(** ** What a request does and does not do *)

Ltac in_list := repeat first [left; reflexivity | right].

Ltac appended :=
  first [ exists []; split; [symmetry; apply app_nil_r | cbn; lia]
        | eexists [_]; split; [reflexivity | cbn; lia]
        | eexists [_; _]; split; [symmetry; apply (app_assoc _ [_] [_]) | cbn; lia] ].

Section Effects.

Lemma handler_effects env op s c k :
  wp (handler env op) (mkWorld s c k)
     (fun o w' =>
        (exists resp, o = Ok resp
           /\ In (rs_status resp) [200; 201; 400; 403; 404; 500]%nat
           /\ ((rs_status resp <? 400)%nat = false ->
               (rs_status resp <? 500)%nat = true -> store w' = s))
        /\ (exists l, calls w' = (k ++ l)%list
                      /\ (List.length l <= bridgeCalls op)%nat)
        /\ (exists l, auditLogs (store w') = (auditLogs s ++ l)%list
                      /\ (List.length l <= 1)%nat)
        /\ (writes op TAccount = false -> accounts (store w') = accounts s)
        /\ (writes op TSession = false -> sessions (store w') = sessions s)
        /\ (writes op TContact = false -> contacts (store w') = contacts s)
        /\ (writes op TIdentity = false -> identities (store w') = identities s)
        /\ (writes op TConversation = false ->
            conversations (store w') = conversations s)
        /\ (writes op TMessage = false -> messages (store w') = messages s)
        /\ (writes op TTemplate = false -> templates (store w') = templates s)
        /\ (writes op TAuditLog = false -> auditLogs (store w') = auditLogs s)).
Proof.
  destruct op; cbn [handler writes bridgeCalls]; unfold_handlers; wp_auto.
  all: cbn [store calls]; split;
    [eexists; split; [reflexivity |]; split; [in_list |];
     cbn [rs_status json Nat.ltb Nat.leb]; intros;
     first [reflexivity | discriminate] |].
  all: split; [appended |].
  all: split; [appended |].
  all: repeat split; intros; first [reflexivity | discriminate].
Qed.

Lemma handler_effects_run env op w :
  let o := fst (serve env op w) in
  let w' := snd (serve env op w) in
  (exists resp, o = Ok resp
     /\ In (rs_status resp) [200; 201; 400; 403; 404; 500]%nat
     /\ ((rs_status resp <? 400)%nat = false ->
         (rs_status resp <? 500)%nat = true -> store w' = store w))
  /\ (exists l, calls w' = (calls w ++ l)%list
                /\ (List.length l <= bridgeCalls op)%nat)
  /\ (exists l, auditLogs (store w') = (auditLogs (store w) ++ l)%list
                /\ (List.length l <= 1)%nat)
  /\ (forall t, writes op t = false -> sameTable t (store w) (store w')).
Proof.
  destruct w as [s c k]. cbv zeta. unfold serve.
  pose proof (handler_effects env op s c k) as H. unfold wp in H.
  destruct H as (H1 & H2 & H3 & Ha & Hs & Hc & Hi & Hv & Hm & Ht & Hl).
  repeat split; try assumption.
  intros t. destruct t; cbn [sameTable]; assumption.
Qed.

(** X4: no route lets an exception escape: every request, whatever the
    store, the bridge and the datastore do, is answered, and the status
    of the answer is one of 200, 201, 400, 403, 404 and 500. *)
Theorem every_request_is_answered env op w :
  exists resp, fst (serve env op w) = Ok resp
    /\ In (rs_status resp) [200; 201; 400; 403; 404; 500]%nat.
Proof.
  destruct (handler_effects_run env op w) as ((resp & Ho & Hin & _) & _).
  eauto.
Qed.

(** X5: a request that is answered with a client error (a status from
    400 to 499) has left the store as it was. *)
Theorem client_errors_do_not_write env op w resp :
  fst (serve env op w) = Ok resp ->
  (400 <= rs_status resp < 500)%nat ->
  store (snd (serve env op w)) = store w.
Proof.
  intros Ho [Hlo Hhi].
  destruct (handler_effects_run env op w) as ((resp' & Ho' & _ & Hkeep) & _).
  rewrite Ho in Ho'. injection Ho' as <-. apply Hkeep.
  - apply Nat.ltb_ge, Hlo.
  - apply Nat.ltb_lt, Hhi.
Qed.

Lemma client_errors_do_not_write_witness :
  store (snd (serve Sample.env
                    (OpSend (Sample.sendText Sample.headersA "cnv-1" ""))
                    Sample.world0))
  = store Sample.world0.
Proof.
  apply (client_errors_do_not_write Sample.env
           (OpSend (Sample.sendText Sample.headersA "cnv-1" ""))
           Sample.world0
           (json 400 (BError "text, mediaUrl, or templateId required"))).
  - vm_compute. reflexivity.
  - cbn. lia.
Defined.

(** X6: a request only appends to the trace of bridge calls, and it
    makes at most as many calls as its route has call statements: two
    for session create, one for send, status poll and account create,
    none for the webhooks and every other route. *)
Theorem bridge_calls_are_bounded env op w :
  exists l, calls (snd (serve env op w)) = (calls w ++ l)%list
            /\ (List.length l <= bridgeCalls op)%nat.
Proof. exact (proj1 (proj2 (handler_effects_run env op w))). Qed.

(** X7: a request leaves every table untouched that its route has no
    write statement for: the status webhook changes messages only, the
    status poll sessions only, the conversation update conversations
    only, and the list and read routes change nothing. *)
Theorem handlers_write_only_their_tables env op w t :
  writes op t = false -> sameTable t (store w) (store (snd (serve env op w))).
Proof. exact (proj2 (proj2 (proj2 (handler_effects_run env op w))) t). Qed.

Lemma handlers_write_only_their_tables_witness :
  sameTable TConversation (store Sample.world0)
    (store (snd (serve Sample.env
                       (OpWebhookStatus (Sample.statusEvent "READ" 1700000100))
                       Sample.world0))).
Proof.
  apply (handlers_write_only_their_tables Sample.env
           (OpWebhookStatus (Sample.statusEvent "READ" 1700000100))
           Sample.world0 TConversation).
  reflexivity.
Defined.

(** X8: the audit log is append-only: over any sequence of requests the
    rows it held stay where they were, unchanged, and each request adds
    at most one row. *)
Theorem audit_log_is_append_only env ops w :
  exists l, auditLogs (store (serveAll env ops w)) = (auditLogs (store w) ++ l)%list
            /\ (List.length l <= List.length ops)%nat.
Proof.
  revert w. induction ops as [| op rest IH]; intros w; cbn [serveAll].
  - exists []. split; [symmetry; apply app_nil_r | cbn; lia].
  - destruct (IH (snd (serve env op w))) as (l2 & -> & Hl2).
    destruct (proj1 (proj2 (proj2 (handler_effects_run env op w))))
      as (l1 & -> & Hl1).
    exists (l1 ++ l2)%list. split; [symmetry; apply app_assoc |].
    rewrite length_app. cbn [List.length]. lia.
Qed.

End Effects.

(** ** Requests whose awaits interleave *)

Section Stepwise.

Context {I : Store -> Prop}.

(** Every [await] of the program keeps the invariant. *)
Fixpoint stepwise {A} (p : Prog A) : Prop :=
  match p with
  | Await act k =>
      (forall w, I (store w) -> I (store (snd (act w))))
      /\ (forall b, stepwise (k b))
  | _ => True
  end.

Lemma stepwise_bind {A B} (p : Prog A) (f : A -> Prog B) :
  stepwise p -> (forall a, stepwise (f a)) -> stepwise (bind p f).
Proof.
  intros Hp Hf. induction p as [a | e | C act k IH]; cbn in *.
  - apply Hf.
  - exact Logic.I.
  - destruct Hp as [Hact Hk]. split; [exact Hact |]. intros b. now apply IH.
Qed.

Lemma stepwise_try {A} (p : Prog A) (h : Exn -> Prog A) :
  stepwise p -> (forall e, stepwise (h e)) -> stepwise (try_catch p h).
Proof.
  intros Hp Hh. induction p as [a | e | C act k IH]; cbn in *.
  - exact Logic.I.
  - apply Hh.
  - destruct Hp as [Hact Hk]. split; [exact Hact |]. intros b. now apply IH.
Qed.

Lemma stepwise_ret {A} (a : A) : stepwise (Ret a).
Proof. exact Logic.I. Qed.

Lemma stepwise_throw {A} (e : Exn) : stepwise (@Throw A e).
Proof. exact Logic.I. Qed.

Lemma stepwise_read {B} (f : Store -> B) : stepwise (Db.read f).
Proof. split; [intros w H; exact H | intros b; exact Logic.I]. Qed.

Lemma stepwise_log (m : string) : stepwise (log m).
Proof. split; [intros w H; exact H | intros b; exact Logic.I]. Qed.

Lemma stepwise_lift {A} (o : Outcome A) : stepwise (lift o).
Proof. destruct o; exact Logic.I. Qed.

Lemma stepwise_requestJson {A} (o : option A) : stepwise (requestJson o).
Proof. destruct o; exact Logic.I. Qed.

Lemma stepwise_axios env call : stepwise (axios env call).
Proof.
  split; [intros w H; exact H |]. intros [d | r m]; exact Logic.I.
Qed.

Lemma stepwise_guard env h m : stepwise (Auth.requireModuleAccess env h m).
Proof.
  unfold Auth.requireModuleAccess. apply stepwise_try.
  - unfold Auth.checkModuleAccess.
    repeat match goal with
           | |- stepwise (match ?x with _ => _ end) => destruct x
           end; try exact Logic.I.
    apply stepwise_bind; [| intros; exact Logic.I].
    destruct (_ && _)%bool; [apply stepwise_log | exact Logic.I].
  - intros e. destruct e; exact Logic.I.
Qed.

Lemma stepwise_write {B} env t (f : Store -> Outcome (B * Store)) :
  (forall s b s', I s -> f s = Ok (b, s') -> I s') ->
  stepwise (Db.write env t f).
Proof.
  intros Hf. split.
  - intros w H. destruct (writeFails env t); [exact H |].
    destruct (f (store w)) as [[b s'] | e] eqn:E; [| exact H].
    exact (Hf _ _ _ H E).
  - intros b. apply stepwise_lift.
Qed.

Lemma stepwise_step {A} (p : Prog A) (w : World) :
  stepwise p -> I (store w) ->
  stepwise (fst (step p w)) /\ I (store (snd (step p w))).
Proof.
  destruct p as [a | e | C act k]; cbn; [tauto | tauto |].
  intros [Hact Hk] H. specialize (Hact w H).
  destruct (act w) as [b w']. cbn in *. split; [apply Hk | exact Hact].
Qed.

Lemma stepwise_interleave {A} (sched : list bool) (p q : Prog A) (w : World) :
  stepwise p -> stepwise q -> I (store w) ->
  I (store (snd (interleave sched p q w))).
Proof.
  revert p q w. induction sched as [| b r IH]; intros p q w Hp Hq H; cbn.
  - exact H.
  - destruct b.
    + destruct (stepwise_step p w Hp H) as [Hp' H'].
      destruct (step p w) as [p' w']. now apply IH.
    + destruct (stepwise_step q w Hq H) as [Hq' H'].
      destruct (step q w) as [q' w']. now apply IH.
Qed.

End Stepwise.
Arguments stepwise I {A} p.

Ltac steps :=
  repeat first
    [ apply stepwise_ret | apply stepwise_throw | apply stepwise_read
    | apply stepwise_log | apply stepwise_axios | apply stepwise_lift
    | apply stepwise_requestJson | apply stepwise_guard
    | apply stepwise_bind; [| intros ?]
    | apply stepwise_try; [| intros ?]
    | match goal with
      | |- stepwise _ (match ?x with _ => _ end) => destruct x
      | |- stepwise _ (Auth.routeCatch _ _ ?e) => destruct e; cbn [Auth.routeCatch]
      end
    | apply stepwise_write ].

Section Interleaved.

Lemma handler_stepwise_unique env op :
  stepwise uniqueConversations (handler env op).
Proof.
  destruct op; cbn [handler]; unfold_handlers;
    steps; try conversation_table; try other_table.
Qed.

(** X9: the uniqueness of conversations per (accountId, contactId) also
    holds when the awaits of two requests interleave, under every
    schedule and at every point of it: the conversation is created by a
    single insert that the compound unique key guards, so the
    find-then-create of two overlapping deliveries cannot leave two
    rows for one pair (the second insert is refused and that delivery
    is answered 500). *)
Theorem conversations_stay_unique_when_interleaved env op1 op2 sched w :
  uniqueConversations (store w) ->
  uniqueConversations
    (store (snd (interleave sched (handler env op1) (handler env op2) w))).
Proof.
  intros H. apply stepwise_interleave; [apply handler_stepwise_unique .. | exact H].
Qed.

Lemma conversations_stay_unique_when_interleaved_witness :
  let op := OpWebhookMessage (Sample.inbound "+911111111111" "Hi") in
  let schedule :=
    [true; false; true; false; true; false; true; false;
     true; true; true; true; false] in
  let both :=
    interleave schedule (handler Sample.env op) (handler Sample.env op)
               (Sample.world Fixture.storeKnown) in
  conversations Fixture.storeKnown = []
  /\ uniqueConversations (store (snd both))
  /\ map conversationKey (conversations (store (snd both)))
     = [("acc-1", "con-1")]
  /\ match fst both with
     | (Ret a, Ret b) => (rs_status a, rs_status b) = (200%nat, 500%nat)
     | _ => False
     end.
Proof.
  cbv zeta. split; [reflexivity |]. split.
  - apply (conversations_stay_unique_when_interleaved Sample.env
             (OpWebhookMessage (Sample.inbound "+911111111111" "Hi"))
             (OpWebhookMessage (Sample.inbound "+911111111111" "Hi"))
             [true; false; true; false; true; false; true; false;
              true; true; true; true; false]
             (Sample.world Fixture.storeKnown)).
    apply NoDup_nil_2.
  - vm_compute. auto.
Defined.

End Interleaved.

(** ** Tenant isolation of the answers *)

Section Isolation.

Lemma elem_of_rev {A} (x : A) (l : list A) : x ∈ rev l -> x ∈ l.
Proof. rewrite !list_elem_of_In. apply in_rev. Qed.




Lemma update_first_result {R} (p : R -> bool) (f : R -> R) (l l' : list R)
    (x r : R) :
  find p l = Some x -> Db.update_first p f l = Some (r, l') -> r = f x.
Proof.
  revert l'. induction l as [| y t IH]; intros l'; simpl; [discriminate |].
  destruct (p y).
  - now intros [= ->] [= <- _].
  - intros Hx. destruct (Db.update_first p f t) as [[z t'] |]; [| discriminate].
    intros [= <- _]. now apply (IH t').
Qed.





Lemma insertByCreatedAt_perm m l :
  MessageList.insertByCreatedAt m l ≡ₚ m :: l.
Proof.
  induction l as [| x r IH]; [reflexivity |].
  cbn [MessageList.insertByCreatedAt].
  destruct (msg_createdAt x <? msg_createdAt m); [reflexivity |].
  rewrite IH. apply Permutation_swap.
Qed.

Lemma latestFirst_perm l : MessageList.latestFirst l ≡ₚ l.
Proof.
  induction l as [| x r IH]; [reflexivity |].
  cbn [MessageList.latestFirst fold_right].
  change (fold_right MessageList.insertByCreatedAt [] r)
    with (MessageList.latestFirst r).
  now rewrite insertByCreatedAt_perm, IH.
Qed.

Lemma window_subset {R} take_ skip (rows l : list R) :
  Db.window take_ skip rows = Ok l -> l ⊆ rows.
Proof.
  unfold Db.window. destruct take_ as [| t |]; try discriminate.
  destruct skip as [| k |]; try discriminate.
  destruct (k <? 0); [discriminate |].
  destruct (0 <=? t); intros [= <-]; intros x Hx.
  - now apply subseteq_take, subseteq_drop in Hx.
  - apply elem_of_rev, subseteq_take, subseteq_drop in Hx.
    now apply elem_of_rev.
Qed.

Lemma page_rows id limit offset s rows m :
  MessageList.page id limit offset s = Ok rows -> m ∈ rows ->
  msg_conversationId m = id /\ m ∈ messages s.
Proof.
  unfold MessageList.page. intros Hp Hm.
  apply (window_subset _ _ _ _ Hp) in Hm.
  rewrite latestFirst_perm in Hm.
  unfold MessageList.ofConversation in Hm.
  now apply list_elem_of_filter in Hm.
Qed.




End Isolation.

(** ** Status webhook: content and replay *)

Section StatusReplay.

Import WebhookStatus.

Lemma content_setStatus upd m : content (setStatus upd m) = content m.
Proof. destruct upd as [[x d] r]. reflexivity. Qed.

(** X11: a status webhook never creates, deletes or reorders messages
    and never changes anything of a message but its status, deliveredAt
    and readAt: with these three columns blanked, the message table is
    the same before and after every status event. *)
Theorem status_webhook_keeps_message_content env w r :
  map content (messages (store (snd (run (POST env r) w))))
  = map content (messages (store w)).
Proof.
  destruct w as [s c k].
  pattern (run (POST env r) (mkWorld s c k)). apply wp_run.
  unfold POST. wp_auto.
  all: cbn [snd store messages Db.set_messages]; try reflexivity.
  all: eapply update_first_keys; [| eassumption].
  all: intros x; apply content_setStatus.
Qed.

Lemma msg_id_setStatus upd m : msg_id (setStatus upd m) = msg_id m.
Proof. destruct upd as [[x d] r]. reflexivity. Qed.

Lemma wid_setStatus upd m :
  msg_whatsappMessageId (setStatus upd m) = msg_whatsappMessageId m.
Proof. destruct upd as [[x d] r]. reflexivity. Qed.

Lemma find_by_unique_id (l : list Message) (m : Message) :
  NoDup (map msg_id l) -> In m l ->
  find (fun x => String.eqb (msg_id x) (msg_id m)) l = Some m.
Proof.
  induction l as [| y t IH]; intros Hnd Hin; [destruct Hin |].
  cbn [map] in Hnd. apply NoDup_cons in Hnd as [Hy Hnd]. cbn [find].
  destruct (String.eqb_spec (msg_id y) (msg_id m)) as [He | Hne].
  - destruct Hin as [-> | Hin]; [reflexivity |]. exfalso. apply Hy.
    rewrite He. apply list_elem_of_fmap. exists m.
    split; [reflexivity | now apply list_elem_of_In].
  - destruct Hin as [-> | Hin]; [congruence |]. now apply IH.
Qed.

Lemma update_first_same {R} (p : R -> bool) (f : R -> R) (l : list R) (x : R) :
  find p l = Some x -> f x = x -> Db.update_first p f l = Some (x, l).
Proof.
  intros Hf Hx. induction l as [| y t IH]; simpl in *; [discriminate |].
  destruct (p y).
  - injection Hf as ->. now rewrite Hx.
  - now rewrite (IH Hf).
Qed.

Lemma setStatus_twice upd m : setStatus upd (setStatus upd m) = setStatus upd m.
Proof. destruct upd as [[x d] r]. reflexivity. Qed.

(** The event time does not depend on the clock when the event carries a
    timestamp. *)
Lemma eventDate_stamped env1 env2 t :
  Js.truthyZ t = true -> eventDate env1 t = eventDate env2 t.
Proof.
  unfold eventDate. destruct t as [z |]; [| discriminate].
  intros ->. reflexivity.
Qed.

(** What a first delivery wrote is what a second delivery of the same
    event computes again. *)
Lemma mapStatus_settled env1 env2 m st t ns dl rd :
  Js.truthyZ t = true ->
  Js.toUpperCase (unicodeUpper env2) (Js.orD st "")
  = Js.toUpperCase (unicodeUpper env1) (Js.orD st "") ->
  mapStatus env1 m st t
  = (ns, option_map ValidDate dl, option_map ValidDate rd) ->
  mapStatus env2 (setStatus (ns, dl, rd) m) st t
  = (ns, option_map ValidDate dl, option_map ValidDate rd).
Proof.
  intros Ht Hu. rewrite !mapStatus_cases, Hu.
  rewrite (eventDate_stamped env2 env1 t Ht).
  set (u := Js.toUpperCase (unicodeUpper env1) (Js.orD st "")). clearbody u.
  cbn [setStatus msg_status msg_deliveredAt msg_readAt].
  destruct (String.eqb u "DELIVERED" || String.eqb u "ACK")%bool.
  - intros [= <- Hd Hr]. destruct dl as [x |]; [reflexivity |].
    destruct (msg_deliveredAt m); discriminate Hd.
  - destruct (String.eqb u "READ").
    + intros [= <- Hd Hr]. rewrite Hr.
      destruct dl; reflexivity.
    + destruct (String.eqb u "FAILED" || String.eqb u "ERROR")%bool;
        intros [= <- Hd Hr]; reflexivity.
Qed.
Lemma find_after_update {R} (p q : R -> bool) (f : R -> R) (l l' : list R)
    (x r : R) :
  (forall y, q (f y) = q y) ->
  find p l = Some x -> find q l = Some x ->
  Db.update_first p f l = Some (r, l') ->
  find q l' = Some (f x).
Proof.
  intros Hq. revert l'.
  induction l as [| y t IH]; intros l'; simpl; [discriminate |].
  destruct (p y) eqn:Hp.
  - intros [= ->] Hx [= <- <-]. simpl. rewrite Hq.
    destruct (q x) eqn:Hqx; [reflexivity |].
    apply find_some in Hx as [_ Hx]. congruence.
  - destruct (q y) eqn:Hy.
    + intros Hfp [= ->]. apply find_some in Hfp as [_ Hpx]. congruence.
    + intros Hfp Hfq.
      destruct (Db.update_first p f t) as [[z t'] |]; [| discriminate].
      intros [= <- <-]. simpl. rewrite Hy. now apply (IH t').
Qed.

(** X12: delivering a status event a second time changes nothing: when
    an event that carries a timestamp has been processed (answered 200)
    and message ids are unique, processing the same event again, at any
    later time, under any clock, bridge and datastore, leaves the store
    as the first delivery left it. (A status with characters outside
    ASCII goes through the case tables of the runtime: for such a status
    the two deliveries are taken to upper-case it alike.) *)
Theorem status_replay_is_idempotent env1 env2 w r b d :
  body r = Some b -> data b = Some d ->
  Js.truthyZ (timestamp d) = true ->
  (Js.isAscii (Js.orD (status d) "") = false ->
   unicodeUpper env2 (Js.orD (status d) "")
   = unicodeUpper env1 (Js.orD (status d) "")) ->
  NoDup (map msg_id (messages (store w))) ->
  fst (run (POST env1 r) w) = Ok (json 200 BSuccess) ->
  let w1 := snd (run (POST env1 r) w) in
  store (snd (run (POST env2 r) w1)) = store w1.
Proof.
  intros Hb Hd Ht Hup' Hnd.
  assert (Hup : Js.toUpperCase (unicodeUpper env2) (Js.orD (status d) "")
                = Js.toUpperCase (unicodeUpper env1) (Js.orD (status d) "")).
  { unfold Js.toUpperCase.
    destruct (Js.isAscii (Js.orD (status d) "")); [reflexivity | now apply Hup']. }
  clear Hup'. destruct w as [s c k]. cbn [store] in Hnd. cbv zeta.
  pattern (run (POST env1 r) (mkWorld s c k)). apply wp_run.
  unfold POST at 1. wp_auto.
  all: cbn [fst snd]; intros [= ].
  all: match goal with
       | Hf : findMessage ?wid _ = Some ?m,
         Hm : mapStatus _ ?m _ _ = (?ns, _, _),
         Hu : Db.update_first _ (setStatus (?ns, ?dl, ?rd)) (messages _)
              = Some (_, _) |- _ =>
           rename Hf into Hfind, Hu into Hupd, Hm into Hmap;
           pose proof (mapStatus_settled _ _ m _ _ ns dl rd Ht Hup Hmap)
             as Hset;
           cbn [option_map] in Hset;
           set (g := setStatus (ns, dl, rd)) in *; set (key := wid) in *;
           assert (Hid : find (fun x => String.eqb (msg_id x) (msg_id m))
                              (messages s) = Some m)
             by (apply find_by_unique_id; [exact Hnd |];
                 unfold findMessage in Hfind; now apply find_some in Hfind);
           assert (Hkeep : forall y, String.eqb (msg_id (g y)) (msg_id m)
                                     = String.eqb (msg_id y) (msg_id m))
             by (intros y; subst g; now rewrite msg_id_setStatus);
           destruct (update_first_found _ g _ _ Hid Hkeep)
             as (l' & Hu' & Hfound & _);
           rewrite Hu' in Hupd; injection Hupd as <- <-;
           assert (Hfind2 : findMessage key (Db.set_messages s l') = Some (g m))
             by (unfold findMessage in *; cbn [messages Db.set_messages];
                 apply (find_after_update _ _ g _ _ _ _
                          (fun y => f_equal (fun i => String.eqb i key)
                                      (wid_setStatus _ y)) Hid Hfind Hu'));
           subst key
       end.
  all: pattern (run (POST env2 r) (mkWorld (Db.set_messages s l') c k));
    apply wp_run; unfold POST; wp_auto.
  all: cbn [snd store]; try reflexivity.
  all: match goal with
       | Hu : Db.update_first _ _ _ = Some _ |- _ =>
           cbn [messages Db.set_messages] in Hu;
           rewrite (update_first_same _ _ l' (g m)) in Hu;
           [ injection Hu as <- <-; destruct s; reflexivity
           | rewrite <- Hfound; apply find_ext_eq; intros y; subst g;
             now rewrite msg_id_setStatus
           | subst g; apply setStatus_twice ]
       end.
Qed.

Lemma status_replay_is_idempotent_witness :
  let r := Sample.statusEvent "READ" 1700000100 in
  let w1 := snd (run (POST Sample.env r) Sample.world0) in
  store (snd (run (POST Sample.envDown r) w1)) = store w1.
Proof.
  apply (status_replay_is_idempotent Sample.env Sample.envDown Sample.world0
           (Sample.statusEvent "READ" 1700000100) _ _ eq_refl eq_refl eq_refl).
  - discriminate.
  - apply NoDup_singleton.
  - vm_compute. reflexivity.
Defined.

End StatusReplay.
(** ** Counters *)

Section Counters.


Lemma sumZ_update {R} (g : R -> Z) (d : Z) (p : R -> bool) (f : R -> R)
    (l l' : list R) (y : R) :
  (forall x, g (f x) = g x + d) ->
  Db.update_first p f l = Some (y, l') ->
  sumZ (map g l') = sumZ (map g l) + d.
Proof.
  intros Hg. revert l' y. induction l as [| x r IH]; intros l' y; simpl.
  - discriminate.
  - destruct (p x).
    + intros [= <- <-].
      change (g (f x) + sumZ (map g r) = g x + sumZ (map g r) + d).
      rewrite Hg. lia.
    + destruct (Db.update_first p f r) as [[z r'] |]; [| discriminate].
      intros [= <- <-].
      change (g x + sumZ (map g r') = g x + sumZ (map g r) + d).
      rewrite (IH r' z eq_refl). lia.
Qed.

Ltac counted :=
  repeat match goal with
         | H : Db.update_first _ (WebhookMessage.touchConversation _) _ = Some _
           |- _ =>
             apply (sumZ_update cnv_unreadCount 1) in H;
             [| intros []; reflexivity]
         | H : Db.update_first _ (WebhookMessage.countReceived _) ?l
               = Some (_, ?l') |- _ =>
             assert (sumZ (map ses_dailySentCount l')
                     = sumZ (map ses_dailySentCount l) + 0)
               by (eapply sumZ_update; [| exact H]; intros []; cbn; lia);
             apply (sumZ_update ses_dailyRecvCount 1) in H;
             [| intros []; reflexivity]
         | H : Db.update_first _ (Send.touchConversation _) _ = Some _ |- _ =>
             apply (sumZ_update cnv_unreadCount 0) in H;
             [| intros []; cbn; lia]
         | H : Db.update_first _ (Send.countSent _) ?l = Some (_, ?l') |- _ =>
             assert (sumZ (map ses_dailyRecvCount l')
                     = sumZ (map ses_dailyRecvCount l) + 0)
               by (eapply sumZ_update; [| exact H]; intros []; cbn; lia);
             apply (sumZ_update ses_dailySentCount 1) in H;
             [| intros []; reflexivity]
         end.



(** X14: a send that is answered 201 is counted exactly once, whether
    the bridge accepted the message or not: the daily sent counters of
    all sessions taken together grow by one, and no daily received
    counter and no unread counter changes. *)
Theorem send_counts_one_message env w r resp w' :
  run (Send.POST env r) w = (Ok resp, w') ->
  rs_status resp = 201%nat ->
  totalSent (store w') = totalSent (store w) + 1
  /\ totalReceived (store w') = totalReceived (store w)
  /\ totalUnread (store w') = totalUnread (store w).
Proof.
  destruct w as [s c k]. revert resp w'.
  pattern (run (Send.POST env r) (mkWorld s c k)). apply wp_run.
  unfold Send.POST, Send.dispatch.
  wp_auto.
  all: intros resp w' [= <- <-]; cbn [rs_status json]; try discriminate;
    intros _.
  all: unfold totalUnread, totalReceived, totalSent.
  all: cbn [store sessions conversations messages Db.bump Db.set_contacts
              Db.set_identities Db.set_conversations Db.set_messages
              Db.set_sessions Db.set_auditLogs] in *.
  all: counted.
  all: repeat split; lia.
Qed.

Lemma send_counts_one_message_witness :
  let r := Sample.sendText Sample.headersA "cnv-1" "Hello" in
  let w' := snd (run (Send.POST Sample.envDown r) Sample.world0) in
  totalSent (store w') = totalSent (store Sample.world0) + 1
  /\ totalReceived (store w') = totalReceived (store Sample.world0)
  /\ totalUnread (store w') = totalUnread (store Sample.world0).
Proof.
  cbv zeta.
  apply (send_counts_one_message Sample.envDown Sample.world0
           (Sample.sendText Sample.headersA "cnv-1" "Hello")
           (match fst (run (Send.POST Sample.envDown
                              (Sample.sendText Sample.headersA "cnv-1" "Hello"))
                           Sample.world0) with
            | Ok resp => resp
            | Fail _ => json 500 BSuccess
            end)).
  - vm_compute. reflexivity.
  - vm_compute. reflexivity.
Defined.

End Counters.

(** ** Send: what is sent to the bridge *)

Section SendPayload.

Lemma not_appended {A} (l : list A) (x : A) : l <> (l ++ [x])%list.
Proof.
  intros H. apply (f_equal (@List.length A)) in H.
  rewrite length_app in H. cbn in H. lia.
Qed.

(** X15: the body a send posts to the bridge has, under [to], the
    WhatsApp number of the identity of the conversation's contact, and
    one content: the text whenever a text is given (a media URL sent
    along is dropped), the media object only when there is no text, the
    body of the named template when there is neither, and never a
    caption. *)
Theorem send_payload_has_one_content env w r b v call :
  Send.body r = Some b ->
  Send.parse env b = Ok v ->
  calls (snd (run (Send.POST env r) w)) = (calls w ++ [call])%list ->
  exists o c account bound ident,
    hc_body call = Some o
    /\ Send.findConversation (Send.v_conversationId v) (store w)
       = Some (c, Some account, bound)
    /\ Send.findIdentity (cnv_contactId c) (store w) = Some ident
    /\ o !! "to" = Some (Js.VStr (idt_whatsappNumber ident))
    /\ o !! "caption" = None
    /\ (Js.truthyO (Send.v_text v) = true ->
        o !! "body" = Some (Js.vstrO (Send.v_text v)) /\ o !! "media" = None)
    /\ (Js.truthyO (Send.v_text v) = false ->
        Js.truthyO (Send.v_mediaUrl v) = true ->
        o !! "media"
        = Some (Js.VObj {[ "url" := Js.vstrO (Send.v_mediaUrl v) ]})
        /\ o !! "body" = None)
    /\ (Js.truthyO (Send.v_text v) = false ->
        Js.truthyO (Send.v_mediaUrl v) = false ->
        exists t,
          Send.findTemplate (Js.orD (Send.v_templateId v) "") (store w) = Some t
          /\ o !! "body" = Some (Js.VStr (tpl_bodyTemplate t))
          /\ o !! "media" = None).
Proof.
  intros Hb Hp. destruct w as [s c k].
  pattern (run (Send.POST env r) (mkWorld s c k)). apply wp_run.
  unfold Send.POST, Send.dispatch. wp_auto.
  all: cbn [snd calls store]; intros Hc;
    try (exfalso; exact (not_appended _ _ Hc)).
  all: apply app_inv_head in Hc; injection Hc as <-; cbn [hc_body].
  all: try (exfalso;
            match goal with
            | Hn : (negb _ && negb _ && negb _)%bool = false |- _ =>
                discriminate Hn
            end).
  all: eexists _, _, _, _, _; split; [reflexivity |].
  all: split; [eassumption |]; split; [eassumption |].
  all: split; [reflexivity |]; split; [reflexivity |].
  all: repeat split; intros; try congruence; try reflexivity.
  all: eexists; split; [eassumption |]; split; reflexivity.
Qed.

Lemma send_payload_has_one_content_witness :
  let call :=
    mkCall "POST" "http://waha.local/api/instances/waha-1/messages"
      (Some "waha-key")
      (Some (<[ "body" := Js.VStr "Hello" ]>
               {[ "to" := Js.VStr "+911111111111" ]})) in
  exists o c account bound ident,
    hc_body call = Some o
    /\ Send.findConversation "cnv-1" Sample.store0
       = Some (c, Some account, bound)
    /\ Send.findIdentity (cnv_contactId c) Sample.store0 = Some ident
    /\ o !! "to" = Some (Js.VStr (idt_whatsappNumber ident))
    /\ o !! "caption" = None
    /\ (Js.truthyO (Some "Hello") = true ->
        o !! "body" = Some (Js.vstrO (Some "Hello")) /\ o !! "media" = None)
    /\ (Js.truthyO (Some "Hello") = false ->
        Js.truthyO (Some "http://img.local/a.png") = true ->
        o !! "media"
        = Some (Js.VObj {[ "url" := Js.vstrO (Some "http://img.local/a.png") ]})
        /\ o !! "body" = None)
    /\ (Js.truthyO (Some "Hello") = false ->
        Js.truthyO (Some "http://img.local/a.png") = false ->
        exists t,
          Send.findTemplate (Js.orD None "") Sample.store0 = Some t
          /\ o !! "body" = Some (Js.VStr (tpl_bodyTemplate t))
          /\ o !! "media" = None).
Proof.
  cbv zeta.
  apply (send_payload_has_one_content Sample.env Sample.world0
           (Send.mkRequest Sample.headersA
              (Some (Send.mkBody (Js.Str "cnv-1") (Js.Str "Hello")
                       (Js.Str "http://img.local/a.png") Js.Undefined)))
           (Send.mkBody (Js.Str "cnv-1") (Js.Str "Hello")
              (Js.Str "http://img.local/a.png") Js.Undefined)
           (Send.mkValidated "cnv-1" (Some "Hello")
              (Some "http://img.local/a.png") None)).
  - reflexivity.
  - reflexivity.
  - vm_compute. reflexivity.
Defined.

End SendPayload.

(** ** Session create *)

Section SessionCreation.

Import SessionCreate.

Ltac new_calls Hc :=
  first
    [ rewrite <- (app_nil_r _) in Hc at 1; apply app_inv_head in Hc
    | rewrite <- app_assoc in Hc; apply app_inv_head in Hc
    | apply app_inv_head in Hc ].

(** X16: when a call that session create makes to the bridge fails
    (creating the instance or fetching its QR code), no Session row and
    no audit row is written, the store is as it was, and the answer is
    500 with the message of the bridge. *)
Theorem session_create_stores_nothing_when_bridge_fails
    env w r l call response message :
  calls (snd (run (POST env r) w)) = (calls w ++ l)%list ->
  In call l ->
  http env call = HttpFail response message ->
  store (snd (run (POST env r) w)) = store w
  /\ fst (run (POST env r) w)
     = Ok (json 500
             (BError ("Failed to create WAHA session: "
                      +:+ Js.orD (Js.or (mbind snd response) (Some message))
                            "Failed to create WAHA session"))).
Proof.
  destruct w as [s c k].
  pattern (run (POST env r) (mkWorld s c k)). apply wp_run.
  unfold POST, provision. wp_auto.
  all: cbn [fst snd calls store]; intros Hc Hin Hf.
  all: new_calls Hc; subst l; cbn [In app] in Hin.
  all: repeat match goal with
              | H : _ \/ _ |- _ => destruct H as [<- | H]
              | H : False |- _ => destruct H
              end.
  all: try congruence.
  all: match goal with
       | H : http _ ?c = HttpFail ?a ?b, H' : http _ ?c = HttpFail _ _ |- _ =>
           rewrite H in H'; injection H' as <- <-
       end.
  all: split; reflexivity.
Qed.

Lemma session_create_stores_nothing_when_bridge_fails_witness :
  let r := mkRequest Sample.headersA
             (Some (mkBody (Js.Str "acc-1") Js.Undefined Js.Undefined)) in
  store (snd (run (POST Sample.envDown r) Sample.world0)) = store Sample.world0
  /\ fst (run (POST Sample.envDown r) Sample.world0)
     = Ok (json 500
             (BError "Failed to create WAHA session: bridge unavailable")).
Proof.
  cbv zeta.
  apply (session_create_stores_nothing_when_bridge_fails Sample.envDown
           Sample.world0
           (mkRequest Sample.headersA
              (Some (mkBody (Js.Str "acc-1") Js.Undefined Js.Undefined)))
           (calls (snd (run (POST Sample.envDown
                               (mkRequest Sample.headersA
                                  (Some (mkBody (Js.Str "acc-1") Js.Undefined
                                                Js.Undefined))))
                            Sample.world0)))
           (mkCall "POST" "http://waha.local/api/instances" (Some "waha-key")
              (Some {[ "name" := Js.VStr "tenant-a-shared-1700000000000" ]}))
           (Some (503, Some "bridge unavailable")) "Request failed").
  - reflexivity.
  - vm_compute. left. reflexivity.
  - reflexivity.
Defined.



End SessionCreation.

(** ** Status polling: failures *)

Section SessionPollFailures.

Import SessionStatus.

(** X18: once the session is found and belongs to the caller's tenant, a
    status poll is answered 200 whatever the bridge and the datastore
    do; when the bridge does not answer, the status and phone number of
    the answer are the stored ones and nothing is written. *)
Theorem status_poll_survives_failures env w r caller session account :
  guard env (headers r) "marketing" = Ok caller ->
  findSession (sessionId r) (store w) = Some (session, Some account) ->
  acc_tenantId account = Auth.tenantId caller ->
  exists status phone w',
    run (GET env r) w
    = (Ok (json 200 (BSessionStatus status phone (ses_lastSyncAt session)
                                    (ses_lastSeenAt session))), w')
    /\ ((forall d,
           http env (mkCall "GET"
                       (Js.show (acc_wahaBaseUrl account) +:+ "/api/instances/"
                        +:+ Js.show (ses_providerSessionId session))
                       (acc_wahaApiKey account) None) <> HttpOk d) ->
        status = ses_status session /\ phone = ses_phoneNumber session
        /\ store w' = store w).
Proof.
  intros Hg Hf Ht. apply String.eqb_eq in Ht. destruct w as [s c k].
  cbn [store] in Hf.
  pattern (run (GET env r) (mkWorld s c k)). apply wp_run.
  unfold GET, poll. wp_auto.
  all: try congruence.
  all: eexists _, _, _; split; [reflexivity |]; cbn [fst snd store]; intros Hd.
  all: try (exfalso; eapply Hd; eassumption).
  all: repeat split; reflexivity.
Qed.

Lemma status_poll_survives_failures_witness :
  exists status phone w',
    run (GET Sample.envDown (mkRequest Sample.headersA "ses-1")) Sample.world0
    = (Ok (json 200 (BSessionStatus status phone None None)), w')
    /\ ((forall d,
           http Sample.envDown
                (mkCall "GET" "http://waha.local/api/instances/waha-1"
                   (Some "waha-key") None) <> HttpOk d) ->
        status = "connected" /\ phone = Some "911234500000"
        /\ store w' = store Sample.world0).
Proof.
  apply (status_poll_survives_failures Sample.envDown Sample.world0
           (mkRequest Sample.headersA "ses-1")
           (Auth.mkCaller "user-a" "tenant-a") Sample.session1
           Sample.account1); reflexivity.
Defined.

End SessionPollFailures.

(** ** Conversation read and update *)

Section ConversationAccess.

Import ConversationRoute.

(** X19: the conversation read route never returns a conversation: its
    query selects only id, businessName and status of the account, so
    the tenant comparison of the ownership check is made with an
    undefined value and fails for every caller. A request for an
    existing conversation is answered 403, also for the tenant that
    owns it, and the world is left as it was. *)
Theorem conversation_read_never_succeeds env w r acct :
  conversationAccount (g_conversationId r) (store w) = Some acct ->
  exists resp,
    run (GET env r) w = (Ok resp, w)
    /\ (resp = json 403 (BError "Unauthorized")
        \/ exists message, resp = json 403 (BLicense message "marketing")).
Proof.
  unfold conversationAccount. intros Ha.
  destruct (findConversationById _ _) as [cv |] eqn:Hc; [| discriminate].
  destruct w as [s c k]. cbn [store] in *.
  assert (Hfound : findWithSummary (g_conversationId r) s
                   = Some (cv, Some (summary acct)))
    by (unfold findWithSummary; now rewrite Hc, Ha).
  pattern (run (GET env r) (mkWorld s c k)). apply wp_run.
  unfold GET.
  destruct (guard env (g_headers r) "marketing") as [caller | e] eqn:Hg.
  - wp_auto.
    + match goal with
      | H : bool_decide _ = true |- _ =>
          apply bool_decide_eq_true in H; discriminate H
      end.
    + eexists. split; [reflexivity | left; reflexivity].
  - destruct (guard_failure _ _ _ _ Hg) as [message ->].
    wp_auto. eexists. split; [reflexivity | right; eexists; reflexivity].
Qed.

Lemma conversation_read_never_succeeds_witness :
  exists resp,
    run (GET Sample.env (mkGet Sample.headersA "cnv-1")) Sample.world0
    = (Ok resp, Sample.world0)
    /\ (resp = json 403 (BError "Unauthorized")
        \/ exists message, resp = json 403 (BLicense message "marketing")).
Proof.
  apply (conversation_read_never_succeeds Sample.env Sample.world0
           (mkGet Sample.headersA "cnv-1") Sample.account1).
  reflexivity.
Defined.

Lemma patch_parse_session b v :
  parse b = Ok v ->
  match sessionId b with
  | Js.Str x => v_sessionId v = Some x
  | Js.Undefined => v_sessionId v = None
  | Js.NotString => False
  end.
Proof.
  unfold parse. destruct (sessionId b); cbn; try discriminate.
  all: destruct (Zod.optional _); try discriminate.
  all: destruct (Zod.optionalEnum _ _); try discriminate.
  all: now intros [= <-].
Qed.

(** X20: a conversation can only be bound to a session of its own
    account: when an update that names a (non-empty) session id is
    answered with the conversation, the conversation is bound to that
    session, the session exists and it belongs to the account of the
    conversation. *)
Theorem patch_binds_own_session env w r b sid resp w' cv :
  p_body r = Some b ->
  sessionId b = Js.Str sid -> sid <> "" ->
  run (PATCH env r) w = (Ok resp, w') ->
  rs_body resp = BConversation cv ->
  cnv_sessionId cv = Some sid
  /\ exists x, findSessionById sid (store w) = Some x
               /\ ses_accountId x = cnv_accountId cv.
Proof.
  intros Hb Hs Hne. apply truthy_ne in Hne.
  destruct w as [s c k]. revert resp w'.
  pattern (run (PATCH env r) (mkWorld s c k)). apply wp_run.
  unfold PATCH. wp_auto.
  all: intros resp w' [= <- <-]; cbn [rs_body json]; try discriminate.
  all: intros [= <-].
  all: match goal with
       | Hp : parse _ = Ok _ |- _ =>
           apply patch_parse_session in Hp; rewrite Hs in Hp
       end.
  all: match goal with
       | Hv : v_sessionId _ = Some _ |- _ => rewrite Hv in *
       end.
  all: cbn [Js.truthyO Js.orD] in *; try congruence.
  all: rewrite ?Hne in *.
  all: match goal with
       | Hf : findWithAccount _ _ = Some (?c0, _),
         Hu : Db.update_first _ _ _ = Some (?r0, _) |- _ =>
           pose proof Hf as Hrow;
           unfold findWithAccount, findConversationById in Hrow;
           destruct (find _ (conversations s)) as [c' |] eqn:E;
           [| discriminate Hrow];
           injection Hrow as -> _;
           rewrite (update_first_result _ _ _ _ _ _ E Hu)
       end.
  all: try match goal with
         | Hv : v_sessionId _ = Some _ |- _ =>
             unfold applyUpdate; rewrite Hv
         end.
  all: cbn [cnv_sessionId cnv_accountId applyUpdate].
  split; [reflexivity |]. eexists. split; [eassumption |].
  now apply String.eqb_eq.
Qed.

Lemma patch_binds_own_session_witness :
  let cv := mkConversation "cnv-1" "acc-1" "con-1" (Some "ses-1") "open"
                           None None 0 None in
  cnv_sessionId cv = Some "ses-1"
  /\ exists x, findSessionById "ses-1" (store Sample.world0) = Some x
               /\ ses_accountId x = cnv_accountId cv.
Proof.
  cbv zeta.
  apply (patch_binds_own_session Sample.env Sample.world0
           (mkPatch Sample.headersA "cnv-1"
              (Some (mkBody (Js.Str "ses-1") Js.Undefined Js.Undefined)))
           (mkBody (Js.Str "ses-1") Js.Undefined Js.Undefined) "ses-1"
           (json 200
              (BConversation
                 (mkConversation "cnv-1" "acc-1" "con-1" (Some "ses-1") "open"
                                 None None 0 None)))
           (snd (run (PATCH Sample.env
                        (mkPatch Sample.headersA "cnv-1"
                           (Some (mkBody (Js.Str "ses-1") Js.Undefined
                                         Js.Undefined))))
                     Sample.world0))).
  - reflexivity.
  - reflexivity.
  - discriminate.
  - vm_compute. reflexivity.
  - reflexivity.
Defined.

End ConversationAccess.

(** ** Message list *)

Section MessagePages.

Import MessageList.

Lemma window_length {R} (t k : Z) (rows l : list R) :
  Db.window (Js.Int t) (Js.Int k) rows = Ok l ->
  0 <= k
  /\ List.length l
     = Nat.min (Z.to_nat (Z.abs t)) (List.length rows - Z.to_nat k).
Proof.
  unfold Db.window. destruct (Z.ltb_spec k 0); [discriminate |].
  destruct (Z.leb_spec 0 t); intros [= <-]; (split; [assumption |]).
  - rewrite length_take, length_drop. now rewrite Z.abs_eq.
  - rewrite length_rev, length_take, length_drop, length_rev.
    rewrite Z.abs_neq by lia. reflexivity.
Qed.

Lemma ordered_impl (R R' : Z -> Z -> Prop) l :
  (forall a b, R a b -> R' a b) -> ordered R l -> ordered R' l.
Proof.
  intros HR. induction l as [| x r IH]; [exact (fun H => H) |].
  intros [Hx Hr]. split; [intros y Hy; apply HR, Hx, Hy | apply IH, Hr].
Qed.

Lemma ordered_app R l1 l2 :
  ordered R (l1 ++ l2)
  <-> ordered R l1 /\ ordered R l2
      /\ forall x y, x ∈ l1 -> y ∈ l2 -> R (msg_createdAt x) (msg_createdAt y).
Proof.
  induction l1 as [| a l1 IH]; cbn [app ordered].
  - split; [intros H; repeat split; [exact H | intros x y Hx; inversion Hx] |].
    intros (_ & H & _). exact H.
  - rewrite IH. split.
    + intros (Ha & H1 & H2 & H12). repeat split; try assumption.
      * intros y Hy. apply Ha, elem_of_app. now left.
      * intros x y Hx Hy. apply elem_of_cons in Hx as [-> | Hx].
        -- apply Ha, elem_of_app. now right.
        -- now apply H12.
    + intros ((Ha & H1) & H2 & H12). repeat split; try assumption.
      * intros y Hy. apply elem_of_app in Hy as [Hy | Hy]; [now apply Ha |].
        apply H12; [apply list_elem_of_here | exact Hy].
      * intros x y Hx Hy. apply H12; [now apply list_elem_of_further | exact Hy].
Qed.

Lemma ordered_rev R l : ordered R l -> ordered (flip R) (rev l).
Proof.
  induction l as [| x r IH]; [exact (fun H => H) |].
  intros [Hx Hr]. cbn [rev]. apply ordered_app.
  split; [apply IH, Hr |]. split; [split; [intros y Hy; inversion Hy | exact I] |].
  intros a b Ha Hb. apply list_elem_of_singleton in Hb as ->.
  apply Hx. now apply elem_of_rev.
Qed.

Lemma ordered_take R n l : ordered R l -> ordered R (take n l).
Proof.
  intros H. rewrite <- (take_drop n l) in H. now apply ordered_app in H.
Qed.

Lemma ordered_drop R n l : ordered R l -> ordered R (drop n l).
Proof.
  intros H. rewrite <- (take_drop n l) in H. now apply ordered_app in H.
Qed.

Lemma insertByCreatedAt_ordered m l :
  ordered Z.ge l -> ordered Z.ge (insertByCreatedAt m l).
Proof.
  induction l as [| x r IH]; intros H.
  - split; [intros y Hy; inversion Hy | exact I].
  - cbn [insertByCreatedAt].
    destruct (Z.ltb_spec (msg_createdAt x) (msg_createdAt m)) as [Hlt | Hge].
    + split; [| exact H]. destruct H as [Hx _].
      intros y Hy. apply elem_of_cons in Hy as [-> | Hy]; [lia |].
      specialize (Hx y Hy). lia.
    + destruct H as [Hx Hr]. split; [| apply IH, Hr].
      intros y Hy. rewrite insertByCreatedAt_perm in Hy.
      apply elem_of_cons in Hy as [-> | Hy]; [lia | now apply Hx].
Qed.

Lemma latestFirst_ordered l : ordered Z.ge (latestFirst l).
Proof.
  induction l as [| x r IH]; [exact I |].
  apply insertByCreatedAt_ordered, IH.
Qed.

Lemma window_ordered R take_ skip rows l :
  Db.window take_ skip rows = Ok l -> ordered R rows -> ordered R l.
Proof.
  unfold Db.window. destruct take_ as [| t |]; try discriminate.
  destruct skip as [| k |]; try discriminate.
  destruct (k <? 0); [discriminate |].
  destruct (0 <=? t); intros [= <-] H.
  - now apply ordered_take, ordered_drop.
  - apply (ordered_impl (flip (flip R))); [auto |].
    now apply ordered_rev, ordered_take, ordered_drop, ordered_rev.
Qed.

(** X21: the message list answers with messages of the requested
    conversation only, in the order of their [createdAt] times, earliest
    first, and the total is the number of all messages of the
    conversation. For an integer limit and offset the page holds exactly
    |min(limit, 100)| messages, or as many as are left after the offset
    if that is less: the cap of 100 bounds a positive limit, while a
    negative limit, which pages from the other end, is not capped. A
    list is never answered for a negative offset. *)
Theorem message_list_is_bounded env w r resp l total :
  fst (run (GET env r) w) = Ok resp ->
  rs_body resp = BMessages l total ->
  total = List.length (ofConversation (conversationId r) (store w))
  /\ (forall m, m ∈ l ->
        msg_conversationId m = conversationId r /\ m ∈ messages (store w))
  /\ chronological l
  /\ forall lim off,
       limit r = Js.Int lim -> offset r = Js.Int off ->
       0 <= off
       /\ List.length l
          = Nat.min (Z.to_nat (Z.abs (Z.min lim 100))) (total - Z.to_nat off).
Proof.
  destruct w as [s c k]. revert resp.
  pattern (run (GET env r) (mkWorld s c k)). apply wp_run.
  unfold GET. wp_auto.
  all: cbn [fst store]; intros resp [= <-]; cbn [rs_body json];
    try discriminate.
  intros [= <- <-]. split; [reflexivity |]. split; [| split].
  - intros m Hm. apply elem_of_rev in Hm. eapply page_rows; eassumption.
  - match goal with
    | Hp : page _ _ _ _ = Ok _ |- _ =>
        unfold page in Hp;
        apply (window_ordered Z.ge) in Hp; [| apply latestFirst_ordered]
    end.
    apply (ordered_impl (flip Z.ge)); [unfold flip; intros; lia |].
    now apply ordered_rev.
  - intros lim off Hl Ho.
    match goal with
    | Hp : page _ _ _ _ = Ok _ |- _ =>
        unfold page in Hp; rewrite Hl, Ho in Hp; cbn [Js.mathMin] in Hp;
        apply window_length in Hp as [Hoff Hlen]
    end.
    split; [exact Hoff |].
    rewrite length_rev, Hlen, (Permutation_length (latestFirst_perm _)).
    reflexivity.
Qed.

Lemma message_list_is_bounded_witness :
  let r := mkRequest Sample.headersA "cnv-1" (Js.Int (-2)) (Js.Int 0) in
  let l := [Fixture.messageAt "m-10" 10; Fixture.messageAt "m-20" 20] in
  3%nat = List.length (ofConversation "cnv-1" Fixture.storeThree)
  /\ (forall m, m ∈ l ->
        msg_conversationId m = "cnv-1" /\ m ∈ messages Fixture.storeThree)
  /\ chronological l
  /\ forall lim off,
       Js.Int (-2) = Js.Int lim -> Js.Int 0 = Js.Int off ->
       0 <= off
       /\ List.length l
          = Nat.min (Z.to_nat (Z.abs (Z.min lim 100))) (3 - Z.to_nat off).
Proof.
  cbv zeta.
  apply (message_list_is_bounded Sample.env (Sample.world Fixture.storeThree)
           (mkRequest Sample.headersA "cnv-1" (Js.Int (-2)) (Js.Int 0))
           (json 200
              (BMessages [Fixture.messageAt "m-10" 10; Fixture.messageAt "m-20" 20]
                         3))).
  - vm_compute. reflexivity.
  - reflexivity.
Defined.

End MessagePages.
(** ** Account create *)

Section AccountCreation.

(** X22: account create never creates an account. The first statement
    of the route calls [requireWhatsAppAccess], which the module neither
    imports nor declares, so every request, whatever its headers and its
    body, ends in the catch-all of the route: it is answered 500 `Failed
    to create WhatsApp account', one line is logged, no table is written
    (no account row, no audit row) and the bridge is not called. *)
Theorem account_create_always_fails env r w :
  serve env (OpAccountCreate r) w
  = (Ok (json 500 (BError "Failed to create WhatsApp account")),
     mkWorld (store w)
             (console w ++ ["POST /api/whatsapp/accounts error:"])%list
             (calls w)).
Proof.
  destruct w as [s c k]. unfold serve.
  pattern (run (handler env (OpAccountCreate r)) (mkWorld s c k)).
  apply wp_run. cbn [handler].
  unfold AccountRoute.POST, AccountRoute.requireWhatsAppAccess.
  wp_auto. reflexivity.
Qed.

End AccountCreation.
(** ** Onboarding status *)

Section Onboarding.

Import OnboardingStatus.

(** X23: when the bridge reports CONNECTED (or connected) for a hosted
    account that is owned by the caller, fully configured and not yet
    active, the onboarding status route answers 200 with status active,
    the phone number of the bridge and the error message that was
    stored before; the account row becomes active with its error
    message cleared, and one audit row account_qr_scanned is appended
    for the account and the caller. *)
Theorem onboarding_connects_account env w r caller account d :
  guard env (headers r) "marketing" = Ok caller ->
  findAccount (accountId r) (store w) = Some account ->
  acc_tenantId account = Auth.tenantId caller ->
  Js.truthyO (acc_internalWahaUrl account) = true ->
  Js.truthyO (acc_internalApiKey account) = true ->
  Js.truthyO (acc_paynaidInstanceId account) = true ->
  http env (statusCall account) = HttpOk d ->
  connected (Js.orD (pd_state d) "UNKNOWN") = true ->
  acc_status account <> "active" ->
  writeFails env TAccount = false -> writeFails env TAuditLog = false ->
  exists w' a,
    run (GET env r) w
    = (Ok (json 200 (answer "active" (Js.orNullO (pd_meUser d))
                            (acc_errorMessage account))), w')
    /\ findAccount (accountId r) (store w') = Some (activate account)
    /\ auditLogs (store w') = (auditLogs (store w) ++ [a])%list
    /\ aud_action a = "account_qr_scanned"
    /\ aud_accountId a = accountId r
    /\ aud_userId a = Some (Auth.userId caller).
Proof.
  intros Hg Hf Ht Hu Hk Hi Hh Hc Hs Hwa Hwl.
  apply String.eqb_eq in Ht. apply String.eqb_neq in Hs.
  destruct w as [s c k]. cbn [store] in *.
  destruct (update_first_found _ activate _ _ Hf) as (l' & Hupd & Hfound & _);
    [intros []; reflexivity |].
  assert (Hcfg : (negb (Js.truthyO (acc_internalWahaUrl account))
                  || negb (Js.truthyO (acc_internalApiKey account))
                  || negb (Js.truthyO (acc_paynaidInstanceId account)))%bool
                 = false) by now rewrite Hu, Hk, Hi.
  pattern (run (GET env r) (mkWorld s c k)). apply wp_run.
  unfold GET, check. wp_auto.
  all: try congruence.
  all: match goal with
       | H : http _ _ = HttpOk ?d0 |- _ =>
           assert (d0 = d) by congruence; subst d0
       end.
  all: try congruence.
  match goal with
  | H : Db.update_first _ _ _ = Some _ |- _ =>
      rewrite Hupd in H; injection H as <- <-
  end.
  eexists _, _. split; [reflexivity |].
  cbn [store auditLogs accounts Db.bump Db.set_auditLogs Db.set_accounts].
  split; [exact Hfound |]. repeat split; reflexivity.
Qed.

Lemma onboarding_connects_account_witness :
  exists w' a,
    run (GET Sample.env (mkRequest Sample.headersA "acc-2"))
        (Sample.world Fixture.storeHosted)
    = (Ok (json 200 (answer "active" (Some "911234500000") None)), w')
    /\ findAccount "acc-2" (store w') = Some (activate Fixture.accountHosted)
    /\ auditLogs (store w') = ([] ++ [a])%list
    /\ aud_action a = "account_qr_scanned"
    /\ aud_accountId a = "acc-2"
    /\ aud_userId a = Some "user-a".
Proof.
  apply (onboarding_connects_account Sample.env
           (Sample.world Fixture.storeHosted)
           (mkRequest Sample.headersA "acc-2")
           (Auth.mkCaller "user-a" "tenant-a") Fixture.accountHosted
           Sample.answer); try reflexivity.
  discriminate.
Defined.

Lemma update_first_pointwise {R} (P : R -> R -> Prop) (p : R -> bool)
    (f : R -> R) (l l' : list R) (y : R) :
  (forall x, P x x) -> (forall x, P x (f x)) ->
  Db.update_first p f l = Some (y, l') -> Forall2 P l l'.
Proof.
  intros Hr Hf. revert l' y. induction l as [| x r IH]; intros l' y; simpl.
  - discriminate.
  - destruct (p x).
    + intros [= <- <-]. constructor; [apply Hf |].
      clear IH. induction r; constructor; auto.
    + destruct (Db.update_first p f r) as [[z r'] |]; [| discriminate].
      intros [= <- <-]. constructor; [apply Hr | eapply IH; reflexivity].
Qed.

Lemma Forall2_same {R} (P : R -> R -> Prop) (l : list R) :
  (forall x, P x x) -> Forall2 P l l.
Proof. intros Hr. induction l; constructor; auto. Qed.

(** X24: the onboarding status route writes to an account only to
    activate it: after any request every account row is as it was or
    is its activated version, and unless the bridge reported CONNECTED
    (or connected) the store is unchanged; a DISCONNECTED report is
    answered to the caller but not stored. *)
Theorem onboarding_status_only_activates env w r :
  let w' := snd (run (GET env r) w) in
  Forall2 activated (accounts (store w)) (accounts (store w'))
  /\ ((forall account d,
          findAccount (accountId r) (store w) = Some account ->
          http env (statusCall account) = HttpOk d ->
          connected (Js.orD (pd_state d) "UNKNOWN") = false) ->
      store w' = store w).
Proof.
  destruct w as [s c k]. cbv zeta.
  pattern (run (GET env r) (mkWorld s c k)). apply wp_run.
  unfold GET, check. wp_auto.
  all: cbn [snd store accounts Db.bump Db.set_auditLogs Db.set_accounts].
  all: split;
    [first [ apply Forall2_same; intros; left; reflexivity
           | eapply update_first_pointwise; [| | eassumption];
             intros; [left | right]; reflexivity ] |].
  all: try (intros _; reflexivity).
  all: intros Hd; exfalso; cbn [store] in Hd;
    match goal with
    | Ha : findAccount _ _ = Some _,
      H : http _ _ = HttpOk ?d0, Hc : connected _ = true |- _ =>
        specialize (Hd _ d0 Ha H); congruence
    end.
Qed.

End Onboarding.

(** ** Ticket from a conversation *)

Section Tickets.

Import CreateTicket.

Lemma wp_createTicket tickets data w Q :
  (forall tid, tickets data = Ok tid -> Q (Ok tid) w) ->
  (forall e, tickets data = Fail e -> Q (Fail e) w) ->
  wp (createTicket tickets data) w Q.
Proof.
  unfold wp, createTicket. cbn [run]. intros Hok Hfail.
  destruct (tickets data) as [tid | e]; [now apply Hok | now apply Hfail].
Qed.

Ltac wp_tickets :=
  repeat first [ wp_step
               | apply wp_createTicket; [intros ? ? | intros ? ?] ].

(** X25: the create-ticket route answers 201 and appends one audit row
    conversation_to_ticket whether or not a ticket could be created. The
    conversation is linked only to a ticket that was created: either
    the ticket store returned a non-empty id for a ticket opened from
    this conversation, the answer carries that id and the conversation
    now has it as its ticketId, or no conversation row was changed. *)
Theorem ticket_link_follows_creation env tickets w r resp w' :
  run (POST env tickets r) w = (Ok resp, w') ->
  rs_status resp = 201%nat ->
  (exists a, auditLogs (store w') = (auditLogs (store w) ++ [a])%list
             /\ aud_action a = "conversation_to_ticket")
  /\ ((exists data tid c,
          tickets data = Ok tid /\ tid <> ""
          /\ tk_sourceRefId data = conversationId r
          /\ tk_source data = "whatsapp" /\ tk_status data = "open"
          /\ resp = json 201 (answer (Some tid))
          /\ findConversationById (conversationId r) (store w') = Some c
          /\ cnv_ticketId c = Some tid)
      \/ (resp = json 201 (answer None) \/ resp = json 201 (answer (Some "")))
         /\ conversations (store w') = conversations (store w)).
Proof.
  destruct w as [s c k]. revert resp w'.
  pattern (run (POST env tickets r) (mkWorld s c k)). apply wp_run.
  unfold POST, openTicket. wp_tickets.
  all: intros resp w' [= <- <-]; cbn [rs_status json]; try discriminate;
    intros _.
  all: cbn [store auditLogs conversations Db.bump Db.set_auditLogs
              Db.set_conversations].
  all: (split; [eexists; split; reflexivity |]).
  all: try match goal with
         | Hy : Js.truthyO (Some ?tid) = false |- _ =>
             assert (tid = "")
               by (cbn [Js.truthyO] in Hy; unfold Js.truthy in Hy;
                   apply negb_false_iff, String.eqb_eq in Hy; exact Hy);
             subst tid
         end.
  all: try (right; split; [first [left; reflexivity | right; reflexivity]
                          | reflexivity]).
  all: left.
  all: match goal with
       | Hf : findConversation _ _ = Some (?c0, _, _),
         Ht : ?tk ?data = Ok ?tid,
         Hy : Js.truthyO (Some ?tid) = true,
         Hu : Db.update_first _ _ _ = Some _ |- _ =>
           exists data, tid, (link tid c0);
           unfold findConversation in Hf;
           destruct (findConversationById _ _) as [c' |] eqn:E;
           [| discriminate Hf]; injection Hf as -> _ _;
           unfold findConversationById in *;
           destruct (update_first_found _ (link tid) _ _ E)
             as (l' & Hl & Hfound & _);
           [intros []; reflexivity |];
           cbn [Js.orD] in Hu; cbn [Js.truthyO] in Hy; rewrite Hy in Hu;
           rewrite Hl in Hu; injection Hu as <- <-;
           split; [exact Ht |]; split; [now apply truthy_ne |];
           repeat split; try reflexivity; exact Hfound
       end.
Qed.

Lemma ticket_link_follows_creation_witness :
  let r := mkRequest Sample.headersA "cnv-1"
             (Some (mkBody Js.Undefined Js.Undefined Js.Undefined)) in
  let w' := snd (run (POST Sample.env Fixture.tickets r) Sample.world0) in
  let resp := json 201 (answer (Some "tkt-1")) in
  (exists a, auditLogs (store w') = (auditLogs (store Sample.world0) ++ [a])%list
             /\ aud_action a = "conversation_to_ticket")
  /\ ((exists data tid c,
          Fixture.tickets data = Ok tid /\ tid <> ""
          /\ tk_sourceRefId data = conversationId r
          /\ tk_source data = "whatsapp" /\ tk_status data = "open"
          /\ resp = json 201 (answer (Some tid))
          /\ findConversationById (conversationId r) (store w') = Some c
          /\ cnv_ticketId c = Some tid)
      \/ (resp = json 201 (answer None) \/ resp = json 201 (answer (Some "")))
         /\ conversations (store w') = conversations (store Sample.world0)).
Proof.
  cbv zeta.
  apply (ticket_link_follows_creation Sample.env Fixture.tickets Sample.world0
           (mkRequest Sample.headersA "cnv-1"
              (Some (mkBody Js.Undefined Js.Undefined Js.Undefined)))
           (json 201 (answer (Some "tkt-1")))).
  - vm_compute. reflexivity.
  - reflexivity.
Defined.

End Tickets.

(** ** Authentication middleware *)

Section MiddlewareGuard.

Import OAuthClient Middleware.

Lemma orD_same (x : string) : Js.orD (Some x) x = x.
Proof. unfold Js.orD. destruct (Js.truthy x); reflexivity. Qed.

(** X26: [requireWhatsAppAccess] is decided by the token of the request
    (a Bearer Authorization header, else the payaid_token cookie). A
    non-empty token that verifies and whose payload licenses whatsapp or
    marketing is authenticated: the result carries the verified payload
    and no response. A token that verifies but licenses neither module
    is answered 403, with no payload. A request with no token, an empty
    token or one that does not verify is redirected to the authorize
    endpoint of the core, with the URL of the request as redirect_uri. *)
Theorem whatsapp_access_is_coherent cfg env request :
  let res := requireWhatsAppAccess cfg env request in
  let verified :=
    match getTokenFromRequest request with
    | Some token => if Js.truthy token then verifyToken env token else None
    | None => None
    end in
  match verified with
  | Some p =>
      if (Js.includes "whatsapp" (default [] (jwt_licensedModules p))
          || Js.includes "marketing" (default [] (jwt_licensedModules p)))%bool
      then res = mkResult true (Some p) None
      else res = mkResult false None
                   (Some (JsonError 403
                            "WhatsApp module not licensed for this tenant"))
  | None =>
      res = mkResult false None (Some (redirectToAuth cfg (url request)))
  end.
Proof.
  cbv zeta.
  unfold requireWhatsAppAccess, requireWhatsAppAuth, requireAuth,
    checkAuthentication, verifyRequestToken.
  change (Js.orD None (url request)) with (url request). rewrite orD_same.
  destruct (getTokenFromRequest request) as [token |];
    [destruct (Js.truthy token);
     [destruct (verifyToken env token) as [p |] |] |];
    try reflexivity.
  cbn [authenticated negb payload mbind option_bind].
  change (match jwt_licensedModules p with Some l => l | None => [] end)
    with (default [] (jwt_licensedModules p)).
  destruct (Js.includes "whatsapp" _); [reflexivity |].
  destruct (Js.includes "marketing" _); reflexivity.
Qed.

Lemma whatsapp_access_is_coherent_witness :
  requireWhatsAppAccess (mkConfig "https://payaid.io" "whatsapp-module")
    Sample.env
    (mkRequest None (Some "token-a") "https://wa.payaid.io/dashboard")
  = mkResult true (Some Sample.tenantA) None
  /\ requireWhatsAppAccess (mkConfig "https://payaid.io" "whatsapp-module")
       Sample.env
       (mkRequest (Some "Bearer expired") (Some "token-a")
                  "https://wa.payaid.io/dashboard")
     = mkResult false None
         (Some (Redirect "https://payaid.io/api/oauth/authorize"
                  [ ("client_id", "whatsapp-module");
                    ("redirect_uri", "https://wa.payaid.io/dashboard");
                    ("response_type", "code");
                    ("scope", "openid profile email") ])).
Proof.
  split.
  - exact (whatsapp_access_is_coherent
             (mkConfig "https://payaid.io" "whatsapp-module") Sample.env
             (mkRequest None (Some "token-a")
                        "https://wa.payaid.io/dashboard")).
  - exact (whatsapp_access_is_coherent
             (mkConfig "https://payaid.io" "whatsapp-module") Sample.env
             (mkRequest (Some "Bearer expired") (Some "token-a")
                        "https://wa.payaid.io/dashboard")).
Defined.

End MiddlewareGuard.

(** ** Encryption of stored keys *)

Section EncryptionRoundTrip.

Import Encryption.

Lemma hexValue_hexDigit n : (n < 16)%N -> hexValue (hexDigit n) = Some n.
Proof.
  intros H. rewrite <- (N2Nat.id n).
  assert (Hm : (N.to_nat n < 16)%nat) by lia.
  generalize dependent (N.to_nat n). clear H. intros m Hm.
  do 16 (destruct m as [| m]; [reflexivity |]). lia.
Qed.

Lemma hexValue_bound c x : hexValue c = Some x -> (x < 16)%N.
Proof.
  unfold hexValue. cbv zeta.
  repeat match goal with
         | |- (if ?b then _ else _) = _ -> _ =>
             let E := fresh in
             destruct b eqn:E;
             [rewrite andb_true_iff, !N.leb_le in E |]
         end; intros [= <-]; lia.
Qed.

Lemma fromHex_toHex bytes : fromHex (toHex bytes) = bytes.
Proof.
  induction bytes as [| b r IH]; [reflexivity |].
  cbn [toHex fromHex].
  pose proof (Byte.to_N_bounded b) as Hb.
  rewrite !hexValue_hexDigit
    by (first [apply N.mod_lt; lia | apply N.Div0.div_lt_upper_bound; lia]).
  rewrite <- N.div_mod by lia. rewrite Byte.of_to_N. now rewrite IH.
Qed.

Lemma length_toHex bytes :
  String.length (toHex bytes) = (2 * List.length bytes)%nat.
Proof.
  induction bytes as [| b r IH]; [reflexivity |].
  cbn [toHex String.length List.length]. lia.
Qed.

(** The separator does not occur in the string. *)
Fixpoint free (sep : ascii) (s : string) : Prop :=
  match s with
  | EmptyString => True
  | String c r => Ascii.eqb c sep = false /\ free sep r
  end.

Lemma hexDigit_colon n : (n < 16)%N -> Ascii.eqb (hexDigit n) ":" = false.
Proof.
  intros H. rewrite <- (N2Nat.id n).
  assert (Hm : (N.to_nat n < 16)%nat) by lia.
  generalize dependent (N.to_nat n). clear H. intros m Hm.
  do 16 (destruct m as [| m]; [reflexivity |]). lia.
Qed.

Lemma toHex_free bytes : free ":" (toHex bytes).
Proof.
  induction bytes as [| b r IH]; [exact Logic.I |].
  pose proof (Byte.to_N_bounded b) as Hb.
  cbn [toHex free]. repeat split; [| | exact IH]; apply hexDigit_colon;
    [apply N.Div0.div_lt_upper_bound | apply N.mod_lt]; lia.
Qed.

Lemma split_free sep s t :
  free sep s -> split sep (s +:+ String sep t) = s :: split sep t.
Proof.
  induction s as [| c r IH]; intros Hs.
  - change (split sep (String sep t) = "" :: split sep t).
    cbn [split]. now rewrite Ascii.eqb_refl.
  - destruct Hs as [Hc Hr].
    change (split sep (String c (r +:+ String sep t))
            = String c r :: split sep t).
    cbn [split]. rewrite Hc, (IH Hr). reflexivity.
Qed.

Lemma split_free_all sep s : free sep s -> split sep s = [s].
Proof.
  induction s as [| c r IH]; intros Hs; [reflexivity |].
  destruct Hs as [Hc Hr]. cbn [split]. now rewrite Hc, (IH Hr).
Qed.

Lemma toHex_truthy bytes : bytes <> [] -> Js.truthy (toHex bytes) = true.
Proof. destruct bytes; [congruence | reflexivity]. Qed.

(** X27: decrypt inverts encrypt: with a key of 32 bytes and a vector of
    16 bytes, and a block cipher that is sound, every text that is
    encrypted decrypts to itself; the vector travels in the ciphertext
    as hexadecimal digits before the colon and is read back from
    there. The empty text is encrypted to, and decrypted from, the
    empty string. *)
Theorem decrypt_inverts_encrypt aes secret iv text :
  soundCipher aes ->
  List.length (keyBytes secret) = 32%nat ->
  List.length iv = 16%nat ->
  exists e, encrypt aes secret iv text = Ok e
            /\ decrypt aes secret e = Ok text.
Proof.
  intros Haes Hkey Hiv. unfold encrypt.
  destruct (Js.truthy text) eqn:Ht; cbn [negb].
  - destruct (Haes (keyBytes secret) iv text Hkey Hiv) as (c & Hc & Hne & Hd).
    rewrite Hc. eexists. split; [reflexivity |]. unfold decrypt.
    assert (Hivne : iv <> []) by (destruct iv; [discriminate Hiv | congruence]).
    replace (Js.truthy (toHex iv +:+ ":" +:+ toHex c)) with true
      by (destruct iv; [congruence | reflexivity]).
    cbn [negb].
    change (toHex iv +:+ ":" +:+ toHex c)
      with (toHex iv +:+ String ":" (toHex c)).
    rewrite (split_free ":" _ _ (toHex_free iv)),
      (split_free_all ":" _ (toHex_free c)).
    rewrite !toHex_truthy by assumption. cbn [negb orb].
    now rewrite !fromHex_toHex.
  - exists "". split; [reflexivity |].
    unfold Js.truthy in Ht. apply negb_false_iff, String.eqb_eq in Ht.
    now subst.
Qed.

Lemma toy_sound : soundCipher Fixture.toy.
Proof.
  intros key iv text _ _. eexists. split; [reflexivity |].
  split; [discriminate |]. cbn. now rewrite string_of_list_byte_of_string.
Qed.

Lemma decrypt_inverts_encrypt_witness :
  exists e, encrypt Fixture.toy Fixture.secret Fixture.iv "waha-key" = Ok e
            /\ decrypt Fixture.toy Fixture.secret e = Ok "waha-key".
Proof.
  apply (decrypt_inverts_encrypt Fixture.toy Fixture.secret Fixture.iv
           "waha-key").
  - exact toy_sound.
  - reflexivity.
  - reflexivity.
Defined.

Lemma length_fromHex (s : string) (n : nat) :
  allHex s = true -> String.length s = (2 * n)%nat ->
  List.length (fromHex s) = n.
Proof.
  revert s. induction n as [| n IH]; intros s Hs Hl.
  - destruct s; [reflexivity | discriminate].
  - destruct s as [| a [| b r]]; try (cbn in Hl; lia).
    cbn [allHex] in Hs. apply andb_prop in Hs as [Ha Hs].
    apply andb_prop in Hs as [Hb Hr].
    apply bool_decide_eq_true in Ha as [x Hx], Hb as [y Hy].
    cbn [fromHex]. rewrite Hx, Hy.
    apply hexValue_bound in Hx, Hy.
    destruct (Byte.of_N (16 * x + y)) as [v |] eqn:E.
    + cbn [List.length]. f_equal. apply IH; [exact Hr | cbn in Hl; lia].
    + apply Byte.of_N_None_iff in E. lia.
Qed.

(** X28: whatever key [getEncryptionKey] returns is an AES-256 key: a
    configured key is accepted only if it is 64 hexadecimal digits, the
    temporary key is the hexadecimal form of 32 random bytes, and in
    both cases the key [encrypt] and [decrypt] derive from it has
    exactly 32 bytes. *)
Theorem accepted_key_has_32_bytes key production random w k w' :
  List.length random = 32%nat ->
  run (getEncryptionKey key production random) w = (Ok k, w') ->
  List.length (keyBytes k) = 32%nat.
Proof.
  intros Hr. unfold getEncryptionKey, keyBytes.
  assert (Hrandom : forall line w0,
             run (let* _ := log line in Ret (toHex random)) w0 = (Ok k, w') ->
             List.length (fromHex (substring 0 64 k)) = 32%nat).
  { intros line w0. rewrite run_bind, run_log. cbn [run]. intros [= <- _].
    replace 64%nat with (String.length (toHex random))
      by (rewrite length_toHex; lia).
    now rewrite substring_whole, fromHex_toHex. }
  destruct key as [x |];
    [destruct (Js.truthy x) eqn:Hx |]; try (destruct production; [discriminate |]);
    try apply Hrandom.
  destruct (Nat.eqb_spec (String.length x) 64) as [Hl | _];
    cbn [negb orb]; [| discriminate].
  destruct (isHexString x) eqn:Hh; cbn [negb]; [| discriminate].
  cbn [run]. intros [= <- _]. rewrite <- Hl, substring_whole.
  apply andb_prop in Hh as [_ Hh]. apply length_fromHex; [exact Hh | lia].
Qed.

Lemma accepted_key_has_32_bytes_witness :
  List.length (keyBytes Fixture.secret) = 32%nat.
Proof.
  apply (accepted_key_has_32_bytes (Some Fixture.secret) true
           (repeat Byte.x00 32) Sample.world0 Fixture.secret Sample.world0).
  - reflexivity.
  - reflexivity.
Defined.

End EncryptionRoundTrip.

